(** * Price series, portfolios and data cleaning: a shallow embedding

    The development follows three source files:
    - [src/models/price_series.py]  (class [PriceSeries]),
    - [src/models/portfolio.py]     (class [Portfolio]),
    - [src/processors/cleaner.py]   (class [DataCleaner]),

    and, of [src/extractors/], the methods that work on data already
    received: [get_multiple_symbols] of [BaseAPIClient] over the download
    of a concrete client, [_standardize_output] of both extractors and
    [_filter_by_date_range] of [AlphaVantageExtractor].

    Modelling conventions.

    - Numbers.  A NumPy/Python float is a value of [float]: a rational, one of
      the two infinities, or NaN.  Arithmetic on finite values is exact (no
      rounding, no overflow, no signed zero); the special values follow
      IEEE 754, because pandas uses NaN as its missing value and the control
      flow of the program ([dropna], the Sharpe guard) depends on it.  The
      square root is a rounded one, as [np.sqrt] is.  Where overflow decides
      what the program does with the weights of a portfolio, the computation
      is given once more on IEEE binary64 values (module [binary64]).
    - Dates.  A timestamp is the number of days since the epoch, kept in a
      [float] cell; NaT is NaN.  A column carries its dtype.
    - Objects.  A [DataFrame] handed to [PriceSeries] is a mutable object
      shared with the caller, so frames live in a store and a series holds a
      reference.  Temporaries that never escape are plain values.
    - Exceptions.  A method is a state transformer returning [Ok v] or
      [Raise e]; the store written before a raise stays written.
    - Libraries.  pandas and NumPy are modelled as far as the three files
      use them, with the behaviour of pandas 2 (which [setup.py] asks for):
      [pct_change] pads missing values, a boolean mask is aligned on the
      labels of the frame it indexes, a frame built column by column takes
      the index of its first non-empty column.
    - Python.  A [dict] is an association list in insertion order whose keys
      are taken to be unique.  Printed lines are kept without the numbers
      formatted into them, and messages are written in ASCII.  Sizes
      ([n_simulations], [n_days]) are natural numbers.
    - Randomness.  [np.random] is a stream of standard normal variates in the
      state; [normal(loc, scale, size)] consumes [size] of them. *)

From Stdlib Require Import QArith Qround Qabs ZArith List String Ascii Bool Arith Lia.
From Stdlib Require Import Permutation Sorted.
From Stdlib Require PrimFloat.
Import ListNotations.
Local Open Scope string_scope.
Local Open Scope Q_scope.

(** ** Floating-point values *)

Inductive float : Type :=
| Fin (q : Q)
| PInf
| NInf
| NaN.

Definition fin (q : Q) : float := Fin (Qred q).
Definition of_Z (z : Z) : float := Fin (inject_Z z).
Definition of_nat (n : nat) : float := of_Z (Z.of_nat n).

Definition isna (x : float) : bool :=
  match x with NaN => true | _ => false end.

Definition notna (x : float) : bool := negb (isna x).

Definition isfinite (x : float) : bool :=
  match x with Fin _ => true | _ => false end.

(** Sign of a value: [1], [0] or [-1]; NaN has sign [0]. *)
Definition fsign (x : float) : Z :=
  match x with
  | Fin q => Z.sgn (Qnum q)
  | PInf => 1
  | NInf => -1
  | NaN => 0
  end.

(** The infinity of a given sign; sign [0] is the invalid operation. *)
Definition inf_of_sign (s : Z) : float :=
  if (0 <? s)%Z then PInf else if (s <? 0)%Z then NInf else NaN.

Definition fneg (x : float) : float :=
  match x with
  | Fin q => fin (- q)
  | PInf => NInf
  | NInf => PInf
  | NaN => NaN
  end.

Definition fadd (x y : float) : float :=
  match x, y with
  | NaN, _ | _, NaN => NaN
  | Fin a, Fin b => fin (a + b)
  | PInf, NInf | NInf, PInf => NaN
  | PInf, _ | _, PInf => PInf
  | NInf, _ | _, NInf => NInf
  end.

Definition fsub (x y : float) : float :=
  match x, y with
  | NaN, _ | _, NaN => NaN
  | Fin a, Fin b => fin (a - b)
  | PInf, PInf | NInf, NInf => NaN
  | PInf, _ | _, NInf => PInf
  | NInf, _ | _, PInf => NInf
  end.

Definition fmul (x y : float) : float :=
  match x, y with
  | NaN, _ | _, NaN => NaN
  | Fin a, Fin b => fin (a * b)
  | _, _ => inf_of_sign (fsign x * fsign y)
  end.

(** NumPy division: a finite non-zero value over zero is an infinity, zero
    over zero is NaN, and nothing is raised. *)
Definition fdiv (x y : float) : float :=
  match x, y with
  | NaN, _ | _, NaN => NaN
  | Fin a, Fin b =>
      if Qeq_bool b 0 then inf_of_sign (fsign x) else fin (a / b)
  | Fin _, _ => Fin 0
  | _, Fin b => if Qeq_bool b 0 then x else inf_of_sign (fsign x * fsign y)
  | _, _ => NaN
  end.

(** Comparison; [None] when an operand is NaN. *)
Definition fcmp (x y : float) : option comparison :=
  match x, y with
  | NaN, _ | _, NaN => None
  | Fin a, Fin b => Some (a ?= b)
  | PInf, PInf | NInf, NInf => Some Eq
  | PInf, _ | _, NInf => Some Gt
  | NInf, _ | _, PInf => Some Lt
  end.

Definition fltb (x y : float) : bool :=
  match fcmp x y with Some Lt => true | _ => false end.
Definition fleb (x y : float) : bool :=
  match fcmp x y with Some Lt | Some Eq => true | _ => false end.
Definition fgtb (x y : float) : bool := fltb y x.
Definition fgeb (x y : float) : bool := fleb y x.
Definition feqb (x y : float) : bool :=
  match fcmp x y with Some Eq => true | _ => false end.

Definition fabs (x : float) : float :=
  match x with
  | Fin q => fin (Qabs q)
  | PInf | NInf => PInf
  | NaN => NaN
  end.

(** A rounded square root on the non-negative rationals: the integer square
    root after scaling, sixteen decimal digits below the denominator. *)
Definition Qsqrt (q : Q) : Q :=
  Qred (Qmake (Z.sqrt (Qnum q * Zpos (Qden q) * 10 ^ 32))
              (Qden q * 10000000000000000)).

Definition fsqrt (x : float) : float :=
  match x with
  | Fin q => if Qle_bool 0 q then Fin (Qsqrt q) else NaN
  | PInf => PInf
  | NInf => NaN
  | NaN => NaN
  end.

(** Equality of index labels: as [Index.get_indexer] matches them, NaN
    matching NaN. *)
Definition label_eqb (x y : float) : bool :=
  match x, y with
  | NaN, NaN => true
  | _, _ => feqb x y
  end.

(** [np.isclose(a, b)] with the default [rtol = 1e-05], [atol = 1e-08]:
    [|a - b| <= atol + rtol * |b|], false on NaN, true on equal infinities. *)
Definition rtol : float := Fin (1 # 100000).
Definition atol : float := Fin (1 # 100000000).

Definition isclose (a b : float) : bool :=
  match a, b with
  | Fin _, Fin _ => fleb (fabs (fsub a b)) (fadd atol (fmul rtol (fabs b)))
  | PInf, PInf | NInf, NInf => true
  | _, _ => false
  end.

(** ** Exceptions and results *)

Inductive exn : Type :=
| ValueError (msg : string)
| KeyError (key : string)
| IndexError
| IndexingError
| TypeError
| AttributeError
| ZeroDivisionError.

Inductive result (A : Type) : Type :=
| Ok (a : A)
| Raise (e : exn).
Arguments Ok {A} a.
Arguments Raise {A} e.

Definition is_ok {A} (r : result A) : bool :=
  match r with Ok _ => true | Raise _ => false end.

(** ** Data frames *)

Inductive dtype : Type := dt_object | dt_datetime64 | dt_float64 | dt_int64.

Record Column : Type := mkColumn {
  col_name : string;
  col_dtype : dtype;
  col_values : list float
}.

(** Row labels, their dtype, and the columns, each as long as the index. *)
Record DataFrame : Type := mkDataFrame {
  df_index : list float;
  df_index_dtype : dtype;
  df_columns : list Column
}.

(** A labelled series of values, and one of booleans (a mask). *)
Definition Series : Type := list (float * float).
Definition BoolSeries : Type := list (float * bool).

(** ** The store: frames, standard output, the global random source *)

Definition ref : Type := nat.

Record State : Type := mkState {
  heap : list DataFrame;
  stdout : list string;
  (* np.random: the standard normal variates still to be drawn *)
  rng : nat -> float
}.

Definition M (A : Type) : Type := State -> result A * State.

Definition ret {A} (a : A) : M A := fun s => (Ok a, s).
Definition raise {A} (e : exn) : M A := fun s => (Raise e, s).
Definition bind {A B} (m : M A) (f : A -> M B) : M B :=
  fun s => match m s with
           | (Ok a, s') => f a s'
           | (Raise e, s') => (Raise e, s')
           end.
Definition lift {A} (r : result A) : M A := fun s => (r, s).

Notation "x <- m ;; k" := (bind m (fun x => k))
  (at level 61, m at next level, right associativity).
Notation "m ;;; k" := (bind m (fun _ => k))
  (at level 61, right associativity).

Fixpoint list_set {A} (l : list A) (i : nat) (a : A) : list A :=
  match l, i with
  | [], _ => []
  | _ :: r, O => a :: r
  | x :: r, S j => x :: list_set r j a
  end.

(** Reading, overwriting and creating a frame object. *)
Definition deref (r : ref) : M DataFrame :=
  fun s => match nth_error (heap s) r with
           | Some df => (Ok df, s)
           | None => (Raise AttributeError, s)
           end.

Definition store (r : ref) (df : DataFrame) : M unit :=
  fun s => (Ok tt, mkState (list_set (heap s) r df) (stdout s) (rng s)).

Definition alloc (df : DataFrame) : M ref :=
  fun s => (Ok (List.length (heap s)),
            mkState (heap s ++ [df]) (stdout s) (rng s)).

Definition print (line : string) : M unit :=
  fun s => (Ok tt, mkState (heap s) (stdout s ++ [line]) (rng s)).

(** ** Python built-ins *)

Module py.

(** [str.lower] on ASCII letters. *)
Definition lower_ascii (c : ascii) : ascii :=
  let n := nat_of_ascii c in
  if (65 <=? n)%nat && (n <=? 90)%nat then ascii_of_nat (n + 32) else c.

Fixpoint lower (s : string) : string :=
  match s with
  | EmptyString => EmptyString
  | String c r => String (lower_ascii c) (lower r)
  end.

(** A [dict] keeps insertion order; keys are unique. *)
Definition dict (V : Type) : Type := list (string * V).

Definition keys {V} (d : dict V) : list string := map fst d.
Definition values {V} (d : dict V) : list V := map snd d.

Fixpoint get {V} (d : dict V) (k : string) : option V :=
  match d with
  | [] => None
  | (k', v) :: r => if String.eqb k' k then Some v else get r k
  end.

Definition getitem {V} (d : dict V) (k : string) : result V :=
  match get d k with
  | Some v => Ok v
  | None => Raise (KeyError k)
  end.

Definition mem (k : string) (l : list string) : bool :=
  existsb (String.eqb k) l.

(** [set(a) == set(b)] *)
Definition set_eq (a b : list string) : bool :=
  forallb (fun k => mem k b) a && forallb (fun k => mem k a) b.

(** [sum(xs)]: starts from the integer [0]. *)
Definition sum (xs : list float) : float :=
  fold_left fadd xs (Fin 0).

(** Float division [a / b]: a zero divisor raises. *)
Definition truediv (a b : float) : result float :=
  match b with
  | Fin q => if Qeq_bool q 0 then Raise ZeroDivisionError else Ok (fdiv a b)
  | _ => Ok (fdiv a b)
  end.

(** [d[k] = v]: replaces the value under [k], or appends the entry. *)
Fixpoint setitem {V} (d : dict V) (k : string) (v : V) : dict V :=
  match d with
  | [] => [(k, v)]
  | (k', v') :: r =>
      if String.eqb k' k then (k', v) :: r else (k', v') :: setitem r k v
  end.

End py.

(** ** pandas *)

Module pd.

Definition RangeIndex (n : nat) : list float := map of_nat (seq 0 n).

(** [pd.DataFrame()] *)
Definition empty : DataFrame := mkDataFrame [] dt_object [].

Definition columns (df : DataFrame) : list string :=
  map col_name (df_columns df).

Definition nrows (df : DataFrame) : nat := List.length (df_index df).

(** [df[name]].  Two columns under one name give a frame, not a series; the
    operations applied to it below ([to_datetime], a truth test on
    [std() > 0]) then raise [ValueError]. *)
Definition getitem (df : DataFrame) (name : string) : result Column :=
  match filter (fun c => String.eqb (col_name c) name) (df_columns df) with
  | [] => Raise (KeyError name)
  | [c] => Ok c
  | _ => Raise (ValueError "duplicate column name")
  end.

Definition values (s : Series) : list float := map snd s.
Definition labels {V} (s : list (float * V)) : list float := map fst s.

Definition to_series (df : DataFrame) (c : Column) : Series :=
  combine (df_index df) (col_values c).

Definition is_datetime64_any_dtype (c : Column) : bool :=
  match col_dtype c with dt_datetime64 => true | _ => false end.

(** [pd.to_datetime]: strings are parsed and numbers read as offsets from the
    epoch; the model keeps the day each cell denotes and changes the dtype. *)
Definition to_datetime (c : Column) : Column :=
  mkColumn (col_name c) dt_datetime64 (col_values c).

Fixpoint set_column (cols : list Column) (c : Column) : list Column :=
  match cols with
  | [] => [c]
  | c' :: r =>
      if String.eqb (col_name c') (col_name c) then c :: r
      else c' :: set_column r c
  end.

(** [df[name] = c]: replaces the column of that name, or appends one. *)
Definition setitem (df : DataFrame) (name : string) (c : Column) : DataFrame :=
  mkDataFrame (df_index df) (df_index_dtype df)
    (set_column (df_columns df)
                (mkColumn name (col_dtype c) (col_values c))).

(** *** Sorting *)

(** The order of [sort_values]: ascending, missing values last. *)
Definition na_last_leb (x y : float) : bool :=
  if isna y then true else if isna x then false else fleb x y.

Fixpoint insert_key (p : nat * float) (l : list (nat * float))
  : list (nat * float) :=
  match l with
  | [] => [p]
  | q :: r => if na_last_leb (snd p) (snd q) then p :: l
              else q :: insert_key p r
  end.

Definition sort_keys (l : list (nat * float)) : list (nat * float) :=
  fold_right insert_key [] l.

(** Positions of the rows in sorted order.  NumPy leaves the order of equal
    keys open; this is the stable one. *)
Definition argsort (keys : list float) : list nat :=
  map fst (sort_keys (combine (seq 0 (List.length keys)) keys)).

Definition take (l : list float) (order : list nat) : list float :=
  map (fun i => nth i l NaN) order.

Definition take_rows (df : DataFrame) (order : list nat) : DataFrame :=
  mkDataFrame (take (df_index df) order) (df_index_dtype df)
    (map (fun c => mkColumn (col_name c) (col_dtype c)
                            (take (col_values c) order))
         (df_columns df)).

(** [df.sort_values(by)] *)
Definition sort_values (df : DataFrame) (by_ : string) : result DataFrame :=
  match getitem df by_ with
  | Ok c => Ok (take_rows df (argsort (col_values c)))
  | Raise e => Raise e
  end.

(** [df.reset_index(drop=True)] *)
Definition reset_index_drop (df : DataFrame) : DataFrame :=
  mkDataFrame (RangeIndex (nrows df)) dt_int64 (df_columns df).

(** [df.reset_index()]: the index becomes the first column. *)
Definition reset_index (df : DataFrame) : DataFrame :=
  let name := if py.mem "index" (columns df) then "level_0" else "index" in
  mkDataFrame (RangeIndex (nrows df)) dt_int64
    (mkColumn name (df_index_dtype df) (df_index df) :: df_columns df).

(** [df.rename(columns=mapping)] *)
Definition rename (df : DataFrame) (mapping : py.dict string) : DataFrame :=
  mkDataFrame (df_index df) (df_index_dtype df)
    (map (fun c =>
            mkColumn (match py.get mapping (col_name c) with
                      | Some n => n
                      | None => col_name c
                      end) (col_dtype c) (col_values c))
         (df_columns df)).

(** [df.columns = df.columns.str.lower()] *)
Definition columns_str_lower (df : DataFrame) : DataFrame :=
  mkDataFrame (df_index df) (df_index_dtype df)
    (map (fun c => mkColumn (py.lower (col_name c)) (col_dtype c)
                            (col_values c))
         (df_columns df)).

(** *** Series *)

(** Forward fill: a missing value takes the last value seen. *)
Fixpoint ffill_from (last : float) (l : list float) : list float :=
  match l with
  | [] => []
  | x :: r => if isna x then last :: ffill_from last r
              else x :: ffill_from x r
  end.

Definition ffill (l : list float) : list float := ffill_from NaN l.

(** [s.shift(1)] on the values *)
Definition shift1 (l : list float) : list float :=
  firstn (List.length l) (NaN :: l).

(** [s.pct_change()]: with the default [fill_method='pad'] of pandas 2,
    [data = s.ffill(); data / data.shift(1) - 1]. *)
Definition pct_change_values (l : list float) : list float :=
  let data := ffill l in
  map (fun p => fsub (fdiv (fst p) (snd p)) (Fin 1))
      (combine data (shift1 data)).

Definition pct_change (s : Series) : Series :=
  combine (labels s) (pct_change_values (values s)).

Definition dropna (s : Series) : Series :=
  filter (fun p => notna (snd p)) s.

(** [s.mean()], [s.std()] (sample standard deviation, [ddof = 1]),
    [s.min()], [s.max()]: missing values are skipped. *)
Definition mean (l : list float) : float :=
  let v := filter notna l in
  fdiv (py.sum v) (of_nat (List.length v)).

Definition std (l : list float) : float :=
  let v := filter notna l in
  let n := List.length v in
  if (n <=? 1)%nat then NaN
  else
    let m := mean v in
    fsqrt (fdiv (py.sum (map (fun x => fmul (fsub x m) (fsub x m)) v))
                (of_nat (n - 1))).

Definition min2 (a b : float) : float := if fltb b a then b else a.
Definition max2 (a b : float) : float := if fltb a b then b else a.

Definition reduce (f : float -> float -> float) (l : list float) : float :=
  match filter notna l with
  | [] => NaN
  | x :: r => fold_left f r x
  end.

Definition min (l : list float) : float := reduce min2 l.
Definition max (l : list float) : float := reduce max2 l.

(** [s.cumprod()]: a missing value stays missing and is skipped. *)
Fixpoint cumprod_from (acc : float) (l : list float) : list float :=
  match l with
  | [] => []
  | x :: r => if isna x then NaN :: cumprod_from acc r
              else fmul acc x :: cumprod_from (fmul acc x) r
  end.

Definition cumprod (l : list float) : list float := cumprod_from (Fin 1) l.

(** [s.expanding().max()]: the largest value seen so far, missing while
    nothing has been seen. *)
Fixpoint expanding_max_from (cur : float) (l : list float) : list float :=
  match l with
  | [] => []
  | x :: r =>
      let cur' := if isna x then cur
                  else if isna cur then x else max2 cur x in
      cur' :: expanding_max_from cur' r
  end.

Definition expanding_max (l : list float) : list float :=
  expanding_max_from NaN l.

(** [s.quantile(q)], linear interpolation between the two nearest ranks. *)
Fixpoint insert_sorted (x : float) (l : list float) : list float :=
  match l with
  | [] => [x]
  | y :: r => if fleb x y then x :: l else y :: insert_sorted x r
  end.

Definition sorted (l : list float) : list float :=
  fold_right insert_sorted [] l.

Definition quantile (l : list float) (q : Q) : float :=
  let v := sorted (filter notna l) in
  match v with
  | [] => NaN
  | _ =>
      let pos := q * inject_Z (Z.of_nat (List.length v - 1)) in
      let lo := Z.to_nat (Qfloor pos) in
      let frac := pos - inject_Z (Qfloor pos) in
      let a := nth lo v NaN in
      if Qeq_bool frac 0 then a
      else fadd a (fmul (fsub (nth (S lo) v NaN) a) (Fin frac))
  end.

(** *** Label-based selection *)

Fixpoint lookup {V} (l : float) (s : list (float * V)) : option V :=
  match s with
  | [] => None
  | (l', v) :: r => if label_eqb l' l then Some v else lookup l r
  end.

Fixpoint select {A} (flags : list bool) (l : list A) : list A :=
  match flags, l with
  | true :: fr, x :: r => x :: select fr r
  | false :: fr, _ :: r => select fr r
  | _, _ => []
  end.

Definition select_rows (df : DataFrame) (flags : list bool) : DataFrame :=
  mkDataFrame (select flags (df_index df)) (df_index_dtype df)
    (map (fun c => mkColumn (col_name c) (col_dtype c)
                            (select flags (col_values c)))
         (df_columns df)).

(** [check_bool_indexer]: the mask is aligned on the labels of the frame;
    a label of the frame the mask does not have makes it unalignable. *)
Fixpoint align_mask (index : list float) (mask : BoolSeries)
  : option (list bool) :=
  match index with
  | [] => Some []
  | l :: r =>
      match lookup l mask, align_mask r mask with
      | Some b, Some bs => Some (b :: bs)
      | _, _ => None
      end
  end.

(** [df[mask]] for a boolean series *)
Definition getitem_bool (df : DataFrame) (mask : BoolSeries)
  : result DataFrame :=
  match align_mask (df_index df) mask with
  | Some flags => Ok (select_rows df flags)
  | None => Raise IndexingError
  end.

(** [index.get_loc]: position of a label *)
Fixpoint index_of (l : float) (index : list float) : option nat :=
  match index with
  | [] => None
  | l' :: r => if label_eqb l' l then Some O
               else option_map S (index_of l r)
  end.

Fixpoint has_duplicates (index : list float) : bool :=
  match index with
  | [] => false
  | l :: r => existsb (label_eqb l) r || has_duplicates r
  end.

(** *** Frames built column by column *)

(** [df[name] = s] for a series [s].  A frame without rows takes the index
    of the first non-empty series it is given; afterwards a series is
    aligned on the frame's index, labels it lacks becoming NaN and labels
    only it has being dropped. *)
Definition setitem_series (df : DataFrame) (name : string) (s : Series)
  : DataFrame :=
  let df1 :=
    match df_index df, s with
    | [], _ :: _ =>
        mkDataFrame (labels s) dt_int64
          (map (fun c => mkColumn (col_name c) (col_dtype c)
                                  (repeat NaN (List.length s)))
               (df_columns df))
    | _, _ => df
    end in
  let vals := map (fun l => match lookup l s with
                            | Some v => v
                            | None => NaN
                            end) (df_index df1) in
  mkDataFrame (df_index df1) (df_index_dtype df1)
    (set_column (df_columns df1) (mkColumn name dt_float64 vals)).

(** [df.dropna()]: a row with a missing value in any column goes. *)
Definition complete_rows (df : DataFrame) : list bool :=
  map (fun i => forallb (fun c => notna (nth i (col_values c) NaN))
                        (df_columns df))
      (seq 0 (nrows df)).

Definition frame_dropna (df : DataFrame) : DataFrame :=
  select_rows df (complete_rows df).

(** *** Calendars and reindexing *)

(** [pd.date_range(start, end, freq='D')] *)
Definition date_range (start stop : float) : result (list float) :=
  match start, stop with
  | Fin a, Fin b =>
      if Qle_bool a b
      then Ok (map (fun k => fin (a + inject_Z (Z.of_nat k)))
                   (seq 0 (S (Z.to_nat (Qfloor (b - a))))))
      else Ok []
  | _, _ => Raise (ValueError "Neither start nor end can be NaT")
  end.

(** [df.set_index(name)] *)
Definition set_index (df : DataFrame) (name : string) : result DataFrame :=
  match getitem df name with
  | Ok c =>
      Ok (mkDataFrame (col_values c) (col_dtype c)
            (filter (fun c' => negb (String.eqb (col_name c') name))
                    (df_columns df)))
  | Raise e => Raise e
  end.

(** [df.reindex(target)] for a datetime target: rows are looked up by
    label, a label without a row gives a row of missing values. *)
Definition reindex (df : DataFrame) (target : list float)
  : result DataFrame :=
  if has_duplicates (df_index df)
  then Raise (ValueError "cannot reindex on an axis with duplicate labels")
  else
    Ok (mkDataFrame target dt_datetime64
          (map (fun c =>
                  mkColumn (col_name c) (col_dtype c)
                    (map (fun l => match index_of l (df_index df) with
                                   | Some i => nth i (col_values c) NaN
                                   | None => NaN
                                   end) target))
               (df_columns df))).

(** [df.fillna(method='ffill')] *)
Definition fillna_ffill (df : DataFrame) : DataFrame :=
  mkDataFrame (df_index df) (df_index_dtype df)
    (map (fun c => mkColumn (col_name c) (col_dtype c)
                            (ffill (col_values c)))
         (df_columns df)).

(** Distance to, and value of, the next value that is present. *)
Fixpoint next_valid (l : list float) : option (nat * float) :=
  match l with
  | [] => None
  | x :: r => if isna x
              then match next_valid r with
                   | Some (k, v) => Some (S k, v)
                   | None => None
                   end
              else Some (1%nat, x)
  end.

(** Linear interpolation over equally spaced rows: [prev] is the last value
    present and how far back it lies.  Gaps at the start stay, gaps at the
    end take the last value. *)
Fixpoint interpolate_from (prev : option (float * nat)) (l : list float)
  : list float :=
  match l with
  | [] => []
  | x :: r =>
      if isna x then
        match prev with
        | None => NaN :: interpolate_from None r
        | Some (u, a) =>
            (match next_valid r with
             | None => u
             | Some (b, v) =>
                 fadd u (fdiv (fmul (fsub v u) (of_nat a))
                              (of_nat (a + b)))
             end) :: interpolate_from (Some (u, S a)) r
        end
      else x :: interpolate_from (Some (x, 1%nat)) r
  end.

(** [df.interpolate(method='linear')], on the numeric columns *)
Definition interpolate_linear (df : DataFrame) : DataFrame :=
  mkDataFrame (df_index df) (df_index_dtype df)
    (map (fun c =>
            match col_dtype c with
            | dt_float64 | dt_int64 =>
                mkColumn (col_name c) dt_float64
                         (interpolate_from None (col_values c))
            | _ => c
            end)
         (df_columns df)).

(** The values of a column that supports arithmetic; dividing dates or
    strings is a [TypeError]. *)
Definition numeric (c : Column) : result (list float) :=
  match col_dtype c with
  | dt_float64 | dt_int64 => Ok (col_values c)
  | _ => Raise TypeError
  end.

(** [s.iloc[0]] and [s.iloc[-1]] *)
Definition iloc_first (l : list float) : result float :=
  match l with
  | [] => Raise IndexError
  | x :: _ => Ok x
  end.

Definition iloc_last (l : list float) : result float :=
  match rev l with
  | [] => Raise IndexError
  | x :: _ => Ok x
  end.

(** [s * w] and [a + b] for series on one index *)
Definition scale (s : Series) (w : float) : Series :=
  map (fun p => (fst p, fmul (snd p) w)) s.

Definition add (a b : Series) : Series :=
  map (fun p => (fst (fst p), fadd (snd (fst p)) (snd (snd p))))
      (combine a b).

(** *** Rolling windows *)

(** [s.rolling(window)] followed by a reduction [f]: at each row the last
    [window] values.  pandas turns infinite values into missing ones before
    it reduces, and asks for [window] values that are present: while fewer
    rows have been seen, or when one of the values is missing or infinite,
    there is no result. *)
Definition rolling (f : list float -> float) (window : nat) (l : list float)
  : list float :=
  map (fun i =>
         let w := firstn window (skipn (S i - window) l) in
         if (S i <? window)%nat || negb (forallb isfinite w) then NaN
         else f w)
      (seq 0 (List.length l)).

(** [df.reset_index()] for an index that may carry a name: the index becomes
    the first column, under its name, or under [index] ([level_0] when
    [index] is taken) if it has none; a column of that name already there
    is an error. *)
Definition reset_index_named (index_name : option string) (df : DataFrame)
  : result DataFrame :=
  let name :=
    match index_name with
    | Some n => n
    | None => if py.mem "index" (columns df) then "level_0" else "index"
    end in
  if py.mem name (columns df)
  then Raise (ValueError ("cannot insert " ++ name ++ ", already exists"))
  else Ok (mkDataFrame (RangeIndex (nrows df)) dt_int64
             (mkColumn name (df_index_dtype df) (df_index df)
              :: df_columns df)).

End pd.

(** ** NumPy *)

Module np.

Definition sqrt : float -> float := fsqrt.
Definition abs : float -> float := fabs.
Definition isclose : float -> float -> bool := isclose.

(** [np.zeros((n, d))] *)
Definition zeros (n d : nat) : list (list float) :=
  repeat (repeat (Fin 0) d) n.

(** [a.cumprod()] on an array: NaN propagates. *)
Fixpoint cumprod_from (acc : float) (l : list float) : list float :=
  match l with
  | [] => []
  | x :: r => fmul acc x :: cumprod_from (fmul acc x) r
  end.

Definition cumprod (l : list float) : list float := cumprod_from (Fin 1) l.

(** [np.random.normal(loc, scale, size)]: [size] consecutive standard normal
    variates of the global generator, each scaled and shifted; a negative
    scale is refused. *)
Definition random_normal (loc scale : float) (size : nat)
  : M (list float) :=
  fun s =>
    if fltb scale (Fin 0) then (Raise (ValueError "scale < 0"), s)
    else
      (Ok (map (fun k => fadd loc (fmul scale (rng s k))) (seq 0 size)),
       mkState (heap s) (stdout s) (fun k => rng s (k + size)%nat)).

End np.

(** ** [src/models/price_series.py] *)

Module PriceSeries.

Record t : Type := mk {
  symbol : string;
  data : ref;
  source : string;
  asset_type : string;
  _stats : py.dict float
}.

Definition set_data (self : t) (r : ref) : t :=
  mk (symbol self) r (source self) (asset_type self) (_stats self).

Definition set_stats (self : t) (d : py.dict float) : t :=
  mk (symbol self) (data self) (source self) (asset_type self) d.

Definition required : list string := ["date"; "close"].

Definition _validate_data (self : t) : M t :=
  df <- deref (data self) ;;
  if negb (forallb (fun col => py.mem col (pd.columns df)) required)
  then raise (ValueError "DataFrame debe contener: ['date', 'close']")
  else
    date <- lift (pd.getitem df "date") ;;
    (if negb (pd.is_datetime64_any_dtype date)
     then store (data self) (pd.setitem df "date" (pd.to_datetime date))
     else ret tt) ;;;
    df <- deref (data self) ;;
    sorted <- lift (pd.sort_values df "date") ;;
    r <- alloc (pd.reset_index_drop sorted) ;;
    ret (set_data self r).

Definition column_mapping : py.dict string :=
  [("Date", "date"); ("Close", "close"); ("Open", "open");
   ("High", "high"); ("Low", "low"); ("Volume", "volume");
   ("Adj Close", "adj_close")].

Definition _standardize_columns (self : t) : M t :=
  df <- deref (data self) ;;
  store (data self) (pd.rename df column_mapping) ;;;
  df <- deref (data self) ;;
  store (data self) (pd.columns_str_lower df) ;;;
  ret self.

(** [self.data['close']] as numbers, with the row labels *)
Definition close (self : t) : M Series :=
  df <- deref (data self) ;;
  c <- lift (pd.getitem df "close") ;;
  v <- lift (pd.numeric c) ;;
  ret (combine (df_index df) v).

Definition _calculate_max_drawdown (self : t) : M float :=
  c <- close self ;;
  let cumulative :=
    pd.cumprod (map (fadd (Fin 1)) (pd.pct_change_values (pd.values c))) in
  let running_max := pd.expanding_max cumulative in
  let drawdown :=
    map (fun p => fdiv (fsub (fst p) (snd p)) (snd p))
        (combine cumulative running_max) in
  ret (pd.min drawdown).

Definition get_returns (self : t) : M Series :=
  c <- close self ;;
  ret (pd.dropna (pd.pct_change c)).

Definition _calculate_basic_stats (self : t) : M t :=
  returns <- get_returns self ;;
  let r := pd.values returns in
  c <- close self ;;
  last <- lift (pd.iloc_last (pd.values c)) ;;
  first <- lift (pd.iloc_first (pd.values c)) ;;
  mdd <- _calculate_max_drawdown self ;;
  ret (set_stats self
    [("mean_return", pd.mean r);
     ("std_return", pd.std r);
     ("sharpe_ratio",
        if fgtb (pd.std r) (Fin 0)
        then fmul (fdiv (pd.mean r) (pd.std r)) (np.sqrt (Fin 252))
        else Fin 0);
     ("total_return", fsub (fdiv last first) (Fin 1));
     ("volatility", fmul (pd.std r) (np.sqrt (Fin 252)));
     ("max_drawdown", mdd)]).

Definition __post_init__ (self : t) : M t :=
  self <- _validate_data self ;;
  self <- _standardize_columns self ;;
  _calculate_basic_stats self.

(** [PriceSeries(symbol=..., data=..., source=..., asset_type=...)] *)
Definition new (symbol : string) (data : ref) (source asset_type : string)
  : M t :=
  __post_init__ (mk symbol data source asset_type []).

Definition get_stats (self : t) : py.dict float := _stats self.

(** [rolling_stats(window)], for a window given as a natural number *)
Definition rolling_stats (self : t) (window : nat) : M DataFrame :=
  returns <- get_returns self ;;
  let r := pd.values returns in
  let rolling_mean := pd.rolling pd.mean window r in
  let rolling_std := pd.rolling pd.std window r in
  ret (mkDataFrame (pd.labels returns) dt_int64
         [mkColumn "rolling_mean" dt_float64 rolling_mean;
          mkColumn "rolling_std" dt_float64 rolling_std;
          mkColumn "rolling_sharpe" dt_float64
            (map (fun p => fmul (fdiv (fst p) (snd p)) (np.sqrt (Fin 252)))
                 (combine rolling_mean rolling_std))]).

End PriceSeries.

(** ** Loops *)

Fixpoint foldM {A B} (f : B -> A -> M B) (l : list A) (b : B) : M B :=
  match l with
  | [] => ret b
  | a :: r => b' <- f b a ;; foldM f r b'
  end.

Fixpoint mapM {A B} (f : A -> M B) (l : list A) : M (list B) :=
  match l with
  | [] => ret []
  | a :: r => b <- f a ;; bs <- mapM f r ;; ret (b :: bs)
  end.

(** ** [src/models/portfolio.py] *)

Module Portfolio.

Record t : Type := mk {
  holdings : py.dict PriceSeries.t;
  weights : py.dict float;
  name : string
}.

Definition set_weights (self : t) (w : py.dict float) : t :=
  mk (holdings self) w (name self).

(** [{k: v/total_weight for k, v in self.weights.items()}] *)
Fixpoint rescale (w : py.dict float) (total_weight : float)
  : result (py.dict float) :=
  match w with
  | [] => Ok []
  | (k, v) :: r =>
      match py.truediv v total_weight with
      | Raise e => Raise e
      | Ok v' =>
          match rescale r total_weight with
          | Raise e => Raise e
          | Ok r' => Ok ((k, v') :: r')
          end
      end
  end.

(** The line printed when the weights are rescaled (the total is formatted
    into it). *)
Definition warning : string :=
  "Pesos no suman 1.0 ({total_weight}). Normalizando...".

Definition __post_init__ (self : t) : M t :=
  let total_weight := py.sum (py.values (weights self)) in
  self <- (if negb (np.isclose total_weight (Fin 1))
           then print warning ;;;
                w <- lift (rescale (weights self) total_weight) ;;
                ret (set_weights self w)
           else ret self) ;;
  if negb (py.set_eq (py.keys (holdings self)) (py.keys (weights self)))
  then raise (ValueError
                "Los simbolos en holdings y weights deben coincidir")
  else ret self.

(** [Portfolio(holdings=..., weights=..., name=...)] *)
Definition new (holdings : py.dict PriceSeries.t) (weights : py.dict float)
               (name : string) : M t :=
  __post_init__ (mk holdings weights name).

(** What [sum(...)] over series gives: the integer it starts from when
    there is nothing to add, a series otherwise. *)
Inductive total : Type :=
| Int (z : Z)
| Ser (s : Series).

Definition plus (acc : total) (s : Series) : total :=
  match acc with
  | Int z => Ser (map (fun p => (fst p, fadd (of_Z z) (snd p))) s)
  | Ser a => Ser (pd.add a s)
  end.

Definition get_portfolio_returns (self : t) : M total :=
  all_returns <-
    foldM (fun all_returns item =>
             returns <- PriceSeries.get_returns (snd item) ;;
             ret (pd.setitem_series all_returns (fst item) returns))
          (holdings self) pd.empty ;;
  let all_returns := pd.frame_dropna all_returns in
  terms <-
    mapM (fun symbol =>
            c <- lift (pd.getitem all_returns symbol) ;;
            w <- lift (py.getitem (weights self) symbol) ;;
            ret (pd.scale (pd.to_series all_returns c) w))
         (py.keys (holdings self)) ;;
  ret (fold_left plus terms (Int 0)).

(** Attribute access [.mean()], [.std()] on the result: an [int] has none. *)
Definition as_series (r : total) : M Series :=
  match r with
  | Ser s => ret s
  | Int _ => raise AttributeError
  end.

Definition get_stats (self : t) : M (py.dict float) :=
  r <- get_portfolio_returns self ;;
  portfolio_returns <- as_series r ;;
  let v := pd.values portfolio_returns in
  ret [("mean_return", pd.mean v);
       ("std_return", pd.std v);
       ("sharpe_ratio",
          fmul (fdiv (pd.mean v) (pd.std v)) (np.sqrt (Fin 252)));
       ("annualized_return", fmul (pd.mean v) (Fin 252));
       ("annualized_volatility", fmul (pd.std v) (np.sqrt (Fin 252)))].

Definition monte_carlo_simulation (self : t) (n_simulations n_days : nat)
                                  (initial_investment : float)
  : M (list (list float)) :=
  r <- get_portfolio_returns self ;;
  portfolio_returns <- as_series r ;;
  let mean_return := pd.mean (pd.values portfolio_returns) in
  let std_return := pd.std (pd.values portfolio_returns) in
  foldM (fun simulations i =>
           daily_returns <- np.random_normal mean_return std_return n_days ;;
           let price_path :=
             map (fmul initial_investment)
                 (np.cumprod (map (fadd (Fin 1)) daily_returns)) in
           ret (list_set simulations i price_path))
        (seq 0 n_simulations)
        (np.zeros n_simulations n_days).

End Portfolio.

(** *** The weights in IEEE binary64

    The arithmetic that [Portfolio.__post_init__] does on the weights, once
    more on the doubles of the machine, for inputs where overflow decides
    the outcome. *)

Module binary64.

Import PrimFloat.

(** [sum(xs)] *)
Definition sum (xs : list PrimFloat.float) : PrimFloat.float :=
  fold_left add xs zero.

Definition isfinite (x : PrimFloat.float) : bool := ltb (abs x) infinity.

(** [np.isclose(a, b)]: [|a - b| <= atol + rtol * |b|] on finite values,
    equality otherwise *)
#[warnings="-inexact-float"]
Definition isclose (a b : PrimFloat.float) : bool :=
  if isfinite a && isfinite b
  then leb (abs (sub a b)) (add 1e-8%float (mul 1e-5%float (abs b)))
  else eqb a b.

(** [{k: v/total_weight for k, v in self.weights.items()}] *)
Fixpoint rescale (w : py.dict PrimFloat.float) (total_weight : PrimFloat.float)
  : result (py.dict PrimFloat.float) :=
  match w with
  | [] => Ok []
  | (k, v) :: r =>
      if eqb total_weight zero then Raise ZeroDivisionError
      else match rescale r total_weight with
           | Raise e => Raise e
           | Ok r' => Ok ((k, div v total_weight) :: r')
           end
  end.



End binary64.

(** ** [src/processors/cleaner.py] *)

Module DataCleaner.

Definition remove_outliers (series : PriceSeries.t) (method : string)
                           (threshold : float) : M PriceSeries.t :=
  returns <- PriceSeries.get_returns series ;;
  let r := pd.values returns in
  mask <-
    (if String.eqb method "iqr" then
       let Q1 := pd.quantile r (1 # 4) in
       let Q3 := pd.quantile r (3 # 4) in
       let IQR := fsub Q3 Q1 in
       ret (map (fun p =>
                   (fst p,
                    fgeb (snd p) (fsub Q1 (fmul (Fin (3 # 2)) IQR))
                    && fleb (snd p) (fadd Q3 (fmul (Fin (3 # 2)) IQR))))
                returns)
     else if String.eqb method "zscore" then
       ret (map (fun p =>
                   (fst p,
                    fltb (np.abs (fdiv (fsub (snd p) (pd.mean r))
                                       (pd.std r)))
                         threshold))
                returns)
     else raise (ValueError "Metodo desconocido: {method}")) ;;
  df <- deref (PriceSeries.data series) ;;
  clean_data <- lift (pd.getitem_bool df mask) ;;
  clean_data <- alloc (pd.reset_index_drop clean_data) ;;
  PriceSeries.new (PriceSeries.symbol series) clean_data
                  (PriceSeries.source series)
                  (PriceSeries.asset_type series).

Definition fill_missing_dates (series : PriceSeries.t) (method : string)
  : M PriceSeries.t :=
  data <- deref (PriceSeries.data series) ;;
  date <- lift (pd.getitem data "date") ;;
  date_range <- lift (pd.date_range (pd.min (col_values date))
                                    (pd.max (col_values date))) ;;
  df <- lift (pd.set_index data "date") ;;
  df <- lift (pd.reindex df date_range) ;;
  let df :=
    if String.eqb method "ffill" then pd.fillna_ffill df
    else if String.eqb method "interpolate" then pd.interpolate_linear df
    else df in
  let df := pd.rename (pd.reset_index df) [("index", "date")] in
  df <- alloc df ;;
  PriceSeries.new (PriceSeries.symbol series) df
                  (PriceSeries.source series)
                  (PriceSeries.asset_type series).

End DataCleaner.

(** ** [src/extractors/base_extractor.py] *)

Module BaseAPIClient.

Section Client.

(** The method [get_historical_prices] of the concrete client, and the text
    [str(e)] of an exception. *)
Variable get_historical_prices : string -> string -> string -> M DataFrame.
Variable str : exn -> string.

(** The check mark and the cross of the two printed lines are written [+]
    and [x]. *)
Definition get_multiple_symbols (symbols : list string)
                                (start_date end_date : string)
  : M (py.dict DataFrame) :=
  foldM (fun results symbol s =>
           match get_historical_prices symbol start_date end_date s with
           | (Ok df, s1) =>
               (print ("+ " ++ symbol ++ " descargado") ;;;
                ret (py.setitem results symbol df)) s1
           | (Raise e, s1) =>
               (print ("x Error en " ++ symbol ++ ": " ++ str e) ;;;
                ret results) s1
           end)
        symbols [].

End Client.

End BaseAPIClient.

(** ** [src/extractors/yahoo_extractor.py] *)

Module YahooFinanceExtractor.

(** [_standardize_output(raw_data)], with [index_name] the name of the index
    of [raw_data]. *)
Definition _standardize_output (index_name : option string)
                               (raw_data : DataFrame) : result DataFrame :=
  match pd.reset_index_named index_name raw_data with
  | Ok df =>
      Ok (pd.rename (pd.columns_str_lower df)
                    [("index", "date"); ("adj close", "adj_close")])
  | Raise e => Raise e
  end.

End YahooFinanceExtractor.

(** ** [src/extractors/alpha_extractor.py] *)

Module AlphaVantageExtractor.

Definition and_then {A B} (r : result A) (f : A -> result B) : result B :=
  match r with
  | Ok a => f a
  | Raise e => Raise e
  end.

Fixpoint traverse {A B} (f : A -> result B) (l : list A) : result (list B) :=
  match l with
  | [] => Ok []
  | a :: r =>
      and_then (f a) (fun b =>
      and_then (traverse f r) (fun bs => Ok (b :: bs)))
  end.

(** One entry of [rows]. *)
Record row : Type := mkRow {
  row_date : float;
  row_open : float;
  row_high : float;
  row_low : float;
  row_close : float;
  row_adj_close : float;
  row_volume : float
}.

(** [pd.DataFrame(rows)]: without rows the frame has no columns. *)
Definition DataFrame_of_rows (rows : list row) : DataFrame :=
  match rows with
  | [] => mkDataFrame [] dt_int64 []
  | _ :: _ =>
      mkDataFrame (pd.RangeIndex (List.length rows)) dt_int64
        [mkColumn "date" dt_datetime64 (map row_date rows);
         mkColumn "open" dt_float64 (map row_open rows);
         mkColumn "high" dt_float64 (map row_high rows);
         mkColumn "low" dt_float64 (map row_low rows);
         mkColumn "close" dt_float64 (map row_close rows);
         mkColumn "adj_close" dt_float64 (map row_adj_close rows);
         mkColumn "volume" dt_int64 (map row_volume rows)]
  end.

Section Parsing.

(** [pd.to_datetime], [float] and [int] on a string: the value read, or the
    exception raised for a string that does not parse. *)
Variable to_datetime : string -> result float.
Variable float_of_str : string -> result float.
Variable int_of_str : string -> result float.

Definition field (values : py.dict string) (key : string)
                 (parse : string -> result float) : result float :=
  and_then (py.getitem values key) parse.

Definition parse_row (item : string * py.dict string) : result row :=
  let (date_str, values) := item in
  and_then (to_datetime date_str) (fun date =>
  and_then (field values "1. open" float_of_str) (fun open =>
  and_then (field values "2. high" float_of_str) (fun high =>
  and_then (field values "3. low" float_of_str) (fun low =>
  and_then (field values "4. close" float_of_str) (fun close =>
  and_then (field values "5. adjusted close" float_of_str) (fun adj_close =>
  and_then (field values "6. volume" int_of_str) (fun volume =>
  Ok (mkRow date open high low close adj_close volume)))))))).

(** [_standardize_output(raw_data)], for the entries of [raw_data] that hold
    a table of quotes. *)
Definition _standardize_output (raw_data : py.dict (py.dict (py.dict string)))
  : result DataFrame :=
  let time_series :=
    match py.get raw_data "Time Series (Daily)" with
    | Some t => t
    | None => []
    end in
  and_then (traverse parse_row time_series) (fun rows =>
  let df := DataFrame_of_rows rows in
  and_then (pd.sort_values df "date") (fun df =>
  Ok (pd.reset_index_drop df))).

(** [_filter_by_date_range(df, start_date, end_date)].  Comparing a column
    that does not hold timestamps with a timestamp is a [TypeError]. *)
Definition _filter_by_date_range (df : DataFrame)
                                 (start_date end_date : string)
  : result DataFrame :=
  and_then (to_datetime start_date) (fun start =>
  and_then (to_datetime end_date) (fun stop =>
  and_then (pd.getitem df "date") (fun date =>
  match col_dtype date with
  | dt_datetime64 =>
      let mask :=
        combine (df_index df)
                (map (fun d => fgeb d start && fleb d stop)
                     (col_values date)) in
      and_then (pd.getitem_bool df mask) (fun df =>
      Ok (pd.reset_index_drop df))
  | _ => Raise TypeError
  end))).

End Parsing.

End AlphaVantageExtractor.

(** ** Sample data *)

Definition floats (l : list Z) : list float := map of_Z l.

(** A frame with a [date] and a [close] column under the given names. *)
Definition frame (date_name : string) (date_dtype : dtype) (dates : list Z)
                 (close_name : string) (closes : list Z) : DataFrame :=
  mkDataFrame (pd.RangeIndex (List.length dates)) dt_int64
    [mkColumn date_name date_dtype (floats dates);
     mkColumn close_name dt_float64 (floats closes)].

Definition state0 (frames : list DataFrame) : State :=
  mkState frames [] (fun _ => Fin 0).

Definition run {A} (m : M A) (s : State) : result A := fst (m s).

(** The close prices of a series, as stored. *)
Definition closes_of (ps : PriceSeries.t) (s : State) : option (list float) :=
  match nth_error (heap s) (PriceSeries.data ps) with
  | Some df => match pd.getitem df "close" with
               | Ok c => Some (col_values c)
               | Raise _ => None
               end
  | None => None
  end.

Definition dates_of (ps : PriceSeries.t) (s : State) : option (list float) :=
  match nth_error (heap s) (PriceSeries.data ps) with
  | Some df => match pd.getitem df "date" with
               | Ok c => Some (col_values c)
               | Raise _ => None
               end
  | None => None
  end.

Definition stat (ps : PriceSeries.t) (key : string) : option float :=
  py.get (PriceSeries.get_stats ps) key.

(** Provider output with capitalised column names. *)
Definition capitalised_frame : DataFrame :=
  frame "Date" dt_datetime64 [1; 2; 3]%Z "Close" [100; 101; 102]%Z.

(** Three days with one calendar day missing. *)
Definition gap_frame : DataFrame :=
  frame "date" dt_datetime64 [1; 3; 4]%Z "close" [100; 99; 110]%Z.

(** A fall on the first day, rises afterwards. *)
Definition early_fall_frame : DataFrame :=
  frame "date" dt_datetime64 [1; 2; 3]%Z "close" [100; 50; 60]%Z.

Definition single_frame : DataFrame :=
  frame "date" dt_datetime64 [1]%Z "close" [100]%Z.

(** Prices doubling every day: every daily return is [1]. *)
Definition doubling_frame : DataFrame :=
  frame "date" dt_datetime64 [1; 2; 3]%Z "close" [1; 2; 4]%Z.

Definition flat_frame : DataFrame :=
  frame "date" dt_datetime64 [1; 2; 3]%Z "close" [100; 100; 100]%Z.

(** Two assets quoted over calendar ranges that do not meet. *)
Definition january_frame : DataFrame :=
  frame "date" dt_datetime64 [1; 2; 3]%Z "close" [100; 110; 121]%Z.

Definition march_frame : DataFrame :=
  frame "date" dt_datetime64 [61; 62; 63]%Z "close" [100; 120; 180]%Z.

Definition half : float := Fin (1 # 2).

Definition disjoint_portfolio : M Portfolio.t :=
  a <- PriceSeries.new "A" 0%nat "yahoo" "stock" ;;
  b <- PriceSeries.new "B" 1%nat "yahoo" "stock" ;;
  Portfolio.new [("A", a); ("B", b)] [("A", half); ("B", half)] "P".

Definition single_asset_portfolio : M Portfolio.t :=
  a <- PriceSeries.new "A" 0%nat "yahoo" "stock" ;;
  Portfolio.new [("A", a)] [("A", Fin 1)] "P".

Definition empty_portfolio : M Portfolio.t := Portfolio.new [] [] "P".

(** Two rows quoted for the same day. *)
Definition duplicate_day_frame : DataFrame :=
  frame "date" dt_datetime64 [2; 1; 2]%Z "close" [110; 100; 120]%Z.

(** A price that falls to zero and stays there. *)
Definition worthless_frame : DataFrame :=
  frame "date" dt_datetime64 [1; 2; 3]%Z "close" [100; 0; 0]%Z.

(** Dates given as text. *)
Definition text_dates_frame : DataFrame :=
  frame "date" dt_object [1; 2; 3]%Z "close" [100; 101; 102]%Z.

(** ** What the constructor does to the store *)

(** The caller's frame after [_validate_data]: its [date] column converted
    when it was not a datetime column. *)
Definition validated_input (df : DataFrame) (date : Column) : DataFrame :=
  if pd.is_datetime64_any_dtype date then df
  else pd.setitem df "date" (pd.to_datetime date).

(** The frame the series keeps after [_validate_data] ... *)
Definition sorted_frame (df : DataFrame) (date : Column) : DataFrame :=
  pd.reset_index_drop
    (pd.take_rows (validated_input df date) (pd.argsort (col_values date))).

(** ... and after [_standardize_columns]. *)
Definition standardized (df : DataFrame) : DataFrame :=
  pd.columns_str_lower (pd.rename df PriceSeries.column_mapping).

(** A price a return can be computed from: finite and not zero. *)
Definition priced (x : float) : bool :=
  match x with
  | Fin q => negb (Qeq_bool q 0)
  | _ => false
  end.

(** Ascending with missing values last, ties allowed. *)
Definition ascending (l : list float) : Prop :=
  Sorted (fun x y => pd.na_last_leb x y = true) l.

(** The rational a finite value stands for. *)
Definition Qval (x : float) : Q :=
  match x with Fin q => q | _ => 0 end.

Definition Qsum (l : list float) : Q :=
  fold_right (fun x acc => Qval x + acc) 0 l.

(** Whether constructing a series from the frame at [r] converts its [date]
    column in place. *)
Definition needs_conversion (s : State) (r : ref) : bool :=
  match nth_error (heap s) r with
  | Some df => match pd.getitem df "date" with
               | Ok date => negb (pd.is_datetime64_any_dtype date)
               | Raise _ => false
               end
  | None => false
  end.

(** The frame object at [r] is the same before and after. *)
Definition unchanged_at (s s' : State) (r : ref) : Prop :=
  nth_error (heap s') r = nth_error (heap s) r.

Definition unscaled_weights : py.dict float :=
  [("A", Fin 2); ("B", Fin 6)].


Definition two_holdings : py.dict PriceSeries.t :=
  [("A", PriceSeries.mk "A" 0%nat "yahoo" "stock" []);
   ("B", PriceSeries.mk "B" 1%nat "yahoo" "stock" [])].

(** An operation that left every frame that existed before it as it was, and
    whose result, if any, holds a frame created by it. *)
Definition leaves_store_alone (s : State) (res : result PriceSeries.t)
                              (s' : State) : Prop :=
  (forall r, (r < List.length (heap s))%nat -> unchanged_at s s' r)
  /\ (forall ps, res = Ok ps ->
                 (List.length (heap s) <= PriceSeries.data ps)%nat).

(** The order on (row, key) pairs that [sort_values] sorts by. *)
Definition key_le (p q : nat * float) : Prop :=
  pd.na_last_leb (snd p) (snd q) = true.

(** A computation that leaves the state [s] as it is, whatever it returns. *)
Definition pure_at {A} (m : M A) (s : State) : Prop :=
  forall r s1, m s = (r, s1) -> s1 = s.

(** The [i]-th simulated path of a run of [n_days] days started in state [s]:
    the draws [i * n_days .. i * n_days + n_days - 1] of the generator,
    scaled to the fitted distribution and compounded from the initial
    investment. *)
Definition price_path (s : State) (mean_return std_return : float)
                      (n_days : nat) (initial_investment : float) (i : nat)
  : list float :=
  map (fmul initial_investment)
      (np.cumprod
         (map (fadd (Fin 1))
              (map (fun k => fadd mean_return
                                  (fmul std_return
                                        (rng s (i * n_days + k)%nat)))
                   (seq 0 n_days)))).

(** A frame with both columns and no rows. *)
Definition no_rows_frame : DataFrame :=
  frame "date" dt_datetime64 []%Z "close" []%Z.

(** The keys of the per-asset statistics. *)
Definition stat_keys : list string :=
  ["mean_return"; "std_return"; "sharpe_ratio"; "total_return";
   "volatility"; "max_drawdown"].

(** A stored frame with two rows for day [2]. *)
Definition sorted_duplicates_frame : DataFrame :=
  frame "date" dt_datetime64 [1; 2; 2]%Z "close" [100; 110; 120]%Z.

(** The drawdown series [_calculate_max_drawdown] takes the minimum of, as
    a function of the closes. *)
Definition drawdown (closes : list float) : list float :=
  let cumulative :=
    pd.cumprod (map (fadd (Fin 1)) (pd.pct_change_values closes)) in
  let running_max := pd.expanding_max cumulative in
  map (fun p => fdiv (fsub (fst p) (snd p)) (snd p))
      (combine cumulative running_max).

(** The daily returns of a list of closes, as [get_returns] gives them. *)
Definition returns_of (closes : list float) : list float :=
  pd.values (pd.dropna (pd.pct_change
    (combine (pd.RangeIndex (List.length closes)) closes))).

(** One observation. *)
Definition one_row_frame : DataFrame :=
  frame "date" dt_datetime64 [1]%Z "close" [100]%Z.

(** Whether a download started in state [s] returns a frame. *)
Definition fetched (get_historical_prices : string -> string -> string
                                            -> M DataFrame)
                   (symbol start_date end_date : string) (s : State) : bool :=
  match fst (get_historical_prices symbol start_date end_date s) with
  | Ok _ => true
  | Raise _ => false
  end.

(** A daily frame as Yahoo Finance returns it: indexed by day, the index
    named [Date]. *)
Definition yahoo_daily_frame : DataFrame :=
  mkDataFrame (floats [1; 2]%Z) dt_datetime64
    [mkColumn "Open" dt_float64 (floats [100; 110]%Z);
     mkColumn "Close" dt_float64 (floats [105; 120]%Z);
     mkColumn "Adj Close" dt_float64 (floats [104; 119]%Z)].

(** A reader of strings that knows the strings of a table only. *)
Definition read (table : py.dict float) (s : string) : result float :=
  match py.get table s with
  | Some v => Ok v
  | None => Raise (ValueError "could not convert string")
  end.

Definition sample_days : py.dict float :=
  [("2024-01-01", Fin 1); ("2024-01-02", Fin 2); ("2024-01-03", Fin 3)].

Definition sample_numbers : py.dict float :=
  [("100", Fin 100); ("110", Fin 110); ("121", Fin 121)].

Definition sample_quote (price : string) : py.dict string :=
  [("1. open", price); ("2. high", price); ("3. low", price);
   ("4. close", price); ("5. adjusted close", price); ("6. volume", "100")].

(** A reply with two quotes, the later day first. *)
Definition sample_reply : py.dict (py.dict (py.dict string)) :=
  [("Time Series (Daily)",
    [("2024-01-02", sample_quote "110"); ("2024-01-01", sample_quote "100")])].

(** The daily return at row [i >= 1], labelled by its row:
    [close[i] / close[i-1] - 1] on the forward-filled closes. *)
Definition return_at (closes : list float) (i : nat) : float * float :=
  (of_nat i,
   fsub (fdiv (nth i (pd.ffill closes) NaN)
              (nth (i - 1) (pd.ffill closes) NaN))
        (Fin 1)).

(** One timestamp per day from [a] to [b]. *)
Definition calendar (a b : Q) : list float :=
  map (fun k => fin (a + inject_Z (Z.of_nat k)))
      (seq 0 (S (Z.to_nat (Qfloor (b - a))))).

(** The name [_standardize_columns] gives a column. *)
Definition standard_name (c : string) : string :=
  py.lower (match py.get PriceSeries.column_mapping c with
            | Some n => n
            | None => c
            end).

(** * Properties *)

(** ** The monad and the store *)

Lemma bind_ok {A B} (m : M A) (f : A -> M B) s b s' :
  bind m f s = (Ok b, s') ->
  exists a s1, m s = (Ok a, s1) /\ f a s1 = (Ok b, s').
Proof.
  unfold bind. destruct (m s) as [[a|e] s1]; intros H.
  - exists a, s1. split; [reflexivity|exact H].
  - discriminate.
Qed.

Lemma bind_raise {A B} (m : M A) (f : A -> M B) s e s' :
  bind m f s = (Raise e, s') ->
  m s = (Raise e, s')
  \/ exists a s1, m s = (Ok a, s1) /\ f a s1 = (Raise e, s').
Proof.
  unfold bind. destruct (m s) as [[a|e'] s1]; intros H.
  - right. exists a, s1. split; [reflexivity|exact H].
  - left. inversion H. reflexivity.
Qed.

Lemma lift_ok {A} (r : result A) s a s' :
  lift r s = (Ok a, s') -> r = Ok a /\ s' = s.
Proof. unfold lift. intros H. inversion H. split; reflexivity. Qed.

Lemma deref_ok r s df s' :
  deref r s = (Ok df, s') -> nth_error (heap s) r = Some df /\ s' = s.
Proof.
  unfold deref. destruct (nth_error (heap s) r); intros H; inversion H.
  split; reflexivity.
Qed.

Lemma list_set_length {A} (l : list A) i a :
  List.length (list_set l i a) = List.length l.
Proof.
  revert i. induction l as [|x l IH]; intros [|i]; cbn; auto.
Qed.

Lemma nth_error_list_set_eq {A} (l : list A) i a x :
  nth_error l i = Some x -> nth_error (list_set l i a) i = Some a.
Proof.
  revert i. induction l as [|y l IH]; intros [|i]; cbn; try discriminate; auto.
Qed.

Lemma nth_error_list_set_ne {A} (l : list A) i j a :
  i <> j -> nth_error (list_set l i a) j = nth_error l j.
Proof.
  revert i j. induction l as [|y l IH]; intros [|i] [|j] H; cbn; auto.
  - congruence.
Qed.

Lemma list_set_twice {A} (l : list A) i a b :
  list_set (list_set l i a) i b = list_set l i b.
Proof.
  revert i. induction l as [|x l IH]; intros [|i]; cbn; auto.
  now rewrite IH.
Qed.

Lemma list_set_app_last {A} (l : list A) x y :
  list_set (l ++ [x]) (List.length l) y = (l ++ [y])%list.
Proof. induction l as [|z l IH]; cbn; [reflexivity|now rewrite IH]. Qed.

Lemma nth_error_app_last {A} (l : list A) x :
  nth_error (l ++ [x]) (List.length l) = Some x.
Proof. induction l as [|z l IH]; cbn; auto. Qed.

Lemma pure_ret {A} (x : A) s : pure_at (ret x) s.
Proof. intros r s1 H. inversion H. reflexivity. Qed.

Lemma pure_raise {A} e s : pure_at (@raise A e) s.
Proof. intros r s1 H. inversion H. reflexivity. Qed.

Lemma pure_lift {A} (x : result A) s : pure_at (lift x) s.
Proof. intros r s1 H. inversion H. reflexivity. Qed.

Lemma pure_deref r s : pure_at (deref r) s.
Proof.
  intros x s1. unfold deref. destruct (nth_error (heap s) r);
    intros H; inversion H; reflexivity.
Qed.

Lemma pure_bind {A B} (m : M A) (f : A -> M B) s :
  pure_at m s -> (forall a, pure_at (f a) s) -> pure_at (bind m f) s.
Proof.
  unfold pure_at, bind. intros Hm Hf r s1.
  destruct (m s) as [[a|e] s0] eqn:E; pose proof (Hm _ _ eq_refl) as ->.
  - apply Hf.
  - intros H. inversion H. reflexivity.
Qed.

Lemma bind_pure {A B} (m : M A) (f : A -> M B) s res s' :
  pure_at m s ->
  bind m f s = (res, s') ->
  (s' = s /\ exists e, res = Raise e)
  \/ exists a, m s = (Ok a, s) /\ f a s = (res, s').
Proof.
  unfold bind, pure_at. intros Hp H.
  destruct (m s) as [[a|e] s1] eqn:E; pose proof (Hp _ _ eq_refl) as ->.
  - right. exists a. split; [reflexivity|exact H].
  - left. inversion H. split; [reflexivity|eauto].
Qed.

Lemma pure_foldM {A B} (f : B -> A -> M B) l b s :
  (forall b a, pure_at (f b a) s) -> pure_at (foldM f l b) s.
Proof.
  intros Hf. revert b. induction l as [|a l IH]; intros b; cbn [foldM].
  - apply pure_ret.
  - apply pure_bind; [apply Hf|apply IH].
Qed.

Lemma pure_mapM {A B} (f : A -> M B) l s :
  (forall a, pure_at (f a) s) -> pure_at (mapM f l) s.
Proof.
  intros Hf. induction l as [|a l IH]; cbn [mapM].
  - apply pure_ret.
  - apply pure_bind; [apply Hf|]. intros b.
    apply pure_bind; [apply IH|]. intros bs. apply pure_ret.
Qed.

Lemma mapM_length {A B} (f : A -> M B) l s bs s' :
  mapM f l s = (Ok bs, s') -> List.length bs = List.length l.
Proof.
  revert s bs s'. induction l as [|a l IH]; intros s bs s' H; cbn [mapM] in H.
  - inversion H. reflexivity.
  - apply bind_ok in H. destruct H as (b & s1 & _ & H).
    apply bind_ok in H. destruct H as (bs' & s2 & Hm & H).
    inversion H. cbn. f_equal. eapply IH. exact Hm.
Qed.

(** ** Floating-point values *)

Lemma fdiv_nan_r x : fdiv x NaN = NaN.
Proof. destruct x; reflexivity. Qed.

Lemma fsub_nan_l y : fsub NaN y = NaN.
Proof. reflexivity. Qed.

Lemma fleb_total x y :
  isna x = false -> isna y = false -> fleb x y = false -> fleb y x = true.
Proof.
  unfold fleb, fcmp.
  destruct x as [a| | |], y as [b| | |]; cbn; try discriminate; auto.
  intros _ _. rewrite <- (Qcompare_antisym a b).
  destruct (a ?= b); cbn; auto; discriminate.
Qed.

Lemma of_nat_label_neq_0 k :
  (1 <= k)%nat -> label_eqb (of_nat k) (of_nat 0) = false.
Proof.
  intros Hk. unfold label_eqb, feqb, of_nat, of_Z, fcmp, Qcompare. cbn.
  destruct (Z.of_nat k * 1 ?= 0)%Z eqn:E; try reflexivity.
  apply Z.compare_eq in E. lia.
Qed.

Lemma Qsqrt_nonneg q : 0 <= Qsqrt q.
Proof.
  unfold Qsqrt. rewrite Qred_correct. unfold Qle. cbn [Qnum Qden].
  rewrite Z.mul_0_l, Z.mul_1_r. apply Z.sqrt_nonneg.
Qed.

Lemma fsqrt_not_negative x : fltb (fsqrt x) (Fin 0) = false.
Proof.
  destruct x as [q| | |]; cbn [fsqrt]; try reflexivity.
  destruct (Qle_bool 0 q); [|reflexivity].
  unfold fltb, fcmp.
  destruct (Qcompare_spec (Qsqrt q) 0) as [H|H|H]; try reflexivity.
  exfalso. apply (Qlt_not_le _ _ H). apply Qsqrt_nonneg.
Qed.

Lemma priced_notna x : priced x = true -> notna x = true.
Proof. destruct x; cbn; auto; discriminate. Qed.

Lemma priced_return a b :
  priced a = true -> priced b = true ->
  notna (fsub (fdiv a b) (Fin 1)) = true.
Proof.
  destruct a as [p| | |], b as [q| | |]; cbn; try discriminate.
  intros _ Hq. destruct (Qeq_bool q 0); [discriminate|reflexivity].
Qed.

Lemma isclose_one q : q == 1 -> isclose (Fin q) (Fin 1) = true.
Proof.
  intros E. unfold isclose.
  remember (fadd atol (fmul rtol (fabs (Fin 1)))) as b eqn:Hb.
  vm_compute in Hb. subst b.
  unfold fleb, fcmp, fabs, fsub, fin.
  assert (Hlt : Qred (Qabs (Qred (q - 1))) < 1001 # 100000000).
  { rewrite !Qred_correct, E. reflexivity. }
  rewrite (proj1 (Qlt_alt _ _) Hlt). reflexivity.
Qed.

Lemma fold_fadd_fin l q0 :
  forallb isfinite l = true ->
  exists q, fold_left fadd l (Fin q0) = Fin q /\ q == q0 + Qsum l.
Proof.
  revert q0. induction l as [|x l IH]; intros q0 H;
    unfold Qsum; cbn [fold_left fold_right].
  - exists q0. split; [reflexivity|ring].
  - cbn in H. apply andb_prop in H. destruct H as [Hx Hl].
    destruct x as [a| | |]; try discriminate. cbn [fadd fin Qval].
    destruct (IH (Qred (q0 + a)) Hl) as (q & Hq & Eq).
    exists q. split; [exact Hq|].
    rewrite Eq, Qred_correct. unfold Qsum. ring.
Qed.

Lemma sum_fin l :
  forallb isfinite l = true ->
  exists q, py.sum l = Fin q /\ q == Qsum l.
Proof.
  intros H. destruct (fold_fadd_fin l 0 H) as (q & Hq & Eq).
  exists q. split; [exact Hq|]. rewrite Eq. ring.
Qed.

(** ** Sorting *)

Lemma na_last_leb_total x y :
  pd.na_last_leb x y = false -> pd.na_last_leb y x = true.
Proof.
  unfold pd.na_last_leb.
  destruct (isna y) eqn:Ey; [discriminate|].
  destruct (isna x) eqn:Ex; [reflexivity|].
  apply fleb_total; assumption.
Qed.

Lemma insert_key_perm p l : Permutation (pd.insert_key p l) (p :: l).
Proof.
  induction l as [|q l IH]; cbn; [reflexivity|].
  destruct (pd.na_last_leb (snd p) (snd q)); [reflexivity|].
  rewrite IH. apply perm_swap.
Qed.

Lemma sort_keys_perm l : Permutation (pd.sort_keys l) l.
Proof.
  induction l as [|p l IH]; cbn; [reflexivity|].
  rewrite insert_key_perm. now constructor.
Qed.

Lemma insert_key_sorted p l :
  Sorted key_le l -> Sorted key_le (pd.insert_key p l).
Proof.
  induction 1 as [|q l Hs IH Hhd]; cbn.
  - repeat constructor.
  - destruct (pd.na_last_leb (snd p) (snd q)) eqn:E.
    + constructor; [constructor; assumption|]. constructor. exact E.
    + constructor; [exact IH|].
      apply na_last_leb_total in E.
      destruct l as [|q' l]; cbn.
      * constructor. exact E.
      * destruct (pd.na_last_leb (snd p) (snd q')); constructor;
          [exact E|]. inversion Hhd; assumption.
Qed.

Lemma sort_keys_sorted l : Sorted key_le (pd.sort_keys l).
Proof.
  induction l as [|p l IH]; cbn; [constructor|].
  apply insert_key_sorted. exact IH.
Qed.

Lemma argsort_length keys :
  List.length (pd.argsort keys) = List.length keys.
Proof.
  unfold pd.argsort. rewrite length_map.
  rewrite (Permutation_length (sort_keys_perm _)).
  rewrite length_combine, length_seq. lia.
Qed.

Lemma combine_seq_nth (keys : list float) start p :
  In p (combine (seq start (List.length keys)) keys) ->
  nth (fst p - start) keys NaN = snd p /\ (start <= fst p)%nat.
Proof.
  revert start. induction keys as [|k keys IH]; intros start; cbn; [intros []|].
  intros [<-|H]; cbn.
  - rewrite Nat.sub_diag. split; [reflexivity|lia].
  - apply IH in H. destruct H as [H1 H2].
    replace (fst p - start)%nat with (S (fst p - S start)) by lia.
    split; [exact H1|lia].
Qed.

(** The sorted column is the sorted list of its keys. *)
Lemma take_argsort keys :
  pd.take keys (pd.argsort keys)
  = map snd (pd.sort_keys (combine (seq 0 (List.length keys)) keys)).
Proof.
  unfold pd.take, pd.argsort. rewrite map_map.
  apply map_ext_in. intros p Hp.
  apply (Permutation_in _ (sort_keys_perm _)) in Hp.
  apply combine_seq_nth in Hp. destruct Hp as [Hp _].
  rewrite Nat.sub_0_r in Hp. exact Hp.
Qed.

Lemma map_snd_combine_seq {A} (l : list A) start :
  map snd (combine (seq start (List.length l)) l) = l.
Proof.
  revert start. induction l as [|x l IH]; intros start; cbn;
    [reflexivity|]. now rewrite IH.
Qed.

Lemma take_argsort_perm keys :
  Permutation (pd.take keys (pd.argsort keys)) keys.
Proof.
  rewrite take_argsort.
  rewrite (Permutation_map snd (sort_keys_perm _)).
  rewrite map_snd_combine_seq. reflexivity.
Qed.

Lemma Sorted_map_snd l :
  Sorted key_le l ->
  Sorted (fun x y => pd.na_last_leb x y = true) (map snd l).
Proof.
  induction 1 as [|p l Hs IH Hhd]; cbn; constructor; [exact IH|].
  destruct Hhd; cbn; constructor. assumption.
Qed.

Lemma take_argsort_sorted keys :
  Sorted (fun x y => pd.na_last_leb x y = true)
         (pd.take keys (pd.argsort keys)).
Proof.
  rewrite take_argsort. apply Sorted_map_snd, sort_keys_sorted.
Qed.

(** ** Series and frames *)

Lemma ffill_from_length a l :
  List.length (pd.ffill_from a l) = List.length l.
Proof.
  revert a. induction l as [|y l IH]; intros a; cbn; [reflexivity|].
  destruct (isna y); cbn; now rewrite IH.
Qed.

Lemma ffill_length l : List.length (pd.ffill l) = List.length l.
Proof. apply ffill_from_length. Qed.

Lemma ffill_from_id a l :
  forallb notna l = true -> pd.ffill_from a l = l.
Proof.
  revert a. induction l as [|x l IH]; intros a H; cbn; [reflexivity|].
  cbn in H. apply andb_prop in H. destruct H as [Hx Hl].
  unfold notna in Hx. destruct (isna x); [discriminate|].
  now rewrite IH.
Qed.

Lemma priced_ffill l : forallb priced l = true -> pd.ffill l = l.
Proof.
  intros H. apply ffill_from_id. rewrite forallb_forall in *.
  intros x Hx. apply priced_notna, H, Hx.
Qed.

Lemma shift1_length l : List.length (pd.shift1 l) = List.length l.
Proof. unfold pd.shift1. rewrite length_firstn. cbn. lia. Qed.

Lemma pct_change_values_length l :
  List.length (pd.pct_change_values l) = List.length l.
Proof.
  unfold pd.pct_change_values.
  rewrite length_map, length_combine, shift1_length, ffill_length. lia.
Qed.

(** The return at the first row is always missing. *)
Lemma pct_change_values_cons x l :
  exists rest, pd.pct_change_values (x :: l) = NaN :: rest
               /\ List.length rest = List.length l.
Proof.
  unfold pd.pct_change_values, pd.ffill, pd.shift1.
  cbn [pd.ffill_from].
  assert (Hlen : forall a l, List.length (pd.ffill_from a l) = List.length l).
  { intros a l0. revert a. induction l0 as [|y l0 IH]; intros a; cbn;
      [reflexivity|]. destruct (isna y); cbn; now rewrite IH. }
  destruct (isna x); cbn [List.length firstn combine map fst snd];
    rewrite fdiv_nan_r, fsub_nan_l; eexists; (split; [reflexivity|]);
    rewrite length_map, length_combine, length_firstn; cbn [List.length];
    rewrite Hlen; lia.
Qed.

(** The value at row [i]: missing at row [0], the ratio of consecutive
    (forward-filled) closes less one afterwards. *)
Lemma pct_change_values_nth l i :
  (i < List.length l)%nat ->
  nth i (pd.pct_change_values l) NaN
  = fsub (fdiv (nth i (pd.ffill l) NaN)
               (match i with
                | O => NaN
                | S j => nth j (pd.ffill l) NaN
                end))
         (Fin 1).
Proof.
  intros Hi. unfold pd.pct_change_values.
  change NaN with ((fun p => fsub (fdiv (fst p) (snd p)) (Fin 1)) (NaN, NaN))
    at 1.
  rewrite map_nth.
  rewrite combine_nth by (now rewrite shift1_length).
  cbn [fst snd]. f_equal. f_equal.
  unfold pd.shift1. rewrite nth_firstn, ffill_length.
  apply Nat.ltb_lt in Hi. rewrite Hi. destruct i; reflexivity.
Qed.

Lemma labels_combine (a b : list float) :
  List.length a = List.length b -> pd.labels (combine a b) = a.
Proof.
  unfold pd.labels. revert b.
  induction a as [|x a IH]; intros [|y b]; cbn; try discriminate; auto.
  intros H. f_equal. apply IH. lia.
Qed.

Lemma values_combine (a b : list float) :
  List.length a = List.length b -> pd.values (combine a b) = b.
Proof.
  unfold pd.values. revert b.
  induction a as [|x a IH]; intros [|y b]; cbn; try discriminate; auto.
  intros H. f_equal. apply IH. lia.
Qed.

Lemma RangeIndex_length n : List.length (pd.RangeIndex n) = n.
Proof. unfold pd.RangeIndex. now rewrite length_map, length_seq. Qed.

Lemma RangeIndex_nth n i :
  (i < n)%nat -> nth i (pd.RangeIndex n) NaN = of_nat i.
Proof.
  intros Hi. unfold pd.RangeIndex.
  rewrite (nth_indep _ NaN (of_nat 0)) by (now rewrite length_map, length_seq).
  rewrite map_nth, seq_nth by exact Hi. reflexivity.
Qed.

Lemma lookup_none {V} l (m : list (float * V)) :
  (forall p, In p m -> label_eqb (fst p) l = false) ->
  pd.lookup l m = None.
Proof.
  induction m as [|[l' v] m IH]; intros H; cbn [pd.lookup]; [reflexivity|].
  pose proof (H (l', v) (or_introl eq_refl)) as E. cbn [fst] in E.
  rewrite E. apply IH.
  intros p Hp. apply H. right. exact Hp.
Qed.

Lemma filter_set_column name (cols : list Column) dt v :
  filter (fun c => String.eqb (col_name c) name)
         (pd.set_column cols (mkColumn name dt v))
  = match filter (fun c => String.eqb (col_name c) name) cols with
    | [] => [mkColumn name dt v]
    | _ :: t => mkColumn name dt v :: t
    end.
Proof.
  induction cols as [|c cols IH]; cbn.
  - rewrite String.eqb_refl. reflexivity.
  - destruct (String.eqb (col_name c) name) eqn:E; cbn.
    + rewrite String.eqb_refl. reflexivity.
    + rewrite E, IH. reflexivity.
Qed.

Lemma getitem_setitem df name c c' :
  pd.getitem df name = Ok c ->
  pd.getitem (pd.setitem df name c') name
  = Ok (mkColumn name (col_dtype c') (col_values c')).
Proof.
  unfold pd.getitem, pd.setitem. cbn [df_columns].
  rewrite filter_set_column.
  destruct (filter _ (df_columns df)) as [|x [|y t]]; try discriminate.
  reflexivity.
Qed.

Lemma getitem_In df name c :
  pd.getitem df name = Ok c -> In c (df_columns df) /\ col_name c = name.
Proof.
  unfold pd.getitem. intros H.
  destruct (filter _ (df_columns df)) as [|x [|y t]] eqn:E; try discriminate.
  inversion H; subst x.
  assert (Hin : In c (filter (fun c0 => String.eqb (col_name c0) name)
                             (df_columns df))) by (rewrite E; now left).
  apply filter_In in Hin. destruct Hin as [Hin Hn].
  split; [exact Hin|]. now apply String.eqb_eq.
Qed.

Lemma In_set_column cols c : In c (pd.set_column cols c).
Proof.
  induction cols as [|c' cols IH]; cbn; [now left|].
  destruct (String.eqb (col_name c') (col_name c)); [now left|now right].
Qed.

Lemma numeric_values c v : pd.numeric c = Ok v -> v = col_values c.
Proof.
  unfold pd.numeric. destruct (col_dtype c); intros H; inversion H;
    reflexivity.
Qed.

Lemma std_not_negative l : fltb (pd.std l) (Fin 0) = false.
Proof.
  unfold pd.std. destruct (_ <=? 1)%nat; [reflexivity|].
  apply fsqrt_not_negative.
Qed.

Lemma cumprod_from_length acc l :
  List.length (np.cumprod_from acc l) = List.length l.
Proof.
  revert acc. induction l as [|x l IH]; intros acc; cbn;
    [reflexivity|now rewrite IH].
Qed.

(** ** Reading a series leaves the store alone *)

Lemma close_pure self s res s' :
  PriceSeries.close self s = (res, s') -> s' = s.
Proof.
  unfold PriceSeries.close, bind, deref, lift, ret.
  destruct (nth_error (heap s) (PriceSeries.data self)) as [df|];
    [|intros H; inversion H; reflexivity].
  destruct (pd.getitem df "close") as [c|e];
    [|intros H; inversion H; reflexivity].
  destruct (pd.numeric c); intros H; inversion H; reflexivity.
Qed.

Lemma close_inv ps s c s' :
  PriceSeries.close ps s = (Ok c, s') ->
  exists df col v,
    nth_error (heap s) (PriceSeries.data ps) = Some df
    /\ pd.getitem df "close" = Ok col
    /\ pd.numeric col = Ok v
    /\ c = combine (df_index df) v.
Proof.
  unfold PriceSeries.close, bind, deref, lift, ret.
  destruct (nth_error (heap s) (PriceSeries.data ps)) as [df|] eqn:Hdf;
    [|discriminate].
  destruct (pd.getitem df "close") as [col|] eqn:Hcol; [|discriminate].
  destruct (pd.numeric col) as [v|] eqn:Hv; [|discriminate].
  intros H. inversion H. exists df, col, v. repeat split; assumption.
Qed.

Lemma get_returns_eq self s :
  PriceSeries.get_returns self s
  = match PriceSeries.close self s with
    | (Ok c, _) => (Ok (pd.dropna (pd.pct_change c)), s)
    | (Raise e, _) => (Raise e, s)
    end.
Proof.
  unfold PriceSeries.get_returns, bind.
  destruct (PriceSeries.close self s) as [[c|e] s1] eqn:E;
    apply close_pure in E; subst; reflexivity.
Qed.

Lemma pure_get_returns ps s : pure_at (PriceSeries.get_returns ps) s.
Proof.
  intros r s1. rewrite get_returns_eq.
  destruct (PriceSeries.close ps s) as [[c|e] s0]; intros H; inversion H;
    reflexivity.
Qed.

Lemma max_drawdown_pure self s res s' :
  PriceSeries._calculate_max_drawdown self s = (res, s') -> s' = s.
Proof.
  unfold PriceSeries._calculate_max_drawdown, bind.
  destruct (PriceSeries.close self s) as [[c|e] s1] eqn:E;
    apply close_pure in E; subst; unfold ret; intros H; inversion H;
    reflexivity.
Qed.

(** ** The constructor, step by step *)

(** Once both required columns are there, validation goes through. *)
Lemma validate_tail self s df date :
  nth_error (heap s) (PriceSeries.data self) = Some df ->
  pd.getitem df "date" = Ok date ->
  ((if negb (pd.is_datetime64_any_dtype date)
    then store (PriceSeries.data self)
               (pd.setitem df "date" (pd.to_datetime date))
    else ret tt) ;;;
   df <- deref (PriceSeries.data self) ;;
   sorted <- lift (pd.sort_values df "date") ;;
   r <- alloc (pd.reset_index_drop sorted) ;;
   ret (PriceSeries.set_data self r)) s
  = (Ok (PriceSeries.set_data self (List.length (heap s))),
     mkState
       ((if pd.is_datetime64_any_dtype date then heap s
         else list_set (heap s) (PriceSeries.data self)
                       (validated_input df date))
        ++ [sorted_frame df date])
       (stdout s) (rng s)).
Proof.
  intros Hdf Hdate. unfold sorted_frame, validated_input, bind.
  destruct (pd.is_datetime64_any_dtype date) eqn:Edt; cbn [negb].
  - unfold ret, deref, lift, alloc. rewrite Hdf.
    unfold pd.sort_values. rewrite Hdate. reflexivity.
  - unfold store, ret, deref, lift, alloc. cbn [heap stdout rng].
    rewrite (nth_error_list_set_eq _ _ _ _ Hdf).
    unfold pd.sort_values.
    rewrite (getitem_setitem _ _ _ _ Hdate).
    cbn [heap stdout rng col_values pd.to_datetime].
    rewrite list_set_length. reflexivity.
Qed.

Lemma validate_ok self s self1 s1 :
  PriceSeries._validate_data self s = (Ok self1, s1) ->
  exists df date,
    nth_error (heap s) (PriceSeries.data self) = Some df
    /\ pd.getitem df "date" = Ok date
    /\ self1 = PriceSeries.set_data self (List.length (heap s))
    /\ s1 = mkState
              ((if pd.is_datetime64_any_dtype date then heap s
                else list_set (heap s) (PriceSeries.data self)
                              (validated_input df date))
               ++ [sorted_frame df date])
              (stdout s) (rng s).
Proof.
  unfold PriceSeries._validate_data. intros H.
  apply bind_ok in H. destruct H as (df & s0 & Hd & H).
  apply deref_ok in Hd. destruct Hd as [Hdf ->].
  destruct (negb _); [discriminate|].
  apply bind_ok in H. destruct H as (date & s0 & Hg & H).
  apply lift_ok in Hg. destruct Hg as [Hdate ->].
  exists df, date. split; [exact Hdf|]. split; [exact Hdate|].
  unfold sorted_frame, validated_input.
  unfold bind in H.
  destruct (pd.is_datetime64_any_dtype date) eqn:Edt; cbn [negb] in H.
  - unfold ret, deref, lift, alloc in H. rewrite Hdf in H.
    unfold pd.sort_values in H. rewrite Hdate in H.
    inversion H. split; reflexivity.
  - unfold store, ret, deref, lift, alloc in H. cbn [heap stdout rng] in H.
    rewrite (nth_error_list_set_eq _ _ _ _ Hdf) in H.
    unfold pd.sort_values in H.
    rewrite (getitem_setitem _ _ _ _ Hdate) in H.
    inversion H. rewrite list_set_length. split; reflexivity.
Qed.

Lemma validate_raise self s e s1 :
  PriceSeries._validate_data self s = (Raise e, s1) -> s1 = s.
Proof.
  unfold PriceSeries._validate_data. intros H.
  apply bind_raise in H. destruct H as [H|(df & s0 & Hd & H)].
  - unfold deref in H.
    destruct (nth_error (heap s) (PriceSeries.data self));
      inversion H; reflexivity.
  - apply deref_ok in Hd. destruct Hd as [Hdf ->].
    destruct (negb (forallb _ PriceSeries.required)).
    + inversion H; reflexivity.
    + apply bind_raise in H. destruct H as [H|(date & s0 & Hl & H)].
      * inversion H; reflexivity.
      * apply lift_ok in Hl. destruct Hl as [Hdate ->].
        rewrite (validate_tail _ _ _ _ Hdf Hdate) in H. discriminate.
Qed.

Lemma standardize_ok self s self1 s1 :
  PriceSeries._standardize_columns self s = (Ok self1, s1) ->
  exists df,
    nth_error (heap s) (PriceSeries.data self) = Some df
    /\ self1 = self
    /\ s1 = mkState (list_set (heap s) (PriceSeries.data self)
                              (standardized df))
                    (stdout s) (rng s).
Proof.
  unfold PriceSeries._standardize_columns, bind, deref, store, ret.
  destruct (nth_error (heap s) (PriceSeries.data self)) as [df|] eqn:Hdf;
    [|discriminate].
  cbn [heap stdout rng].
  rewrite (nth_error_list_set_eq _ _ _ _ Hdf).
  intros H. inversion H. exists df. repeat split.
  rewrite list_set_twice. reflexivity.
Qed.

Lemma standardize_at self s df :
  nth_error (heap s) (PriceSeries.data self) = Some df ->
  PriceSeries._standardize_columns self s
  = (Ok self, mkState (list_set (heap s) (PriceSeries.data self)
                                (standardized df))
                      (stdout s) (rng s)).
Proof.
  intros Hdf.
  unfold PriceSeries._standardize_columns, bind, deref, store, ret.
  rewrite Hdf. cbn [heap stdout rng].
  rewrite (nth_error_list_set_eq _ _ _ _ Hdf). cbn [heap stdout rng].
  rewrite list_set_twice. reflexivity.
Qed.

Lemma stats_ok self s ps s' :
  PriceSeries._calculate_basic_stats self s = (Ok ps, s') ->
  s' = s
  /\ PriceSeries.data ps = PriceSeries.data self
  /\ exists c, PriceSeries.close self s = (Ok c, s) /\ c <> [].
Proof.
  unfold PriceSeries._calculate_basic_stats. intros H.
  apply bind_ok in H. destruct H as (returns & s1 & Hr & H).
  rewrite get_returns_eq in Hr.
  destruct (PriceSeries.close self s) as [[c|e] s0] eqn:Hc;
    [|discriminate].
  pose proof (close_pure _ _ _ _ Hc) as ->.
  inversion Hr; subst returns s1; clear Hr.
  unfold bind in H. rewrite Hc in H. unfold lift in H.
  destruct (pd.iloc_last (pd.values c)) as [last|]; [|discriminate].
  destruct (pd.iloc_first (pd.values c)) as [first|] eqn:Hf; [|discriminate].
  destruct (PriceSeries._calculate_max_drawdown self s) as [[mdd|] s2] eqn:Hm;
    [|discriminate].
  apply max_drawdown_pure in Hm. subst s2.
  unfold ret in H. inversion H. subst. repeat split.
  exists c. split; [reflexivity|].
  intros ->. discriminate.
Qed.

Lemma stats_effect self s res s' :
  PriceSeries._calculate_basic_stats self s = (res, s') ->
  s' = s
  /\ forall ps, res = Ok ps -> PriceSeries.data ps = PriceSeries.data self.
Proof.
  unfold PriceSeries._calculate_basic_stats, bind.
  rewrite get_returns_eq.
  destruct (PriceSeries.close self s) as [[c|e] s0] eqn:Hc;
    pose proof (close_pure _ _ _ _ Hc) as ->;
    [|intros H; inversion H; split; [reflexivity|discriminate]].
  rewrite Hc. unfold lift.
  destruct (pd.iloc_last (pd.values c));
    [|intros H; inversion H; split; [reflexivity|discriminate]].
  destruct (pd.iloc_first (pd.values c));
    [|intros H; inversion H; split; [reflexivity|discriminate]].
  destruct (PriceSeries._calculate_max_drawdown self s) as [[mdd|] s2] eqn:Hm;
    apply max_drawdown_pure in Hm; subst s2;
    [|intros H; inversion H; split; [reflexivity|discriminate]].
  unfold ret. intros H. inversion H. split; [reflexivity|].
  intros ps Hps. inversion Hps. reflexivity.
Qed.

(** A successful construction, as a whole: the caller's frame [df] is at most
    converted, and the series owns one new frame, sorted and renamed. *)
Lemma new_ok sym r src ty st ps st' :
  PriceSeries.new sym r src ty st = (Ok ps, st') ->
  exists df date c,
    nth_error (heap st) r = Some df
    /\ pd.getitem df "date" = Ok date
    /\ PriceSeries.data ps = List.length (heap st)
    /\ st' = mkState
               ((if pd.is_datetime64_any_dtype date then heap st
                 else list_set (heap st) r (validated_input df date))
                ++ [standardized (sorted_frame df date)])
               (stdout st) (rng st)
    /\ PriceSeries.close ps st' = (Ok c, st')
    /\ c <> [].
Proof.
  unfold PriceSeries.new, PriceSeries.__post_init__. intros H.
  apply bind_ok in H. destruct H as (self1 & s1 & Hval & H).
  apply bind_ok in H. destruct H as (self2 & s2 & Hstd & Hstats).
  apply validate_ok in Hval. cbn [PriceSeries.data] in Hval.
  destruct Hval as (df & date & Hdf & Hdate & -> & ->).
  apply standardize_ok in Hstd.
  destruct Hstd as (df' & Hdf' & -> & ->).
  apply stats_ok in Hstats.
  destruct Hstats as (-> & Hdata & c & Hc & Hne).
  cbn [PriceSeries.data PriceSeries.set_data heap stdout rng] in *.
  set (h1 := if pd.is_datetime64_any_dtype date then heap st
             else list_set (heap st) r (validated_input df date)) in *.
  assert (Hlen : List.length h1 = List.length (heap st)).
  { unfold h1. destruct (pd.is_datetime64_any_dtype date);
      [reflexivity|apply list_set_length]. }
  rewrite <- Hlen in Hdf', Hc, Hdata |- *.
  rewrite nth_error_app_last in Hdf'. inversion Hdf'; subst df'.
  rewrite list_set_app_last in Hc |- *.
  exists df, date, c. repeat split; try assumption.
  unfold PriceSeries.close in *.
  cbn [PriceSeries.data PriceSeries.set_data] in Hc.
  rewrite Hdata. exact Hc.
Qed.

Lemma new_ok_frame sym r src ty st ps st' :
  PriceSeries.new sym r src ty st = (Ok ps, st') ->
  exists df date,
    nth_error (heap st) r = Some df
    /\ pd.getitem df "date" = Ok date
    /\ nth_error (heap st') (PriceSeries.data ps)
       = Some (standardized (sorted_frame df date)).
Proof.
  intros Hnew. apply new_ok in Hnew.
  destruct Hnew as (df & date & c & Hdf & Hdate & Hdata & Hst & Hc & Hne).
  exists df, date. split; [exact Hdf|]. split; [exact Hdate|].
  subst st'. cbn [heap]. rewrite Hdata.
  destruct (pd.is_datetime64_any_dtype date).
  - apply nth_error_app_last.
  - rewrite <- (list_set_length (heap st) r (validated_input df date)).
    apply nth_error_app_last.
Qed.

(** Every outcome of the constructor: it either raises before touching the
    store, or converts the caller's frame at most and adds one frame. *)
Lemma new_effect sym r src ty st res st' :
  PriceSeries.new sym r src ty st = (res, st') ->
  (st' = st /\ exists e, res = Raise e)
  \/ exists df date,
      nth_error (heap st) r = Some df
      /\ pd.getitem df "date" = Ok date
      /\ st' = mkState
                 ((if pd.is_datetime64_any_dtype date then heap st
                   else list_set (heap st) r (validated_input df date))
                  ++ [standardized (sorted_frame df date)])
                 (stdout st) (rng st)
      /\ forall ps, res = Ok ps ->
                    PriceSeries.data ps = List.length (heap st).
Proof.
  unfold PriceSeries.new, PriceSeries.__post_init__. intros H.
  unfold bind at 1 in H.
  destruct (PriceSeries._validate_data _ st) as [[self1|e] s1] eqn:Hval.
  - apply validate_ok in Hval. cbn [PriceSeries.data] in Hval.
    destruct Hval as (df & date & Hdf & Hdate & -> & ->).
    right. exists df, date. split; [exact Hdf|]. split; [exact Hdate|].
    set (h1 := if pd.is_datetime64_any_dtype date then heap st
               else list_set (heap st) r (validated_input df date)) in *.
    assert (Hlen : List.length h1 = List.length (heap st)).
    { unfold h1. destruct (pd.is_datetime64_any_dtype date);
        [reflexivity|apply list_set_length]. }
    unfold bind at 1 in H.
    rewrite (standardize_at _ _ (sorted_frame df date)) in H
      by (cbn [PriceSeries.data PriceSeries.set_data heap];
          rewrite <- Hlen; apply nth_error_app_last).
    cbn [PriceSeries.data PriceSeries.set_data heap stdout rng] in H.
    rewrite <- Hlen, list_set_app_last in H.
    apply stats_effect in H. destruct H as [-> Hd].
    split; [reflexivity|].
    intros ps Hps. rewrite (Hd ps Hps). cbn. exact Hlen.
  - left. apply validate_raise in Hval. subst s1.
    inversion H. split; [reflexivity|eauto].
Qed.

Lemma standardized_index df date :
  df_index (standardized (sorted_frame df date))
  = pd.RangeIndex (List.length (col_values date)).
Proof.
  unfold standardized, sorted_frame, pd.columns_str_lower, pd.rename,
    pd.reset_index_drop, pd.nrows, pd.take_rows, pd.take, pd.argsort.
  cbn [df_index]. rewrite !length_map.
  rewrite (Permutation_length (sort_keys_perm _)).
  rewrite length_combine, length_seq. f_equal. lia.
Qed.

Lemma standardized_columns df date :
  df_columns (standardized (sorted_frame df date))
  = map (fun c =>
           mkColumn
             (py.lower (match py.get PriceSeries.column_mapping (col_name c) with
                        | Some n => n
                        | None => col_name c
                        end))
             (col_dtype c)
             (pd.take (col_values c) (pd.argsort (col_values date))))
        (df_columns (validated_input df date)).
Proof.
  unfold standardized, sorted_frame, pd.columns_str_lower, pd.rename,
    pd.reset_index_drop, pd.take_rows.
  cbn [df_columns]. rewrite !map_map. reflexivity.
Qed.

Lemma standardized_column_length df date c :
  In c (df_columns (standardized (sorted_frame df date))) ->
  List.length (col_values c) = List.length (col_values date).
Proof.
  rewrite standardized_columns. intros H.
  apply in_map_iff in H. destruct H as (c0 & <- & _).
  cbn [col_values]. unfold pd.take. rewrite length_map.
  apply argsort_length.
Qed.

Lemma validated_date_column df date :
  pd.getitem df "date" = Ok date ->
  In (mkColumn "date" dt_datetime64 (col_values date))
     (df_columns (validated_input df date)).
Proof.
  intros H. unfold validated_input, pd.is_datetime64_any_dtype.
  destruct (getitem_In _ _ _ H) as [Hin Hname].
  destruct date as [n dt v]. cbn in *. subst n.
  destruct dt; try apply In_set_column. exact Hin.
Qed.

(** ** Column names (C6) *)

(** C6, as the code behaves: a frame whose columns are named [Date] and
    [Close] is refused with the fixed message listing both required names,
    although [_standardize_columns] maps exactly these names to [date] and
    [close]: validation runs before the renaming, on the literal lower-case
    names. *)
Theorem C6_capitalised_columns_refused :
  PriceSeries.new "AAPL" 0%nat "yahoo" "stock" (state0 [capitalised_frame])
  = (Raise (ValueError "DataFrame debe contener: ['date', 'close']"),
     state0 [capitalised_frame])
  /\ pd.columns (pd.columns_str_lower
                   (pd.rename capitalised_frame PriceSeries.column_mapping))
     = ["date"; "close"].
Proof. split; vm_compute; reflexivity. Qed.

(** Whatever aliases a frame carries, lacking the literal name [date] or
    [close] makes construction raise, with the store untouched. *)
Lemma validate_requires_literal_names (self : PriceSeries.t) (s : State)
      (df : DataFrame) :
  nth_error (heap s) (PriceSeries.data self) = Some df ->
  py.mem "date" (pd.columns df) && py.mem "close" (pd.columns df) = false ->
  PriceSeries.__post_init__ self s
  = (Raise (ValueError "DataFrame debe contener: ['date', 'close']"), s).
Proof.
  intros Hdf Hmem.
  unfold PriceSeries.__post_init__, PriceSeries._validate_data, bind, deref.
  rewrite Hdf. unfold PriceSeries.required. cbn [forallb].
  rewrite andb_true_r, Hmem. reflexivity.
Qed.

(** ** Dates and daily returns (C2) *)

(** Every return sits at a row [i >= 1] and is [close[i]/close[i-1] - 1]. *)
Lemma returns_spec closes l x :
  In (l, x) (pd.dropna (pd.pct_change
                          (combine (pd.RangeIndex (List.length closes)) closes))) ->
  exists i,
    (1 <= i < List.length closes)%nat
    /\ l = of_nat i
    /\ x = fsub (fdiv (nth i (pd.ffill closes) NaN)
                      (nth (i - 1) (pd.ffill closes) NaN))
                (Fin 1).
Proof.
  unfold pd.dropna, pd.pct_change. intros H.
  apply filter_In in H. destruct H as [H Hx]. cbn [snd] in Hx.
  rewrite labels_combine, values_combine in H
    by apply RangeIndex_length.
  destruct (In_nth _ _ (NaN, NaN) H) as (i & Hi & Hnth).
  rewrite length_combine, RangeIndex_length, pct_change_values_length,
    Nat.min_id in Hi.
  rewrite combine_nth in Hnth
    by (now rewrite RangeIndex_length, pct_change_values_length).
  inversion Hnth as [[Hl Hv]]. clear Hnth.
  rewrite RangeIndex_nth by exact Hi.
  rewrite pct_change_values_nth in Hv |- * by exact Hi.
  destruct i as [|j].
  - rewrite fdiv_nan_r in Hv. cbn in Hv. subst x. discriminate.
  - exists (S j). split; [lia|]. split; [reflexivity|].
    cbn [Nat.sub]. rewrite Nat.sub_0_r. reflexivity.
Qed.

Lemma returns_length_le closes :
  (List.length (pd.dropna (pd.pct_change
       (combine (pd.RangeIndex (List.length closes)) closes)))
   <= List.length closes - 1)%nat.
Proof.
  unfold pd.pct_change.
  rewrite labels_combine, values_combine by apply RangeIndex_length.
  destruct closes as [|x closes]; [cbn; lia|].
  destruct (pct_change_values_cons x closes) as (rest & -> & Hlen).
  unfold pd.RangeIndex. cbn [List.length seq map combine pd.dropna filter snd notna isna negb].
  etransitivity; [apply filter_length_le|].
  rewrite length_combine, length_map, length_seq. lia.
Qed.

Lemma returns_length_eq closes :
  forallb priced closes = true ->
  List.length (pd.dropna (pd.pct_change
       (combine (pd.RangeIndex (List.length closes)) closes)))
  = (List.length closes - 1)%nat.
Proof.
  intros Hp. unfold pd.pct_change.
  rewrite labels_combine, values_combine by apply RangeIndex_length.
  destruct closes as [|x closes]; [reflexivity|].
  pose proof (pct_change_values_nth (x :: closes)) as Hnth.
  destruct (pct_change_values_cons x closes) as (rest & E & Hlen).
  rewrite E in *.
  unfold pd.RangeIndex.
  cbn [List.length seq map combine pd.dropna filter snd notna isna negb].
  assert (Hall : forall p, In p (combine (map of_nat (seq 1 (List.length closes))) rest)
                           -> notna (snd p) = true).
  { intros [l y] Hin. apply in_combine_r in Hin. cbn [snd].
    destruct (In_nth _ _ NaN Hin) as (j & Hj & Hy).
    specialize (Hnth (S j)). cbn [nth List.length] in Hnth.
    rewrite Hnth in Hy by lia. subst y.
    rewrite priced_ffill by exact Hp.
    rewrite forallb_forall in Hp.
    apply priced_return; apply Hp.
    - apply (nth_In (x :: closes) NaN (n := S j)). cbn. lia.
    - apply (nth_In (x :: closes) NaN (n := j)). cbn. lia. }
  rewrite forallb_filter_id.
  - rewrite length_combine, length_map, length_seq. lia.
  - apply forallb_forall. exact Hall.
Qed.

Lemma combine_map_seq {A B} (f : nat -> A) (d : B) (rest : list B) a :
  combine (map f (seq a (List.length rest))) rest
  = map (fun i => (f i, nth (i - a) rest d)) (seq a (List.length rest)).
Proof.
  revert a. induction rest as [|y rest IH]; intros a; [reflexivity|].
  cbn [List.length seq map combine]. rewrite Nat.sub_diag. cbn [nth].
  f_equal. rewrite IH. apply map_ext_in. intros i Hi. apply in_seq in Hi.
  f_equal. replace (i - a)%nat with (S (i - S a)) by lia. reflexivity.
Qed.

(** The return stream, exactly: the returns of the rows [1 .. n-1], in
    order, without those that are missing. *)
Lemma returns_exact closes :
  pd.dropna (pd.pct_change
               (combine (pd.RangeIndex (List.length closes)) closes))
  = filter (fun p => notna (snd p))
           (map (return_at closes) (seq 1 (List.length closes - 1))).
Proof.
  unfold pd.pct_change.
  rewrite labels_combine, values_combine by apply RangeIndex_length.
  destruct closes as [|x closes]; [reflexivity|].
  pose proof (pct_change_values_nth (x :: closes)) as Hnth.
  destruct (pct_change_values_cons x closes) as (rest & E & Hlen).
  rewrite E in *. unfold pd.RangeIndex.
  cbn [List.length seq map combine pd.dropna filter snd notna isna negb].
  replace (S (List.length closes) - 1)%nat with (List.length rest) by lia.
  rewrite <- Hlen.
  rewrite (combine_map_seq of_nat NaN rest 1). f_equal.
  apply map_ext_in. intros i Hi. apply in_seq in Hi. unfold return_at.
  f_equal. specialize (Hnth i).
  destruct i as [|k]; [lia|].
  cbn [nth List.length] in Hnth. cbn [Nat.sub]. rewrite Nat.sub_0_r.
  apply Hnth. lia.
Qed.

Lemma returns_exact_priced closes :
  forallb priced closes = true ->
  pd.dropna (pd.pct_change
               (combine (pd.RangeIndex (List.length closes)) closes))
  = map (return_at closes) (seq 1 (List.length closes - 1)).
Proof.
  intros Hp. rewrite returns_exact. apply forallb_filter_id.
  apply forallb_forall. intros p Hin. apply in_map_iff in Hin.
  destruct Hin as (i & <- & Hi). apply in_seq in Hi.
  unfold return_at. cbn [snd]. rewrite priced_ffill by exact Hp.
  rewrite forallb_forall in Hp.
  apply priced_return; apply Hp; apply nth_In; lia.
Qed.

Lemma argsort_perm keys :
  Permutation (pd.argsort keys) (seq 0 (List.length keys)).
Proof.
  unfold pd.argsort.
  rewrite (Permutation_map fst (sort_keys_perm _)).
  clear. generalize 0%nat as a.
  induction keys as [|k keys IH]; intros a; cbn; [reflexivity|].
  constructor. apply IH.
Qed.

Lemma filter_filter_sub {A} (Q P : A -> bool) l :
  (forall x, Q x = true -> P x = true) ->
  filter Q l = filter Q (filter P l).
Proof.
  intros H. induction l as [|x l IH]; [reflexivity|]. cbn [filter].
  destruct (Q x) eqn:EQ.
  - rewrite (H x EQ). cbn [filter]. rewrite EQ. now f_equal.
  - destruct (P x); [cbn [filter]; rewrite EQ|]; exact IH.
Qed.

Lemma filter_set_column_other (P : Column -> bool) cols c :
  P c = false ->
  (forall c', col_name c' = col_name c -> P c' = false) ->
  filter P (pd.set_column cols c) = filter P cols.
Proof.
  intros Hc Hn. induction cols as [|c' cols IH]; cbn [pd.set_column filter].
  - now rewrite Hc.
  - destruct (String.eqb (col_name c') (col_name c)) eqn:E.
    + apply String.eqb_eq in E. cbn [filter]. now rewrite Hc, (Hn c' E).
    + cbn [filter]. now rewrite IH.
Qed.

(** The close column of a constructed series is the one column of the
    caller's frame called [close], its cells in the order of the sorted
    rows. *)
Lemma standardized_close df date col :
  pd.getitem df "date" = Ok date ->
  py.mem "close" (pd.columns df) = true ->
  pd.getitem (standardized (sorted_frame df date)) "close" = Ok col ->
  exists close,
    pd.getitem df "close" = Ok close
    /\ col_values col
       = pd.take (col_values close) (pd.argsort (col_values date)).
Proof.
  intros Hdate Hmem Hcol.
  set (P := fun c : Column =>
              String.eqb (standard_name (col_name c)) "close").
  set (Q := fun c : Column => String.eqb (col_name c) "close").
  set (g := fun c : Column =>
              mkColumn (standard_name (col_name c)) (col_dtype c)
                       (pd.take (col_values c)
                                (pd.argsort (col_values date)))).
  assert (HQP : forall c, Q c = true -> P c = true).
  { intros c Hc. unfold Q in Hc. apply String.eqb_eq in Hc.
    unfold P. rewrite Hc. reflexivity. }
  assert (Hv : filter P (df_columns (validated_input df date))
               = filter P (df_columns df)).
  { unfold validated_input. destruct (pd.is_datetime64_any_dtype date);
      [reflexivity|].
    unfold pd.setitem, pd.to_datetime. cbn [df_columns col_dtype col_values].
    apply filter_set_column_other; [reflexivity|].
    intros c' Hn. cbn [col_name] in Hn. unfold P. rewrite Hn. reflexivity. }
  assert (Hf : filter (fun c => String.eqb (col_name c) "close")
                      (df_columns (standardized (sorted_frame df date)))
               = map g (filter P (df_columns df))).
  { rewrite standardized_columns, <- Hv. clear.
    induction (df_columns (validated_input df date)) as [|c l IH];
      [reflexivity|].
    cbn [map filter col_name]. fold (standard_name (col_name c)).
    fold (P c). destruct (P c); cbn [map]; now rewrite IH. }
  unfold pd.getitem in Hcol. rewrite Hf in Hcol.
  destruct (filter P (df_columns df)) as [|c0 [|c1 t]] eqn:EP;
    try discriminate.
  cbn [map] in Hcol. inversion Hcol; subst col; clear Hcol.
  exists c0. split; [|reflexivity].
  unfold pd.getitem. fold Q.
  rewrite (filter_filter_sub Q P _ HQP), EP. cbn [filter].
  destruct (Q c0) eqn:EQ; [reflexivity|].
  unfold py.mem in Hmem. apply existsb_exists in Hmem.
  destruct Hmem as (n & Hmem & En). apply String.eqb_eq in En. subst n.
  unfold pd.columns in Hmem.
  apply in_map_iff in Hmem. destruct Hmem as (c1 & Hn & Hin).
  assert (Hc1 : In c1 (filter P (df_columns df))).
  { apply filter_In. split; [exact Hin|]. apply HQP. unfold Q.
    rewrite Hn. reflexivity. }
  rewrite EP in Hc1. destruct Hc1 as [<-|[]].
  unfold Q in EQ. rewrite Hn in EQ. discriminate.
Qed.

(** C2, amended.  A constructed series keeps every row of the caller's
    frame, rows kept whole, in ascending date order with ties allowed: its
    dates and closes are the caller's [date] and [close] cells taken in one
    and the same order, a permutation of the rows, so equal dates stay.  The
    return stream is, exactly and in order, the returns
    [close[i]/close[i-1] - 1] (on forward-filled closes) of the rows
    [i = 1 .. n-1], each under its row number, without those that are
    missing; when every close is finite and not zero none is missing and the
    stream has [n - 1] entries. *)
Theorem C2_ascending_with_ties_and_returns sym r src ty st ps st' :
  PriceSeries.new sym r src ty st = (Ok ps, st') ->
  exists df date close F order dates closes returns,
    nth_error (heap st) r = Some df
    /\ pd.getitem df "date" = Ok date
    /\ pd.getitem df "close" = Ok close
    /\ nth_error (heap st') (PriceSeries.data ps) = Some F
    /\ Permutation order (seq 0 (List.length (col_values date)))
    /\ dates = pd.take (col_values date) order
    /\ closes = pd.take (col_values close) order
    /\ In (mkColumn "date" dt_datetime64 dates) (df_columns F)
    /\ ascending dates
    /\ Permutation dates (col_values date)
    /\ closes_of ps st' = Some closes
    /\ List.length closes = List.length dates
    /\ PriceSeries.get_returns ps st' = (Ok returns, st')
    /\ returns
       = filter (fun p => notna (snd p))
                (map (return_at closes) (seq 1 (List.length closes - 1)))
    /\ (forallb priced closes = true ->
        returns = map (return_at closes) (seq 1 (List.length closes - 1))
        /\ List.length returns = (List.length closes - 1)%nat).
Proof.
  intros Hnew.
  destruct (new_ok_frame _ _ _ _ _ _ _ Hnew) as (df & date & Hdf & Hdate & Hfr).
  assert (Hmem : py.mem "close" (pd.columns df) = true).
  { destruct (py.mem "close" (pd.columns df)) eqn:E; [reflexivity|].
    unfold PriceSeries.new in Hnew.
    rewrite (validate_requires_literal_names
               (PriceSeries.mk sym r src ty []) st df Hdf) in Hnew
      by (rewrite E; apply andb_false_r).
    discriminate. }
  apply new_ok in Hnew.
  destruct Hnew as (_ & _ & c & _ & _ & _ & _ & Hc & _).
  destruct (close_inv _ _ _ _ Hc) as (F & col & v & HF & Hcol & Hv & ->).
  rewrite Hfr in HF. inversion HF; subst F; clear HF.
  apply numeric_values in Hv. subst v.
  destruct (standardized_close df date col Hdate Hmem Hcol)
    as (close & Hclose & Hvals).
  destruct (getitem_In _ _ _ Hcol) as [Hin _].
  apply standardized_column_length in Hin.
  rewrite standardized_index, <- Hin in Hc.
  exists df, date, close, (standardized (sorted_frame df date)),
    (pd.argsort (col_values date)),
    (pd.take (col_values date) (pd.argsort (col_values date))),
    (col_values col),
    (pd.dropna (pd.pct_change
       (combine (pd.RangeIndex (List.length (col_values col)))
                (col_values col)))).
  split; [exact Hdf|]. split; [exact Hdate|]. split; [exact Hclose|].
  split; [exact Hfr|].
  split; [apply argsort_perm|].
  split; [reflexivity|]. split; [exact Hvals|].
  split.
  { rewrite standardized_columns.
    apply in_map_iff.
    exists (mkColumn "date" dt_datetime64 (col_values date)).
    split; [reflexivity|]. apply validated_date_column, Hdate. }
  split; [apply take_argsort_sorted|].
  split; [apply take_argsort_perm|].
  split; [unfold closes_of; now rewrite Hfr, Hcol|].
  split; [unfold pd.take; now rewrite length_map, argsort_length|].
  split; [now rewrite get_returns_eq, Hc|].
  split; [apply returns_exact|].
  intros Hp. split; [now apply returns_exact_priced|].
  now apply returns_length_eq.
Qed.

(** The amended C2 at the frame with two rows for one day. *)
Lemma C2_ascending_with_ties_and_returns_witness :
  exists ps st',
    PriceSeries.new "A" 0%nat "yahoo" "stock" (state0 [duplicate_day_frame])
    = (Ok ps, st')
    /\ exists df date close F order dates closes returns,
    nth_error (heap (state0 [duplicate_day_frame])) 0%nat = Some df
    /\ pd.getitem df "date" = Ok date
    /\ pd.getitem df "close" = Ok close
    /\ nth_error (heap st') (PriceSeries.data ps) = Some F
    /\ Permutation order (seq 0 (List.length (col_values date)))
    /\ dates = pd.take (col_values date) order
    /\ closes = pd.take (col_values close) order
    /\ In (mkColumn "date" dt_datetime64 dates) (df_columns F)
    /\ ascending dates
    /\ Permutation dates (col_values date)
    /\ closes_of ps st' = Some closes
    /\ List.length closes = List.length dates
    /\ PriceSeries.get_returns ps st' = (Ok returns, st')
    /\ returns
       = filter (fun p => notna (snd p))
                (map (return_at closes) (seq 1 (List.length closes - 1)))
    /\ (forallb priced closes = true ->
        returns = map (return_at closes) (seq 1 (List.length closes - 1))
        /\ List.length returns = (List.length closes - 1)%nat).
Proof.
  eexists. eexists. split; [vm_compute; reflexivity|].
  apply (C2_ascending_with_ties_and_returns
           "A" 0%nat "yahoo" "stock" (state0 [duplicate_day_frame])).
  vm_compute. reflexivity.
Defined.

(** C2, as stated, fails twice.  Two rows quoted for day [2] are both kept,
    so the dates of the constructed series are [1, 2, 2], not strictly
    ascending.  And on the closes [100, 0, 0] the return of the last row is
    [0/0 - 1], which is missing and dropped, so three observations give one
    return, not two. *)
Lemma C2_duplicates_kept_and_returns_dropped :
  (exists ps st',
      PriceSeries.new "A" 0%nat "yahoo" "stock" (state0 [duplicate_day_frame])
      = (Ok ps, st')
      /\ dates_of ps st' = Some (floats [1; 2; 2]%Z)
      /\ fltb (of_Z 2) (of_Z 2) = false
      /\ ~ NoDup (floats [1; 2; 2]%Z))
  /\ (exists ps st',
        PriceSeries.new "A" 0%nat "yahoo" "stock" (state0 [worthless_frame])
        = (Ok ps, st')
        /\ closes_of ps st' = Some (floats [100; 0; 0]%Z)
        /\ PriceSeries.get_returns ps st' = (Ok [(of_nat 1, Fin (-1))], st')
        /\ snd (return_at (floats [100; 0; 0]%Z) 2) = NaN).
Proof.
  split.
  - eexists. eexists. split; [vm_compute; reflexivity|].
    split; [vm_compute; reflexivity|].
    split; [reflexivity|].
    intros H. inversion H as [|x l Hx Hl]; subst.
    inversion Hl as [|y l' Hy Hl']; subst.
    apply Hy. now left.
  - eexists. eexists. split; [vm_compute; reflexivity|].
    split; [vm_compute; reflexivity|].
    split; vm_compute; reflexivity.
Qed.

(** ** Maximum drawdown (C3) *)

(** C3, as the code behaves: on the closes [100, 50, 60] the computed maximum
    drawdown is [0] although the price fell by half on the first day (the
    total return is [-2/5]): the cumulative index is missing at the first
    observation, so the running maximum starts at the second one.  On a
    single observation the result is NaN, which is not [<= 0]. *)
Theorem C3_first_day_fall_missed :
  (exists ps s,
      PriceSeries.new "A" 0%nat "yahoo" "stock" (state0 [early_fall_frame])
      = (Ok ps, s)
      /\ closes_of ps s = Some (floats [100; 50; 60]%Z)
      /\ stat ps "max_drawdown" = Some (Fin 0)
      /\ stat ps "total_return" = Some (Fin (-2 # 5)))
  /\ (exists ps s,
         PriceSeries.new "A" 0%nat "yahoo" "stock" (state0 [single_frame])
         = (Ok ps, s)
         /\ stat ps "max_drawdown" = Some NaN
         /\ fleb NaN (Fin 0) = false).
Proof.
  split; eexists; eexists; (split; [vm_compute; reflexivity|]);
    repeat split; vm_compute; reflexivity.
Qed.

(** ** Outlier removal (C5) *)

(** No return carries the label of the first row. *)
Lemma returns_labels n v p :
  In p (pd.dropna (pd.pct_change (combine (pd.RangeIndex n) v))) ->
  exists k, (1 <= k < n)%nat /\ fst p = of_nat k.
Proof.
  destruct n as [|n]; [intros []|].
  destruct v as [|x v]; [intros []|].
  unfold pd.pct_change, pd.labels, pd.values, pd.RangeIndex.
  cbn [seq map combine fst snd].
  destruct (pct_change_values_cons x (map snd (combine (map of_nat (seq 1 n)) v)))
    as (rest & -> & _).
  cbn [combine pd.dropna filter snd notna isna negb].
  intros Hp. apply filter_In in Hp. destruct Hp as [Hp _].
  destruct p as [l y]. apply in_combine_l in Hp.
  apply in_map_iff in Hp. destruct Hp as ([l' y'] & Hl & Hin).
  apply in_combine_l in Hin. apply in_map_iff in Hin.
  destruct Hin as (k & Hk & Hseq). apply in_seq in Hseq.
  cbn in Hl. subst. exists k. split; [lia|reflexivity].
Qed.

(** Indexing a re-indexed frame with a mask over its returns fails: the
    mask has no entry for the first row. *)
Lemma getitem_bool_returns_mask (df : DataFrame) n v (g : float * float -> bool) :
  df_index df = pd.RangeIndex (S n) ->
  pd.getitem_bool df
    (map (fun p => (fst p, g p))
         (pd.dropna (pd.pct_change (combine (pd.RangeIndex (S n)) v))))
  = Raise IndexingError.
Proof.
  intros Hidx. unfold pd.getitem_bool. rewrite Hidx.
  unfold pd.RangeIndex at 1. cbn [seq map pd.align_mask].
  rewrite lookup_none; [reflexivity|].
  intros p Hp. apply in_map_iff in Hp. destruct Hp as (q & <- & Hq).
  apply returns_labels in Hq. destruct Hq as (k & Hk & Hl).
  cbn [fst]. rewrite Hl. apply of_nat_label_neq_0. lia.
Qed.

(** C5, as the code behaves: for every constructed series, [remove_outliers]
    with method [iqr] raises [IndexingError] and returns no series at all:
    the mask is labelled by the rows that have a return, which never include
    the first row, so the frame cannot be indexed by it. *)
Theorem C5_remove_outliers_iqr_raises sym r src ty st ps st' threshold :
  PriceSeries.new sym r src ty st = (Ok ps, st') ->
  DataCleaner.remove_outliers ps "iqr" threshold st'
  = (Raise IndexingError, st').
Proof.
  intros Hnew.
  destruct (new_ok_frame _ _ _ _ _ _ _ Hnew) as (df & date & _ & _ & Hfr).
  apply new_ok in Hnew.
  destruct Hnew as (_ & _ & c & _ & _ & _ & _ & Hc & Hne).
  destruct (close_inv _ _ _ _ Hc) as (F & col & v & HF & _ & _ & ->).
  rewrite Hfr in HF. inversion HF; subst F; clear HF.
  rewrite standardized_index in *.
  destruct (List.length (col_values date)) as [|n] eqn:En;
    [exfalso; apply Hne; reflexivity|].
  unfold DataCleaner.remove_outliers.
  unfold bind at 1. rewrite get_returns_eq, Hc.
  cbn [String.eqb Ascii.eqb Bool.eqb].
  unfold bind, ret, deref, lift. rewrite Hfr.
  rewrite getitem_bool_returns_mask; [reflexivity|].
  rewrite standardized_index, En. reflexivity.
Qed.

(** C5 at a three-day series. *)
Lemma C5_remove_outliers_iqr_raises_witness :
  exists ps st',
    PriceSeries.new "A" 0%nat "yahoo" "stock" (state0 [january_frame])
    = (Ok ps, st')
    /\ DataCleaner.remove_outliers ps "iqr" (Fin 3) st'
       = (Raise IndexingError, st').
Proof.
  eexists. eexists. split; [vm_compute; reflexivity|].
  apply (C5_remove_outliers_iqr_raises
           "A" 0%nat "yahoo" "stock" (state0 [january_frame])).
  vm_compute. reflexivity.
Defined.

(** ** Filling missing dates (C7) *)

(** C7, as the code behaves: [fill_missing_dates] has no final [else]; with
    the unknown method name [bfill] it raises nothing and returns a series
    over the full calendar whose gap is still missing.  Its sibling
    [remove_outliers] does raise on the same name. *)
Theorem C7_unknown_fill_method_accepted :
  (exists ps s,
      (ps0 <- PriceSeries.new "A" 0%nat "yahoo" "stock" ;;
       DataCleaner.fill_missing_dates ps0 "bfill") (state0 [gap_frame])
      = (Ok ps, s)
      /\ dates_of ps s = Some (floats [1; 2; 3; 4]%Z)
      /\ closes_of ps s = Some [Fin 100; NaN; Fin 99; Fin 110])
  /\ run (ps0 <- PriceSeries.new "A" 0%nat "yahoo" "stock" ;;
          DataCleaner.remove_outliers ps0 "bfill" (Fin 3))
         (state0 [gap_frame])
     = Raise (ValueError "Metodo desconocido: {method}").
Proof.
  split.
  - eexists. eexists. split; [vm_compute; reflexivity|].
    split; vm_compute; reflexivity.
  - vm_compute; reflexivity.
Qed.

(** A method name that is neither [ffill] nor [interpolate] is never looked
    at again: any two such names give the same outcome. *)
Lemma fill_missing_dates_ignores_unknown_method
      (series : PriceSeries.t) (m1 m2 : string) (s : State) :
  String.eqb m1 "ffill" = false -> String.eqb m1 "interpolate" = false ->
  String.eqb m2 "ffill" = false -> String.eqb m2 "interpolate" = false ->
  DataCleaner.fill_missing_dates series m1 s
  = DataCleaner.fill_missing_dates series m2 s.
Proof.
  intros H1 H2 H3 H4. unfold DataCleaner.fill_missing_dates.
  rewrite H1, H2, H3, H4. reflexivity.
Qed.

(** ** Effects on the store (C10) *)

Lemma leaves_store_alone_refl s e : leaves_store_alone s (Raise e) s.
Proof. split; [intros r _; reflexivity|discriminate]. Qed.

(** The constructor run on a frame made for it touches nothing older. *)
Lemma alloc_new_effect df sym src ty st res st' :
  (r <- alloc df ;; PriceSeries.new sym r src ty) st = (res, st') ->
  leaves_store_alone st res st'.
Proof.
  unfold bind, alloc. intros H. apply new_effect in H.
  cbn [heap stdout rng] in H.
  destruct H as [[-> [e ->]]|(df' & date & _ & _ & -> & Hd)];
    split; unfold unchanged_at; cbn [heap].
  - intros r Hr. now rewrite nth_error_app1 by exact Hr.
  - discriminate.
  - intros r Hr.
    assert (Hlen : forall v, List.length
              (list_set (heap st ++ [df]) (List.length (heap st)) v)
              = S (List.length (heap st))).
    { intros v. rewrite list_set_length, length_app. cbn. lia. }
    destruct (pd.is_datetime64_any_dtype date).
    + rewrite nth_error_app1 by (rewrite length_app; cbn; lia).
      now rewrite nth_error_app1 by exact Hr.
    + rewrite nth_error_app1 by (rewrite Hlen; lia).
      rewrite nth_error_list_set_ne by lia.
      now rewrite nth_error_app1 by exact Hr.
  - intros ps Hps. rewrite (Hd ps Hps), length_app. lia.
Qed.

Lemma set_column_names cols c :
  (exists c', In c' cols /\ col_name c' = col_name c) ->
  map col_name (pd.set_column cols c) = map col_name cols.
Proof.
  induction cols as [|c0 l IH]; intros (c' & Hin & Hn); [destruct Hin|].
  cbn [pd.set_column].
  destruct (String.eqb (col_name c0) (col_name c)) eqn:E.
  - apply String.eqb_eq in E. cbn. now rewrite E.
  - cbn. f_equal. apply IH. destruct Hin as [->|Hin].
    + rewrite Hn, String.eqb_refl in E. discriminate.
    + eauto.
Qed.

Lemma set_column_other cols c c0 :
  col_name c0 <> col_name c ->
  In c0 (pd.set_column cols c) <-> In c0 cols.
Proof.
  intros Hne. induction cols as [|c' l IH]; cbn [pd.set_column].
  - cbn. split; [intros [->|[]]; congruence|intros []].
  - destruct (String.eqb (col_name c') (col_name c)) eqn:E.
    + apply String.eqb_eq in E. cbn.
      split; (intros [->|H]; [congruence|now right]).
    + cbn. rewrite IH. reflexivity.
Qed.

(** The caller's frame after a conversion: the same frame with its [date]
    column, in its place, holding the same cells as timestamps. *)
Lemma validated_input_converted df date :
  pd.getitem df "date" = Ok date ->
  pd.is_datetime64_any_dtype date = false ->
  let F := validated_input df date in
  df_index F = df_index df
  /\ df_index_dtype F = df_index_dtype df
  /\ pd.columns F = pd.columns df
  /\ pd.getitem F "date" = Ok (mkColumn "date" dt_datetime64 (col_values date))
  /\ (forall c, col_name c <> "date" ->
                (In c (df_columns F) <-> In c (df_columns df))).
Proof.
  intros Hdate Hdt. unfold validated_input. rewrite Hdt. cbv zeta.
  destruct (getitem_In _ _ _ Hdate) as [Hin Hname].
  split; [reflexivity|]. split; [reflexivity|].
  split.
  { unfold pd.columns, pd.setitem. cbn [df_columns].
    apply set_column_names. exists date. split; [exact Hin|exact Hname]. }
  split; [exact (getitem_setitem _ _ _ _ Hdate)|].
  intros c Hc. unfold pd.setitem. cbn [df_columns].
  apply set_column_other. exact Hc.
Qed.

(** C10, amended: what constructing a series does to the store.  It either
    raises with the store as it was, or the store afterwards is the store
    before with one frame added at the end, the sorted and renamed copy the
    series holds, and with the caller's frame replaced, when its [date]
    column was not yet a datetime column, by the same frame with that column
    converted in place: same index, same column names, every other column
    as it was.  No other frame changes, nothing is printed and the random
    source is not used.  [remove_outliers] and [fill_missing_dates],
    whatever their outcome, change no frame that existed before the call,
    and a series they return holds a frame created by the call. *)
Theorem C10_store_effects :
  (forall sym r src ty st res st',
      PriceSeries.new sym r src ty st = (res, st') ->
      (forall r', (r' < List.length (heap st))%nat ->
                  r' <> r \/ needs_conversion st r = false ->
                  unchanged_at st st' r')
      /\ (forall ps, res = Ok ps ->
                     (List.length (heap st) <= PriceSeries.data ps)%nat)
      /\ ((st' = st /\ exists e, res = Raise e)
          \/ exists df date,
              nth_error (heap st) r = Some df
              /\ pd.getitem df "date" = Ok date
              /\ heap st'
                 = ((if pd.is_datetime64_any_dtype date then heap st
                     else list_set (heap st) r (validated_input df date))
                    ++ [standardized (sorted_frame df date)])%list
              /\ stdout st' = stdout st
              /\ rng st' = rng st
              /\ (forall ps, res = Ok ps ->
                             PriceSeries.data ps = List.length (heap st))
              /\ (pd.is_datetime64_any_dtype date = false ->
                  let F := validated_input df date in
                  nth_error (heap st') r = Some F
                  /\ df_index F = df_index df
                  /\ df_index_dtype F = df_index_dtype df
                  /\ pd.columns F = pd.columns df
                  /\ pd.getitem F "date"
                     = Ok (mkColumn "date" dt_datetime64 (col_values date))
                  /\ (forall c, col_name c <> "date" ->
                                (In c (df_columns F)
                                 <-> In c (df_columns df))))))
  /\ (forall series method threshold st res st',
         DataCleaner.remove_outliers series method threshold st = (res, st') ->
         leaves_store_alone st res st')
  /\ (forall series method st res st',
         DataCleaner.fill_missing_dates series method st = (res, st') ->
         leaves_store_alone st res st').
Proof.
  split; [|split].
  - intros sym r src ty st res st' H. apply new_effect in H.
    destruct H as [[-> [e ->]]|(df & date & Hdf & Hdate & -> & Hd)].
    + split; [intros; reflexivity|]. split; [discriminate|].
      left. split; [reflexivity|eauto].
    + split; [|split].
      * intros r' Hr' Hcase. unfold unchanged_at. cbn [heap].
        unfold needs_conversion in Hcase. rewrite Hdf, Hdate in Hcase.
        destruct (pd.is_datetime64_any_dtype date).
        -- now rewrite nth_error_app1 by exact Hr'.
        -- rewrite nth_error_app1 by (now rewrite list_set_length).
           destruct Hcase as [Hne|Hc]; [|discriminate].
           apply nth_error_list_set_ne. congruence.
      * intros ps Hps. rewrite (Hd ps Hps). lia.
      * right. exists df, date. cbn [heap stdout rng].
        split; [exact Hdf|]. split; [exact Hdate|].
        split; [reflexivity|]. split; [reflexivity|].
        split; [reflexivity|]. split; [exact Hd|].
        intros Hdt. cbv zeta.
        split; [|exact (validated_input_converted df date Hdate Hdt)].
        rewrite Hdt.
        assert (Hlt : (r < List.length (heap st))%nat).
        { apply nth_error_Some. rewrite Hdf. discriminate. }
        rewrite nth_error_app1 by (now rewrite list_set_length).
        exact (nth_error_list_set_eq _ _ _ _ Hdf).
  - intros series method threshold st res st' H.
    unfold DataCleaner.remove_outliers in H.
    apply bind_pure in H; [|apply pure_get_returns].
    destruct H as [[-> [e ->]]|(returns & _ & H)];
      [apply leaves_store_alone_refl|].
    apply bind_pure in H;
      [|destruct (String.eqb method "iqr");
        [apply pure_ret|destruct (String.eqb method "zscore");
                        [apply pure_ret|apply pure_raise]]].
    destruct H as [[-> [e ->]]|(mask & _ & H)];
      [apply leaves_store_alone_refl|].
    apply bind_pure in H; [|apply pure_deref].
    destruct H as [[-> [e ->]]|(df & _ & H)];
      [apply leaves_store_alone_refl|].
    apply bind_pure in H; [|apply pure_lift].
    destruct H as [[-> [e ->]]|(clean & _ & H)];
      [apply leaves_store_alone_refl|].
    apply alloc_new_effect in H. exact H.
  - intros series method st res st' H.
    unfold DataCleaner.fill_missing_dates in H.
    apply bind_pure in H; [|apply pure_deref].
    destruct H as [[-> [e ->]]|(data & _ & H)];
      [apply leaves_store_alone_refl|].
    apply bind_pure in H; [|apply pure_lift].
    destruct H as [[-> [e ->]]|(date & _ & H)];
      [apply leaves_store_alone_refl|].
    apply bind_pure in H; [|apply pure_lift].
    destruct H as [[-> [e ->]]|(date_range & _ & H)];
      [apply leaves_store_alone_refl|].
    apply bind_pure in H; [|apply pure_lift].
    destruct H as [[-> [e ->]]|(df & _ & H)];
      [apply leaves_store_alone_refl|].
    apply bind_pure in H; [|apply pure_lift].
    destruct H as [[-> [e ->]]|(df' & _ & H)];
      [apply leaves_store_alone_refl|].
    apply alloc_new_effect in H. exact H.
Qed.

(** The amended C10 at a frame whose dates are datetimes already: the
    caller's frame is the same after construction. *)
Lemma C10_store_effects_witness :
  exists res st',
    PriceSeries.new "A" 0%nat "yahoo" "stock" (state0 [january_frame])
    = (res, st')
    /\ unchanged_at (state0 [january_frame]) st' 0%nat.
Proof.
  eexists. eexists. split; [vm_compute; reflexivity|].
  refine (proj1 (proj1 C10_store_effects "A" 0%nat "yahoo" "stock"
                       (state0 [january_frame]) _ _ _) 0%nat _ _).
  - vm_compute. reflexivity.
  - cbn. lia.
  - right. reflexivity.
Defined.

(** C10, as stated, fails: a frame whose dates are text is changed by the
    constructor; after the call the caller's own frame has a datetime
    column. *)
Lemma C10_text_dates_converted_in_place :
  exists ps st',
    PriceSeries.new "A" 0%nat "yahoo" "stock" (state0 [text_dates_frame])
    = (Ok ps, st')
    /\ nth_error (heap (state0 [text_dates_frame])) 0%nat
       = Some (frame "date" dt_object [1; 2; 3]%Z "close" [100; 101; 102]%Z)
    /\ nth_error (heap st') 0%nat
       = Some (frame "date" dt_datetime64 [1; 2; 3]%Z
                     "close" [100; 101; 102]%Z)
    /\ ~ unchanged_at (state0 [text_dates_frame]) st' 0%nat.
Proof.
  eexists. eexists. split; [vm_compute; reflexivity|].
  split; [reflexivity|]. split; [vm_compute; reflexivity|].
  unfold unchanged_at. vm_compute. discriminate.
Qed.

(** ** Portfolio weights (C8) *)





(** ** Portfolio returns (C1) *)

(** Computing the portfolio returns changes nothing. *)
Lemma pure_get_portfolio_returns p s :
  pure_at (Portfolio.get_portfolio_returns p) s.
Proof.
  unfold Portfolio.get_portfolio_returns.
  apply pure_bind.
  - apply pure_foldM. intros b a.
    apply pure_bind; [apply pure_get_returns|]. intros r. apply pure_ret.
  - intros all_returns. apply pure_bind; [|intros; apply pure_ret].
    apply pure_mapM. intros symbol.
    apply pure_bind; [apply pure_lift|]. intros c.
    apply pure_bind; [apply pure_lift|]. intros w. apply pure_ret.
Qed.

Lemma fold_plus_series terms acc :
  exists s, fold_left Portfolio.plus terms (Portfolio.Ser acc)
            = Portfolio.Ser s.
Proof.
  revert acc. induction terms as [|t terms IH]; intros acc; cbn.
  - eauto.
  - apply IH.
Qed.

(** With at least one holding the result is a series; the integer [0] is
    returned for the portfolio without holdings only. *)
Lemma portfolio_returns_total p st r st' :
  Portfolio.get_portfolio_returns p st = (Ok r, st') ->
  st' = st
  /\ (Portfolio.holdings p <> [] -> exists s, r = Portfolio.Ser s)
  /\ (Portfolio.holdings p = [] -> r = Portfolio.Int 0).
Proof.
  intros H. split; [exact (pure_get_portfolio_returns _ _ _ _ H)|].
  unfold Portfolio.get_portfolio_returns in H.
  apply bind_ok in H. destruct H as (all_returns & s1 & Hfold & H).
  apply bind_ok in H. destruct H as (terms & s2 & Hmap & H).
  inversion H; subst r st'; clear H.
  apply mapM_length in Hmap. unfold py.keys in Hmap.
  rewrite length_map in Hmap.
  split.
  - intros Hne. destruct terms as [|t terms].
    + destruct (Portfolio.holdings p); [congruence|discriminate].
    + cbn. apply fold_plus_series.
  - intros He. rewrite He in Hmap. destruct terms; [reflexivity|discriminate].
Qed.

(** C1, as the code behaves: the return streams are indexed by row number,
    not by date, so two assets quoted on days [1..3] and [61..63], which have
    no date in common, still give two portfolio returns (at rows [1] and
    [2]); and with no holdings the result is the integer [0] that [sum]
    starts from, not an empty stream. *)
Theorem C1_aligned_by_row_not_by_date :
  run (p <- disjoint_portfolio ;; Portfolio.get_portfolio_returns p)
      (state0 [january_frame; march_frame])
  = Ok (Portfolio.Ser [(Fin 1, Fin (3 # 20)); (Fin 2, Fin (3 # 10))])
  /\ (forall d, In d (floats [1; 2; 3]%Z) -> ~ In d (floats [61; 62; 63]%Z))
  /\ run (p <- empty_portfolio ;; Portfolio.get_portfolio_returns p)
         (state0 [])
     = Ok (Portfolio.Int 0).
Proof.
  split; [vm_compute; reflexivity|].
  split; [|vm_compute; reflexivity].
  intros d H1 H2. cbn in H1, H2.
  repeat match goal with
         | H : _ \/ _ |- _ => destruct H
         | H : False |- _ => destruct H
         end; subst; discriminate.
Qed.

(** ** Portfolio statistics (C4) *)

(** C4, as the code behaves: with a return stream of zero standard deviation
    the portfolio's Sharpe ratio is the quotient by zero, an infinity (mean
    [1]) or NaN (mean [0]); the per-asset statistics of the same stream give
    [0] through their guard. *)
Theorem C4_portfolio_sharpe_unguarded :
  run (p <- single_asset_portfolio ;; Portfolio.get_stats p)
      (state0 [doubling_frame])
  = Ok [("mean_return", Fin 1); ("std_return", Fin 0);
        ("sharpe_ratio", PInf); ("annualized_return", Fin 252);
        ("annualized_volatility", Fin 0)]
  /\ run (p <- single_asset_portfolio ;; Portfolio.get_stats p)
         (state0 [flat_frame])
     = Ok [("mean_return", Fin 0); ("std_return", Fin 0);
           ("sharpe_ratio", NaN); ("annualized_return", Fin 0);
           ("annualized_volatility", Fin 0)]
  /\ exists ps s,
      PriceSeries.new "A" 0%nat "yahoo" "stock" (state0 [doubling_frame])
      = (Ok ps, s)
      /\ stat ps "std_return" = Some (Fin 0)
      /\ stat ps "sharpe_ratio" = Some (Fin 0).
Proof.
  split; [vm_compute; reflexivity|].
  split; [vm_compute; reflexivity|].
  eexists. eexists. split; [vm_compute; reflexivity|].
  split; vm_compute; reflexivity.
Qed.

(** ** Monte Carlo simulation (C9) *)

Lemma price_path_length s m sd d v0 i :
  List.length (price_path s m sd d v0 i) = d.
Proof.
  unfold price_path, np.cumprod.
  now rewrite length_map, cumprod_from_length, !length_map, length_seq.
Qed.

(** The simulation loop from row [a] on, for [k] rows. *)
Lemma simulation_loop m sd d v0 k :
  fltb sd (Fin 0) = false ->
  forall a sims s0 s,
    (forall j, rng s j = rng s0 (a * d + j)%nat) ->
    exists sims' s',
      foldM (fun simulations i =>
               daily_returns <- np.random_normal m sd d ;;
               let price_path :=
                 map (fmul v0)
                     (np.cumprod (map (fadd (Fin 1)) daily_returns)) in
               ret (list_set simulations i price_path))
            (seq a k) sims s
      = (Ok sims', s')
      /\ List.length sims' = List.length sims
      /\ (forall i, (a <= i < a + k)%nat -> (i < List.length sims)%nat ->
                    nth_error sims' i = Some (price_path s0 m sd d v0 i))
      /\ (forall i, (i < a \/ a + k <= i)%nat ->
                    nth_error sims' i = nth_error sims i)
      /\ heap s' = heap s /\ stdout s' = stdout s.
Proof.
  intros Hsd. induction k as [|k IH]; intros a sims s0 s Hrng.
  - exists sims, s. cbn. repeat split; auto. intros i Hi. lia.
  - cbn [seq foldM]. unfold bind at 1. unfold bind at 1.
    unfold np.random_normal at 1. rewrite Hsd. unfold ret at 1.
    set (s1 := mkState (heap s) (stdout s) (fun k0 => rng s (k0 + d)%nat)).
    set (row := map (fmul v0) _).
    assert (Hrow : row = price_path s0 m sd d v0 a).
    { unfold row, price_path. do 3 f_equal.
      apply map_ext. intros j. now rewrite Hrng. }
    destruct (IH (S a) (list_set sims a row) s0 s1) as
        (sims' & s' & Hrun & Hlen & Hin & Hout & Hh & Ho).
    { intros j. unfold s1. cbn [rng]. rewrite Hrng. f_equal. lia. }
    exists sims', s'. split; [exact Hrun|].
    rewrite list_set_length in Hlen, Hin.
    split; [exact Hlen|]. split; [|split].
    + intros i Hi Hlt. destruct (Nat.eq_dec i a) as [->|Hne].
      * rewrite Hout by lia. rewrite <- Hrow.
        destruct (nth_error sims a) eqn:E.
        -- eapply nth_error_list_set_eq. exact E.
        -- apply nth_error_None in E. lia.
      * apply Hin; lia.
    + intros i Hi. rewrite Hout by lia.
      apply nth_error_list_set_ne. lia.
    + split; [exact Hh|exact Ho].
Qed.

(** For a portfolio whose return stream is a series, the simulation returns
    [n_simulations] rows of [n_days] values, row [i] being the [i]-th
    compounded path of draws fitted to the mean and standard deviation of
    that stream. *)
Lemma monte_carlo_simulation_paths p n d v0 st s :
  Portfolio.get_portfolio_returns p st = (Ok (Portfolio.Ser s), st) ->
  exists sims st',
    Portfolio.monte_carlo_simulation p n d v0 st = (Ok sims, st')
    /\ List.length sims = n
    /\ forall i, (i < n)%nat ->
         nth_error sims i
         = Some (price_path st (pd.mean (pd.values s)) (pd.std (pd.values s))
                            d v0 i)
         /\ List.length (price_path st (pd.mean (pd.values s))
                                    (pd.std (pd.values s)) d v0 i) = d.
Proof.
  intros Hr. unfold Portfolio.monte_carlo_simulation.
  unfold bind at 1. rewrite Hr. unfold bind at 1.
  unfold Portfolio.as_series, ret at 1.
  destruct (simulation_loop (pd.mean (pd.values s)) (pd.std (pd.values s))
              d v0 n (std_not_negative _) 0%nat (np.zeros n d) st st)
    as (sims & st' & Hrun & Hlen & Hin & _).
  { intros j. reflexivity. }
  exists sims, st'. split; [exact Hrun|].
  unfold np.zeros in Hlen, Hin. rewrite repeat_length in Hlen, Hin.
  split; [exact Hlen|].
  intros i Hi. split; [apply Hin; lia|apply price_path_length].
Qed.

(** C9, as the code behaves: the portfolio without holdings is constructed,
    and simulating it raises [AttributeError] for every size and initial
    value, because its return stream is the integer [0]. *)
Theorem C9_empty_portfolio_simulation_raises :
  exists p s,
    empty_portfolio (state0 []) = (Ok p, s)
    /\ forall n d v0,
        Portfolio.monte_carlo_simulation p n d v0 s
        = (Raise AttributeError, s).
Proof.
  eexists. eexists. split; [vm_compute; reflexivity|].
  intros n d v0. reflexivity.
Qed.

(** ** Constructing a portfolio *)

Lemma mem_In k l : py.mem k l = true <-> In k l.
Proof.
  unfold py.mem. rewrite existsb_exists. split.
  - intros (x & Hx & E). apply String.eqb_eq in E. now subst.
  - intros H. exists k. split; [exact H|apply String.eqb_refl].
Qed.

Lemma set_eq_iff a b :
  py.set_eq a b = true <-> (forall k, In k a <-> In k b).
Proof.
  unfold py.set_eq. rewrite andb_true_iff, !forallb_forall. split.
  - intros [H1 H2] k. split; intros H.
    + apply mem_In, H1, H.
    + apply mem_In, H2, H.
  - intros H. split; intros k Hk; apply mem_In, H, Hk.
Qed.

Lemma rescale_keys w T w' :
  Portfolio.rescale w T = Ok w' -> py.keys w' = py.keys w.
Proof.
  revert w'. induction w as [|[k v] w IH]; intros w' H; cbn in H.
  - inversion H. reflexivity.
  - destruct (py.truediv v T); [|discriminate].
    destruct (Portfolio.rescale w T) as [r|]; [|discriminate].
    inversion H. cbn. f_equal. apply IH. reflexivity.
Qed.

(** Every outcome of the constructor of [Portfolio]. *)
Lemma portfolio_new_cases h w nm st :
  let total := py.sum (py.values w) in
  let checked (w' : py.dict float) (s : State) :=
    if py.set_eq (py.keys h) (py.keys w')
    then (Ok (Portfolio.mk h w' nm), s)
    else (Raise (ValueError
                   "Los simbolos en holdings y weights deben coincidir"), s) in
  let warned := mkState (heap st) (stdout st ++ [Portfolio.warning]) (rng st) in
  Portfolio.new h w nm st
  = if np.isclose total (Fin 1) then checked w st
    else match Portfolio.rescale w total with
         | Ok w' => checked w' warned
         | Raise e => (Raise e, warned)
         end.
Proof.
  cbv zeta. unfold Portfolio.new, Portfolio.__post_init__.
  cbn [Portfolio.weights Portfolio.holdings].
  destruct (np.isclose (py.sum (py.values w)) (Fin 1)); cbn [negb].
  - unfold bind, ret, raise. cbn [Portfolio.weights Portfolio.holdings].
    destruct (py.set_eq (py.keys h) (py.keys w)); reflexivity.
  - unfold bind, print, lift, ret, raise.
    destruct (Portfolio.rescale w (py.sum (py.values w))) as [w'|e];
      [|reflexivity].
    cbn [Portfolio.weights Portfolio.holdings Portfolio.set_weights].
    destruct (py.set_eq (py.keys h) (py.keys w')); reflexivity.
Qed.

(** A constructed portfolio keeps its holdings and name, has a weight for
    exactly the symbols it holds, in the order the weights were given, and
    construction touches neither the frames nor the random source. *)
Theorem portfolio_symbols_match h w nm st p st' :
  Portfolio.new h w nm st = (Ok p, st') ->
  Portfolio.holdings p = h
  /\ Portfolio.name p = nm
  /\ py.keys (Portfolio.weights p) = py.keys w
  /\ (forall k, In k (py.keys h) <-> In k (py.keys w))
  /\ heap st' = heap st
  /\ rng st' = rng st.
Proof.
  rewrite portfolio_new_cases.
  destruct (np.isclose _ _).
  - destruct (py.set_eq _ _) eqn:E; [|discriminate].
    intros H. inversion H. cbn.
    split; [reflexivity|]. split; [reflexivity|]. split; [reflexivity|].
    split; [apply set_eq_iff; exact E|]. split; reflexivity.
  - destruct (Portfolio.rescale _ _) as [w'|] eqn:Er; [|discriminate].
    destruct (py.set_eq _ _) eqn:E; [|discriminate].
    intros H. inversion H. cbn.
    rewrite <- (rescale_keys _ _ _ Er).
    split; [reflexivity|]. split; [reflexivity|]. split; [reflexivity|].
    split; [apply set_eq_iff; exact E|]. split; reflexivity.
Qed.

Lemma portfolio_symbols_match_witness :
  exists p st',
    Portfolio.new two_holdings unscaled_weights "P" (state0 []) = (Ok p, st')
    /\ Portfolio.holdings p = two_holdings
    /\ Portfolio.name p = "P"
    /\ py.keys (Portfolio.weights p) = py.keys unscaled_weights
    /\ (forall k, In k (py.keys two_holdings)
                  <-> In k (py.keys unscaled_weights))
    /\ heap st' = heap (state0 [])
    /\ rng st' = rng (state0 []).
Proof.
  eexists. eexists. split; [vm_compute; reflexivity|].
  apply (portfolio_symbols_match two_holdings unscaled_weights "P" (state0 [])).
  vm_compute. reflexivity.
Defined.

(** When the symbols held and the symbols weighted differ, no portfolio is
    constructed: the constructor raises [ValueError], or, when rescaling the
    weights divided by zero first, [ZeroDivisionError]. *)
Theorem portfolio_mismatch_raises h w nm st :
  py.set_eq (py.keys h) (py.keys w) = false ->
  exists e st',
    Portfolio.new h w nm st = (Raise e, st')
    /\ (e = ValueError "Los simbolos en holdings y weights deben coincidir"
        \/ e = ZeroDivisionError).
Proof.
  intros Hne. rewrite portfolio_new_cases.
  destruct (np.isclose _ _).
  - rewrite Hne. eauto.
  - destruct (Portfolio.rescale _ _) as [w'|e] eqn:Er.
    + rewrite (rescale_keys _ _ _ Er), Hne. eauto.
    + exists e. eexists. split; [reflexivity|]. right.
      clear Hne. revert Er. generalize (py.sum (py.values w)) as T.
      induction w as [|[k v] w IH]; intros T Er; cbn in Er; [discriminate|].
      destruct (py.truediv v T) as [v'|e'] eqn:Ed.
      * destruct (Portfolio.rescale w T) as [r|e''] eqn:Er';
          [discriminate|]. inversion Er; subst. eapply IH. exact Er'.
      * inversion Er; subst. unfold py.truediv in Ed.
        destruct T as [q| | |]; try discriminate.
        destruct (Qeq_bool q 0); inversion Ed. reflexivity.
Qed.

Lemma portfolio_mismatch_raises_witness :
  py.set_eq (py.keys two_holdings) (py.keys [("A", Fin 1)]) = false
  /\ exists e st',
      Portfolio.new two_holdings [("A", Fin 1)] "P" (state0 [])
      = (Raise e, st')
      /\ (e = ValueError "Los simbolos en holdings y weights deben coincidir"
          \/ e = ZeroDivisionError).
Proof.
  split; [reflexivity|].
  apply (portfolio_mismatch_raises two_holdings [("A", Fin 1)] "P" (state0 [])).
  reflexivity.
Defined.

(** A total of zero cannot be divided by: when the weights, summed as the
    program sums them, give zero and there is at least one weight, the
    warning is printed and the first division raises [ZeroDivisionError],
    whatever the holdings and the single weights are. *)
Theorem portfolio_zero_total_raises h w nm st :
  w <> [] ->
  feqb (py.sum (py.values w)) (Fin 0) = true ->
  Portfolio.new h w nm st
  = (Raise ZeroDivisionError,
     mkState (heap st) (stdout st ++ [Portfolio.warning]) (rng st)).
Proof.
  intros Hne Hz. rewrite portfolio_new_cases.
  destruct (py.sum (py.values w)) as [T| | |]; try discriminate.
  assert (ET : T == 0).
  { unfold feqb, fcmp in Hz. apply Qeq_alt.
    destruct (T ?= 0); [reflexivity|discriminate|discriminate]. }
  assert (HT : Qeq_bool T 0 = true) by (now apply Qeq_bool_iff).
  assert (Hc : np.isclose (Fin T) (Fin 1) = false).
  { unfold np.isclose, isclose.
    remember (fadd atol (fmul rtol (fabs (Fin 1)))) as b eqn:Hb.
    vm_compute in Hb. subst b.
    unfold fleb, fcmp, fabs, fsub, fin.
    assert (Hgt : 1001 # 100000000 < Qred (Qabs (Qred (T - 1)))).
    { rewrite !Qred_correct, ET. reflexivity. }
    apply Qgt_alt in Hgt. rewrite Hgt. reflexivity. }
  rewrite Hc.
  destruct w as [|[k v] w]; [congruence|].
  cbn [Portfolio.rescale]. unfold py.truediv. rewrite HT. reflexivity.
Qed.

Lemma portfolio_zero_total_raises_witness :
  [("A", Fin 1); ("B", Fin (-1))] <> []
  /\ feqb (py.sum (py.values [("A", Fin 1); ("B", Fin (-1))])) (Fin 0) = true
  /\ Portfolio.new two_holdings [("A", Fin 1); ("B", Fin (-1))] "P" (state0 [])
     = (Raise ZeroDivisionError,
        mkState (heap (state0 []))
                (stdout (state0 []) ++ [Portfolio.warning])
                (rng (state0 []))).
Proof.
  split; [discriminate|]. split; [reflexivity|].
  apply (portfolio_zero_total_raises two_holdings
           [("A", Fin 1); ("B", Fin (-1))] "P" (state0 []));
    [discriminate|reflexivity].
Defined.

(** Constructing again from what a constructed portfolio holds: when its
    weights, summed as the program sums them, pass the tolerance test, the
    second construction prints nothing and returns the same portfolio. *)
Theorem portfolio_renormalise_same h w nm st p st' :
  Portfolio.new h w nm st = (Ok p, st') ->
  np.isclose (py.sum (py.values (Portfolio.weights p))) (Fin 1) = true ->
  Portfolio.new (Portfolio.holdings p) (Portfolio.weights p)
                (Portfolio.name p) st'
  = (Ok p, st').
Proof.
  intros H Hc. rewrite portfolio_new_cases in H.
  assert (Hk : py.set_eq (py.keys (Portfolio.holdings p))
                         (py.keys (Portfolio.weights p)) = true
               /\ p = Portfolio.mk (Portfolio.holdings p)
                                   (Portfolio.weights p) (Portfolio.name p)).
  { destruct (np.isclose (py.sum (py.values w)) (Fin 1)).
    - destruct (py.set_eq _ _) eqn:E; [|discriminate].
      inversion H; subst p st'. split; [exact E|reflexivity].
    - destruct (Portfolio.rescale w _) as [w'|]; [|discriminate].
      destruct (py.set_eq _ _) eqn:E; [|discriminate].
      inversion H; subst p st'. split; [exact E|reflexivity]. }
  destruct Hk as [Hk Hp].
  rewrite portfolio_new_cases, Hc, Hk, <- Hp. reflexivity.
Qed.

Lemma portfolio_renormalise_same_witness :
  exists p st',
    Portfolio.new two_holdings unscaled_weights "P" (state0 []) = (Ok p, st')
    /\ np.isclose (py.sum (py.values (Portfolio.weights p))) (Fin 1) = true
    /\ Portfolio.new (Portfolio.holdings p) (Portfolio.weights p)
                     (Portfolio.name p) st'
       = (Ok p, st').
Proof.
  eexists. eexists. split; [vm_compute; reflexivity|].
  split; [vm_compute; reflexivity|].
  apply (portfolio_renormalise_same
           two_holdings unscaled_weights "P" (state0 []));
    vm_compute; reflexivity.
Defined.

(** ** Constructing a series: edge cases and invariants *)

Lemma getitem_mem df name c :
  pd.getitem df name = Ok c -> py.mem name (pd.columns df) = true.
Proof.
  intros H. apply getitem_In in H. destruct H as [Hin Hn].
  apply mem_In. unfold pd.columns. apply in_map_iff. eauto.
Qed.

(** With both required columns present, the constructor reaches the
    statistics with the caller's frame at most converted and one new frame,
    sorted and renamed, in the store. *)
Lemma new_at sym r src ty st df date :
  nth_error (heap st) r = Some df ->
  pd.getitem df "date" = Ok date ->
  py.mem "close" (pd.columns df) = true ->
  PriceSeries.new sym r src ty st
  = PriceSeries._calculate_basic_stats
      (PriceSeries.mk sym (List.length (heap st)) src ty [])
      (mkState
         ((if pd.is_datetime64_any_dtype date then heap st
           else list_set (heap st) r (validated_input df date))
          ++ [standardized (sorted_frame df date)])
         (stdout st) (rng st)).
Proof.
  intros Hdf Hdate Hclose.
  unfold PriceSeries.new, PriceSeries.__post_init__.
  unfold bind at 1.
  assert (Hval : PriceSeries._validate_data
                   (PriceSeries.mk sym r src ty []) st
                 = (Ok (PriceSeries.mk sym (List.length (heap st)) src ty []),
                    mkState
                      ((if pd.is_datetime64_any_dtype date then heap st
                        else list_set (heap st) r (validated_input df date))
                       ++ [sorted_frame df date])
                      (stdout st) (rng st))).
  { unfold PriceSeries._validate_data. unfold bind at 1. unfold deref.
    cbn [PriceSeries.data]. rewrite Hdf.
    unfold PriceSeries.required. cbn [forallb].
    rewrite (getitem_mem _ _ _ Hdate), Hclose. cbn [andb negb].
    unfold bind at 1. unfold lift at 1. rewrite Hdate.
    apply (validate_tail (PriceSeries.mk sym r src ty []) st df date Hdf Hdate). }
  rewrite Hval. clear Hval.
  set (h1 := if pd.is_datetime64_any_dtype date then heap st
             else list_set (heap st) r (validated_input df date)).
  assert (Hlen : List.length h1 = List.length (heap st)).
  { unfold h1. destruct (pd.is_datetime64_any_dtype date);
      [reflexivity|apply list_set_length]. }
  unfold bind at 1.
  rewrite (standardize_at _ _ (sorted_frame df date))
    by (cbn [PriceSeries.data heap]; rewrite <- Hlen;
        apply nth_error_app_last).
  cbn [PriceSeries.data heap stdout rng].
  rewrite <- Hlen, list_set_app_last. reflexivity.
Qed.

Lemma close_at self s F c v :
  nth_error (heap s) (PriceSeries.data self) = Some F ->
  pd.getitem F "close" = Ok c ->
  pd.numeric c = Ok v ->
  PriceSeries.close self s = (Ok (combine (df_index F) v), s).
Proof.
  intros HF Hc Hv. unfold PriceSeries.close, bind, deref, lift, ret.
  rewrite HF, Hc, Hv. reflexivity.
Qed.

(** A frame without rows cannot be made a series: with both columns there
    and the close column readable, the constructor raises [IndexError] (from
    [iloc[-1]] in the statistics). *)
Theorem new_empty_frame_raises sym r src ty st df date c v :
  nth_error (heap st) r = Some df ->
  pd.getitem df "date" = Ok date ->
  py.mem "close" (pd.columns df) = true ->
  col_values date = [] ->
  pd.getitem (standardized (sorted_frame df date)) "close" = Ok c ->
  pd.numeric c = Ok v ->
  fst (PriceSeries.new sym r src ty st) = Raise IndexError.
Proof.
  intros Hdf Hdate Hclose Hempty Hc Hv.
  rewrite (new_at _ _ _ _ _ _ _ Hdf Hdate Hclose).
  set (h1 := if pd.is_datetime64_any_dtype date then heap st
             else list_set (heap st) r (validated_input df date)).
  assert (Hlen : List.length h1 = List.length (heap st)).
  { unfold h1. destruct (pd.is_datetime64_any_dtype date);
      [reflexivity|apply list_set_length]. }
  unfold PriceSeries._calculate_basic_stats. unfold bind at 1.
  rewrite get_returns_eq.
  rewrite (close_at _ _ (standardized (sorted_frame df date)) c v)
    by (try assumption; cbn [PriceSeries.data heap]; rewrite <- Hlen;
        apply nth_error_app_last).
  rewrite standardized_index, Hempty. cbn [List.length pd.RangeIndex seq map combine].
  unfold bind at 1.
  rewrite (close_at _ _ (standardized (sorted_frame df date)) c v)
    by (try assumption; cbn [PriceSeries.data heap]; rewrite <- Hlen;
        apply nth_error_app_last).
  rewrite standardized_index, Hempty. reflexivity.
Qed.

Lemma new_empty_frame_raises_witness :
  nth_error (heap (state0 [no_rows_frame])) 0%nat = Some no_rows_frame
  /\ pd.getitem no_rows_frame "date" = Ok (mkColumn "date" dt_datetime64 [])
  /\ py.mem "close" (pd.columns no_rows_frame) = true
  /\ col_values (mkColumn "date" dt_datetime64 []) = []
  /\ pd.getitem (standardized
                   (sorted_frame no_rows_frame
                                 (mkColumn "date" dt_datetime64 [])))
                "close"
     = Ok (mkColumn "close" dt_float64 [])
  /\ pd.numeric (mkColumn "close" dt_float64 []) = Ok []
  /\ fst (PriceSeries.new "A" 0%nat "yahoo" "stock" (state0 [no_rows_frame]))
     = Raise IndexError.
Proof.
  repeat (split; [reflexivity|]).
  apply (new_empty_frame_raises "A" 0%nat "yahoo" "stock"
           (state0 [no_rows_frame]) no_rows_frame
           (mkColumn "date" dt_datetime64 [])
           (mkColumn "close" dt_float64 []) []); reflexivity.
Defined.

Lemma lower_ascii_idem c : py.lower_ascii (py.lower_ascii c) = py.lower_ascii c.
Proof.
  unfold py.lower_ascii. cbv zeta.
  destruct ((65 <=? nat_of_ascii c)%nat && (nat_of_ascii c <=? 90)%nat) eqn:E.
  - apply andb_prop in E. destruct E as [E1 E2].
    apply Nat.leb_le in E1, E2.
    rewrite nat_ascii_embedding by lia.
    replace (nat_of_ascii c + 32 <=? 90)%nat with false
      by (symmetry; apply Nat.leb_gt; lia).
    now rewrite andb_false_r.
  - now rewrite E.
Qed.

Lemma lower_idem s : py.lower (py.lower s) = py.lower s.
Proof.
  induction s as [|c s IH]; cbn; [reflexivity|].
  now rewrite lower_ascii_idem, IH.
Qed.

Lemma set_column_length cols c :
  (exists c', In c' cols /\ col_name c' = col_name c) ->
  List.length (pd.set_column cols c) = List.length cols.
Proof.
  induction cols as [|c0 l IH]; intros (c' & Hin & Hn); [destruct Hin|].
  cbn [pd.set_column].
  destruct (String.eqb (col_name c0) (col_name c)) eqn:E; [reflexivity|].
  cbn. f_equal. apply IH. destruct Hin as [->|Hin].
  - rewrite Hn, String.eqb_refl in E. discriminate.
  - eauto.
Qed.

(** The frame a constructed series holds is well formed and canonical: its
    index is [0 .. n-1] for the [n >= 1] rows of the caller's frame, every
    column has [n] cells, and every column name is in lower case. *)
Theorem constructed_frame_shape sym r src ty st ps st' :
  PriceSeries.new sym r src ty st = (Ok ps, st') ->
  exists df date F n,
    nth_error (heap st) r = Some df
    /\ pd.getitem df "date" = Ok date
    /\ n = List.length (col_values date)
    /\ (1 <= n)%nat
    /\ nth_error (heap st') (PriceSeries.data ps) = Some F
    /\ df_index F = pd.RangeIndex n
    /\ df_index_dtype F = dt_int64
    /\ List.length (df_columns F) = List.length (df_columns df)
    /\ forall c, In c (df_columns F) ->
                 List.length (col_values c) = n
                 /\ py.lower (col_name c) = col_name c.
Proof.
  intros Hnew.
  destruct (new_ok_frame _ _ _ _ _ _ _ Hnew) as (df & date & Hdf & Hdate & Hfr).
  apply new_ok in Hnew.
  destruct Hnew as (_ & _ & c & _ & _ & _ & _ & Hc & Hne).
  destruct (close_inv _ _ _ _ Hc) as (F & col & v & HF & _ & _ & ->).
  rewrite Hfr in HF. inversion HF; subst F; clear HF.
  exists df, date, (standardized (sorted_frame df date)),
    (List.length (col_values date)).
  split; [exact Hdf|]. split; [exact Hdate|]. split; [reflexivity|].
  split.
  { rewrite standardized_index in Hne.
    destruct (List.length (col_values date)); [|lia].
    exfalso. apply Hne. reflexivity. }
  split; [exact Hfr|]. split; [apply standardized_index|].
  split; [reflexivity|].
  split.
  { rewrite standardized_columns, length_map.
    unfold validated_input, pd.setitem.
    destruct (pd.is_datetime64_any_dtype date); [reflexivity|].
    cbn [df_columns].
    destruct (getitem_In _ _ _ Hdate) as [Hin Hname].
    apply set_column_length. exists date. split; [exact Hin|exact Hname]. }
  intros c Hin. split; [exact (standardized_column_length df date c Hin)|].
  rewrite standardized_columns in Hin. apply in_map_iff in Hin.
  destruct Hin as (c0 & <- & _). cbn [col_name]. apply lower_idem.
Qed.

Lemma constructed_frame_shape_witness :
  exists ps st',
    PriceSeries.new "A" 0%nat "yahoo" "stock" (state0 [january_frame])
    = (Ok ps, st')
    /\ exists df date F n,
    nth_error (heap (state0 [january_frame])) 0%nat = Some df
    /\ pd.getitem df "date" = Ok date
    /\ n = List.length (col_values date)
    /\ (1 <= n)%nat
    /\ nth_error (heap st') (PriceSeries.data ps) = Some F
    /\ df_index F = pd.RangeIndex n
    /\ df_index_dtype F = dt_int64
    /\ List.length (df_columns F) = List.length (df_columns df)
    /\ forall c, In c (df_columns F) ->
                 List.length (col_values c) = n
                 /\ py.lower (col_name c) = col_name c.
Proof.
  eexists. eexists. split; [vm_compute; reflexivity|].
  apply (constructed_frame_shape "A" 0%nat "yahoo" "stock"
           (state0 [january_frame])).
  vm_compute. reflexivity.
Defined.

Lemma stats_values self s ps s' :
  PriceSeries._calculate_basic_stats self s = (Ok ps, s') ->
  exists c last first mdd,
    PriceSeries.close self s = (Ok c, s)
    /\ pd.iloc_last (pd.values c) = Ok last
    /\ pd.iloc_first (pd.values c) = Ok first
    /\ PriceSeries._calculate_max_drawdown self s = (Ok mdd, s)
    /\ let r := pd.values (pd.dropna (pd.pct_change c)) in
       ps = PriceSeries.set_stats self
              [("mean_return", pd.mean r);
               ("std_return", pd.std r);
               ("sharpe_ratio",
                  if fgtb (pd.std r) (Fin 0)
                  then fmul (fdiv (pd.mean r) (pd.std r)) (np.sqrt (Fin 252))
                  else Fin 0);
               ("total_return", fsub (fdiv last first) (Fin 1));
               ("volatility", fmul (pd.std r) (np.sqrt (Fin 252)));
               ("max_drawdown", mdd)].
Proof.
  unfold PriceSeries._calculate_basic_stats. intros H.
  apply bind_ok in H. destruct H as (returns & s1 & Hr & H).
  rewrite get_returns_eq in Hr.
  destruct (PriceSeries.close self s) as [[c|e] s0] eqn:Hc;
    [|discriminate].
  pose proof (close_pure _ _ _ _ Hc) as ->.
  inversion Hr; subst returns s1; clear Hr.
  unfold bind in H. rewrite Hc in H. unfold lift in H.
  destruct (pd.iloc_last (pd.values c)) as [last|] eqn:Hl; [|discriminate].
  destruct (pd.iloc_first (pd.values c)) as [first|] eqn:Hf; [|discriminate].
  destruct (PriceSeries._calculate_max_drawdown self s) as [[mdd|] s2] eqn:Hm;
    [|discriminate].
  pose proof (max_drawdown_pure _ _ _ _ Hm) as ->.
  unfold ret in H. inversion H.
  exists c, last, first, mdd. repeat split; assumption.
Qed.

Lemma new_ok_stats sym r src ty st ps st' :
  PriceSeries.new sym r src ty st = (Ok ps, st') ->
  PriceSeries._calculate_basic_stats
    (PriceSeries.mk sym (List.length (heap st)) src ty []) st'
  = (Ok ps, st').
Proof.
  intros H.
  destruct (new_ok_frame _ _ _ _ _ _ _ H) as (df & date & Hdf & Hdate & _).
  assert (Hclose : py.mem "close" (pd.columns df) = true).
  { destruct (py.mem "close" (pd.columns df)) eqn:E; [reflexivity|].
    unfold PriceSeries.new in H.
    rewrite (validate_requires_literal_names
               (PriceSeries.mk sym r src ty []) st df Hdf) in H
      by (rewrite E; apply andb_false_r).
    discriminate. }
  rewrite (new_at _ _ _ _ _ _ _ Hdf Hdate Hclose) in H.
  pose proof (stats_effect _ _ _ _ H) as [E _].
  rewrite <- E in H at 1. exact H.
Qed.

(** The statistics cached in a constructed series are the six keyed values,
    and they agree with what its frame gives now: mean and standard
    deviation of [get_returns()], the annualised volatility, the Sharpe ratio
    with its guard ([0] unless the standard deviation is above zero), the
    total return from the first to the last close, the maximum drawdown. *)
Theorem cached_stats_agree sym r src ty st ps st' :
  PriceSeries.new sym r src ty st = (Ok ps, st') ->
  exists returns closes first last mdd,
    PriceSeries.get_returns ps st' = (Ok returns, st')
    /\ closes_of ps st' = Some closes
    /\ pd.iloc_first closes = Ok first
    /\ pd.iloc_last closes = Ok last
    /\ PriceSeries._calculate_max_drawdown ps st' = (Ok mdd, st')
    /\ py.keys (PriceSeries.get_stats ps) = stat_keys
    /\ stat ps "mean_return" = Some (pd.mean (pd.values returns))
    /\ stat ps "std_return" = Some (pd.std (pd.values returns))
    /\ stat ps "volatility"
       = Some (fmul (pd.std (pd.values returns)) (np.sqrt (Fin 252)))
    /\ stat ps "sharpe_ratio"
       = Some (if fgtb (pd.std (pd.values returns)) (Fin 0)
               then fmul (fdiv (pd.mean (pd.values returns))
                               (pd.std (pd.values returns)))
                         (np.sqrt (Fin 252))
               else Fin 0)
    /\ stat ps "total_return" = Some (fsub (fdiv last first) (Fin 1))
    /\ stat ps "max_drawdown" = Some mdd.
Proof.
  intros Hnew.
  destruct (new_ok_frame _ _ _ _ _ _ _ Hnew) as (df & date & _ & _ & Hfr).
  pose proof (new_ok_stats _ _ _ _ _ _ _ Hnew) as Hs.
  apply new_ok in Hnew. destruct Hnew as (_ & _ & _ & _ & _ & Hdata & _).
  apply stats_values in Hs.
  destruct Hs as (c & last & first & mdd & Hc & Hl & Hf & Hm & Hps).
  cbv zeta in Hps.
  assert (Hclose : PriceSeries.close ps st' = (Ok c, st')).
  { unfold PriceSeries.close in *. cbn [PriceSeries.data] in Hc.
    rewrite Hdata. exact Hc. }
  assert (Hmdd : PriceSeries._calculate_max_drawdown ps st' = (Ok mdd, st')).
  { unfold PriceSeries._calculate_max_drawdown in *. unfold bind in *.
    rewrite Hclose. rewrite Hc in Hm. exact Hm. }
  destruct (close_inv _ _ _ _ Hclose) as (F & col & v & HF & Hcol & Hv & Ec).
  rewrite Hfr in HF. inversion HF; subst F; clear HF.
  apply numeric_values in Hv. subst v.
  destruct (getitem_In _ _ _ Hcol) as [Hin _].
  apply standardized_column_length in Hin.
  assert (Hvals : pd.values c = col_values col).
  { rewrite Ec, standardized_index. apply values_combine.
    rewrite RangeIndex_length. symmetry. exact Hin. }
  exists (pd.dropna (pd.pct_change c)), (col_values col), first, last, mdd.
  split; [now rewrite get_returns_eq, Hclose|].
  split; [unfold closes_of; now rewrite Hfr, Hcol|].
  split; [now rewrite <- Hvals|]. split; [now rewrite <- Hvals|].
  split; [exact Hmdd|].
  subst ps. unfold stat, PriceSeries.get_stats, stat_keys.
  cbn [PriceSeries._stats PriceSeries.set_stats].
  set (sq := np.sqrt (Fin 252)). clearbody sq.
  set (m := pd.mean _). clearbody m.
  set (sd := pd.std _). clearbody sd.
  set (tr := fsub _ _). clearbody tr.
  repeat split; reflexivity.
Qed.

Lemma cached_stats_agree_witness :
  exists ps st',
    PriceSeries.new "A" 0%nat "yahoo" "stock" (state0 [doubling_frame])
    = (Ok ps, st')
    /\ exists returns closes first last mdd,
    PriceSeries.get_returns ps st' = (Ok returns, st')
    /\ closes_of ps st' = Some closes
    /\ pd.iloc_first closes = Ok first
    /\ pd.iloc_last closes = Ok last
    /\ PriceSeries._calculate_max_drawdown ps st' = (Ok mdd, st')
    /\ py.keys (PriceSeries.get_stats ps) = stat_keys
    /\ stat ps "mean_return" = Some (pd.mean (pd.values returns))
    /\ stat ps "std_return" = Some (pd.std (pd.values returns))
    /\ stat ps "volatility"
       = Some (fmul (pd.std (pd.values returns)) (np.sqrt (Fin 252)))
    /\ stat ps "sharpe_ratio"
       = Some (if fgtb (pd.std (pd.values returns)) (Fin 0)
               then fmul (fdiv (pd.mean (pd.values returns))
                               (pd.std (pd.values returns)))
                         (np.sqrt (Fin 252))
               else Fin 0)
    /\ stat ps "total_return" = Some (fsub (fdiv last first) (Fin 1))
    /\ stat ps "max_drawdown" = Some mdd.
Proof.
  eexists. eexists. split; [vm_compute; reflexivity|].
  apply (cached_stats_agree "A" 0%nat "yahoo" "stock"
           (state0 [doubling_frame])).
  vm_compute. reflexivity.
Defined.

(** ** Cleaning: what always fails *)

(** On a constructed series [remove_outliers] never returns: it raises
    [IndexingError] for both known methods, [iqr] and [zscore], and
    [ValueError] for any other method name, and it leaves the state as it
    was. *)
Theorem remove_outliers_always_raises sym r src ty st ps st' method threshold :
  PriceSeries.new sym r src ty st = (Ok ps, st') ->
  DataCleaner.remove_outliers ps method threshold st'
  = (Raise (if String.eqb method "iqr" || String.eqb method "zscore"
            then IndexingError
            else ValueError "Metodo desconocido: {method}"),
     st').
Proof.
  intros Hnew.
  destruct (new_ok_frame _ _ _ _ _ _ _ Hnew) as (df & date & _ & _ & Hfr).
  apply new_ok in Hnew.
  destruct Hnew as (_ & _ & c & _ & _ & _ & _ & Hc & Hne).
  destruct (close_inv _ _ _ _ Hc) as (F & col & v & HF & _ & _ & ->).
  rewrite Hfr in HF. inversion HF; subst F; clear HF.
  rewrite standardized_index in *.
  destruct (List.length (col_values date)) as [|n] eqn:En;
    [exfalso; apply Hne; reflexivity|].
  unfold DataCleaner.remove_outliers.
  unfold bind at 1. rewrite get_returns_eq, Hc.
  destruct (String.eqb method "iqr") eqn:E1; cbn [orb].
  - unfold bind, ret, deref, lift. rewrite Hfr.
    rewrite getitem_bool_returns_mask; [reflexivity|].
    rewrite standardized_index, En. reflexivity.
  - destruct (String.eqb method "zscore") eqn:E2.
    + unfold bind, ret, deref, lift. rewrite Hfr.
      rewrite getitem_bool_returns_mask; [reflexivity|].
      rewrite standardized_index, En. reflexivity.
    + reflexivity.
Qed.

Lemma remove_outliers_always_raises_witness :
  exists ps st',
    PriceSeries.new "A" 0%nat "yahoo" "stock" (state0 [january_frame])
    = (Ok ps, st')
    /\ DataCleaner.remove_outliers ps "zscore" (Fin 3) st'
       = (Raise (if String.eqb "zscore" "iqr" || String.eqb "zscore" "zscore"
                 then IndexingError
                 else ValueError "Metodo desconocido: {method}"),
          st').
Proof.
  eexists. eexists. split; [vm_compute; reflexivity|].
  apply (remove_outliers_always_raises
           "A" 0%nat "yahoo" "stock" (state0 [january_frame])).
  vm_compute. reflexivity.
Defined.

Lemma date_range_error a b e :
  pd.date_range a b = Raise e ->
  e = ValueError "Neither start nor end can be NaT".
Proof.
  unfold pd.date_range.
  destruct a as [p| | |], b as [q| | |]; try (intros H; inversion H; reflexivity).
  destruct (Qle_bool p q); discriminate.
Qed.

(** A series with two rows for one date cannot be filled: whatever the
    method, [fill_missing_dates] raises [ValueError] (the frame cannot be
    reindexed on duplicate labels) and leaves the state as it was. *)
Theorem fill_missing_dates_duplicate_dates series method st df date :
  nth_error (heap st) (PriceSeries.data series) = Some df ->
  pd.getitem df "date" = Ok date ->
  pd.has_duplicates (col_values date) = true ->
  exists msg,
    DataCleaner.fill_missing_dates series method st
    = (Raise (ValueError msg), st).
Proof.
  intros Hdf Hdate Hdup.
  unfold DataCleaner.fill_missing_dates, bind, deref, lift.
  rewrite Hdf, Hdate.
  destruct (pd.date_range _ _) as [rng|e] eqn:Er.
  - unfold pd.set_index. rewrite Hdate.
    unfold pd.reindex. cbn [df_index]. rewrite Hdup. eauto.
  - apply date_range_error in Er. subst e. eauto.
Qed.

Lemma fill_missing_dates_duplicate_dates_witness :
  nth_error (heap (state0 [sorted_duplicates_frame]))
            (PriceSeries.data (PriceSeries.mk "A" 0%nat "yahoo" "stock" []))
  = Some sorted_duplicates_frame
  /\ pd.getitem sorted_duplicates_frame "date"
     = Ok (mkColumn "date" dt_datetime64 (floats [1; 2; 2]%Z))
  /\ pd.has_duplicates
       (col_values (mkColumn "date" dt_datetime64 (floats [1; 2; 2]%Z)))
     = true
  /\ exists msg,
      DataCleaner.fill_missing_dates
        (PriceSeries.mk "A" 0%nat "yahoo" "stock" []) "ffill"
        (state0 [sorted_duplicates_frame])
      = (Raise (ValueError msg), state0 [sorted_duplicates_frame]).
Proof.
  repeat (split; [reflexivity|]).
  apply (fill_missing_dates_duplicate_dates
           (PriceSeries.mk "A" 0%nat "yahoo" "stock" []) "ffill"
           (state0 [sorted_duplicates_frame]) sorted_duplicates_frame
           (mkColumn "date" dt_datetime64 (floats [1; 2; 2]%Z)));
    reflexivity.
Defined.

(** ** The cached statistics, from the closes *)

(** The statistics of a constructed series as a function of its closes. *)
Lemma new_stats_closes sym r src ty st ps st' v :
  PriceSeries.new sym r src ty st = (Ok ps, st') ->
  closes_of ps st' = Some v ->
  exists last first,
    pd.iloc_last v = Ok last
    /\ pd.iloc_first v = Ok first
    /\ PriceSeries._stats ps
       = [("mean_return", pd.mean (returns_of v));
          ("std_return", pd.std (returns_of v));
          ("sharpe_ratio",
             if fgtb (pd.std (returns_of v)) (Fin 0)
             then fmul (fdiv (pd.mean (returns_of v)) (pd.std (returns_of v)))
                       (np.sqrt (Fin 252))
             else Fin 0);
          ("total_return", fsub (fdiv last first) (Fin 1));
          ("volatility", fmul (pd.std (returns_of v)) (np.sqrt (Fin 252)));
          ("max_drawdown", pd.min (drawdown v))].
Proof.
  intros Hnew Hv.
  destruct (new_ok_frame _ _ _ _ _ _ _ Hnew) as (df & date & _ & _ & Hfr).
  pose proof (new_ok_stats _ _ _ _ _ _ _ Hnew) as Hs.
  apply new_ok in Hnew. destruct Hnew as (_ & _ & _ & _ & _ & Hdata & _).
  apply stats_values in Hs.
  destruct Hs as (c & last & first & mdd & Hc & Hl & Hf & Hm & Hps).
  cbv zeta in Hps.
  destruct (close_inv _ _ _ _ Hc) as (F & col & v' & HF & Hcol & Hv' & Ec).
  cbn [PriceSeries.data] in HF. rewrite <- Hdata, Hfr in HF.
  inversion HF; subst F; clear HF.
  apply numeric_values in Hv'. subst v'.
  unfold closes_of in Hv. rewrite Hfr, Hcol in Hv. inversion Hv; subst v.
  destruct (getitem_In _ _ _ Hcol) as [Hin _].
  apply standardized_column_length in Hin.
  rewrite standardized_index, <- Hin in Ec.
  assert (Hvals : pd.values c = col_values col).
  { rewrite Ec. apply values_combine. apply RangeIndex_length. }
  unfold PriceSeries._calculate_max_drawdown, bind in Hm.
  rewrite Hc in Hm. unfold ret in Hm. inversion Hm as [Hmdd]. clear Hm.
  rewrite Hvals in Hl, Hf, Hmdd.
  exists last, first. split; [exact Hl|]. split; [exact Hf|].
  subst ps. cbn [PriceSeries._stats PriceSeries.set_stats].
  unfold returns_of, drawdown. rewrite <- Ec, Hmdd. reflexivity.
Qed.

(** ** Order on floating-point values *)

Lemma fleb_Fin a b : fleb (Fin a) (Fin b) = true <-> a <= b.
Proof.
  unfold fleb, fcmp. rewrite Qle_alt.
  destruct (a ?= b); split; intros H; try reflexivity; try discriminate;
    congruence.
Qed.

Lemma fleb_refl x : isna x = false -> fleb x x = true.
Proof.
  destruct x as [a| | |]; cbn; try discriminate; try reflexivity.
  intros _. apply fleb_Fin. apply Qle_refl.
Qed.

Lemma fleb_notna x y : fleb x y = true -> isna x = false /\ isna y = false.
Proof. destruct x, y; cbn; try discriminate; auto. Qed.

Lemma fleb_trans x y z :
  fleb x y = true -> fleb y z = true -> fleb x z = true.
Proof.
  destruct x as [a| | |], y as [b| | |], z as [c| | |];
    try (cbn; intros; (reflexivity || discriminate)).
  rewrite !fleb_Fin. apply Qle_trans.
Qed.

Lemma fltb_fleb x y : fltb x y = true -> fleb x y = true.
Proof. unfold fltb, fleb. destruct (fcmp x y) as [[| |]|]; auto. Qed.

Lemma min2_le_l a b :
  isna a = false -> isna b = false -> fleb (pd.min2 a b) a = true.
Proof.
  intros Ha Hb. unfold pd.min2. destruct (fltb b a) eqn:E.
  - now apply fltb_fleb.
  - now apply fleb_refl.
Qed.

Lemma fcmp_antisym x y : fcmp y x = option_map CompOpp (fcmp x y).
Proof.
  destruct x as [a| | |], y as [b| | |]; cbn; try reflexivity.
  now rewrite <- Qcompare_antisym.
Qed.

Lemma not_fltb_fleb a b :
  isna a = false -> isna b = false -> fltb b a = false -> fleb a b = true.
Proof.
  intros Ha Hb. unfold fltb, fleb. rewrite (fcmp_antisym a b).
  destruct (fcmp a b) as [[| |]|] eqn:E; cbn; try reflexivity;
    try discriminate.
  destruct a, b; cbn in *; discriminate.
Qed.

Lemma min2_le_r a b :
  isna a = false -> isna b = false -> fleb (pd.min2 a b) b = true.
Proof.
  intros Ha Hb. unfold pd.min2. destruct (fltb b a) eqn:E.
  - now apply fleb_refl.
  - now apply not_fltb_fleb.
Qed.

Lemma min2_notna a b :
  isna a = false -> isna b = false -> isna (pd.min2 a b) = false.
Proof. intros Ha Hb. unfold pd.min2. now destruct (fltb b a). Qed.

Lemma fold_min_le r :
  forall y x,
    isna y = false ->
    forallb notna r = true ->
    In x (y :: r) ->
    fleb (fold_left pd.min2 r y) x = true.
Proof.
  induction r as [|z r IH]; intros y x Hy Hr Hin; cbn [fold_left].
  - destruct Hin as [<-|[]]. now apply fleb_refl.
  - cbn in Hr. apply andb_prop in Hr. destruct Hr as [Hz Hr].
    unfold notna in Hz. apply negb_true_iff in Hz.
    destruct Hin as [<-|[<-|Hin]].
    + apply fleb_trans with (pd.min2 y z).
      * apply IH; [now apply min2_notna|exact Hr|now left].
      * now apply min2_le_l.
    + apply fleb_trans with (pd.min2 y z).
      * apply IH; [now apply min2_notna|exact Hr|now left].
      * now apply min2_le_r.
    + apply IH; [now apply min2_notna|exact Hr|now right].
Qed.

(** [s.min()] is below every value of [s] that is present. *)
Lemma min_le l x :
  In x l -> isna x = false -> fleb (pd.min l) x = true.
Proof.
  intros Hin Hx. unfold pd.min, pd.reduce.
  assert (Hf : In x (filter notna l)).
  { apply filter_In. split; [exact Hin|]. unfold notna. now rewrite Hx. }
  destruct (filter notna l) as [|y r] eqn:E; [destruct Hf|].
  assert (Hall : forallb notna (y :: r) = true).
  { rewrite <- E. apply forallb_forall. intros z Hz.
    apply filter_In in Hz. apply Hz. }
  cbn in Hall. apply andb_prop in Hall. destruct Hall as [Hy Hr].
  unfold notna in Hy. apply negb_true_iff in Hy.
  now apply fold_min_le.
Qed.

(** ** Drawdown *)

Lemma fin_zero q : q == 0 -> fin q = Fin 0.
Proof.
  intros E. unfold fin. f_equal.
  rewrite (Qred_complete _ _ E). reflexivity.
Qed.

(** After two usable closes the drawdown series starts with a missing value
    and a zero. *)
Lemma drawdown_starts_at_zero a b rest :
  priced (Fin a) = true -> priced (Fin b) = true ->
  exists tail, drawdown (Fin a :: Fin b :: rest) = NaN :: Fin 0 :: tail.
Proof.
  cbn [priced]. intros Ha Hb.
  apply negb_true_iff in Ha, Hb.
  unfold drawdown, pd.pct_change_values, pd.ffill, pd.shift1.
  cbn [pd.ffill_from isna List.length firstn combine map fst snd].
  rewrite fdiv_nan_r.
  assert (E : fsub (fdiv (Fin b) (Fin a)) (Fin 1)
              = Fin (Qred (Qred (b / a) - 1))).
  { unfold fdiv. rewrite Ha. reflexivity. }
  rewrite E. clear E. cbn [fsub fadd fin].
  unfold pd.cumprod, pd.expanding_max.
  cbn [pd.cumprod_from isna fmul fin pd.expanding_max_from combine map
       fst snd fsub].
  set (q1 := Qred (1 * Qred (1 + Qred (Qred (b / a) - 1)))).
  assert (Hq1 : Qeq_bool q1 0 = false).
  { destruct (Qeq_bool q1 0) eqn:E; [|reflexivity].
    apply Qeq_bool_iff in E. unfold q1 in E.
    rewrite !Qred_correct in E.
    assert (Hb' : ~ b == 0) by (intros H; apply Qeq_bool_iff in H; congruence).
    assert (Ha' : ~ a == 0) by (intros H; apply Qeq_bool_iff in H; congruence).
    exfalso. apply Hb'.
    assert (E2 : b / a == 0) by (rewrite <- E; ring).
    rewrite <- (Qmult_div_r b a Ha'), E2. ring. }
  eexists. f_equal. f_equal.
  unfold fin at 1 2. fold q1. unfold fdiv. rewrite Hq1. apply fin_zero.
  rewrite Qred_correct. field.
  intros H. apply Qeq_bool_iff in H. congruence.
Qed.

(** When the first two closes are finite and not zero, the cached maximum
    drawdown of a constructed series is never above zero: the test
    [max_drawdown > 0] fails.  (The drawdown at the second row is zero, or
    missing when the running maximum is not a positive number.) *)
Theorem max_drawdown_not_positive sym r src ty st ps st' c0 c1 rest :
  PriceSeries.new sym r src ty st = (Ok ps, st') ->
  closes_of ps st' = Some (c0 :: c1 :: rest) ->
  priced c0 = true ->
  priced c1 = true ->
  exists mdd,
    stat ps "max_drawdown" = Some mdd /\ fgtb mdd (Fin 0) = false.
Proof.
  intros Hnew Hv H0 H1.
  destruct (new_stats_closes _ _ _ _ _ _ _ _ Hnew Hv)
    as (last & first & _ & _ & Hstats).
  exists (pd.min (drawdown (c0 :: c1 :: rest))). split.
  - unfold stat, PriceSeries.get_stats. rewrite Hstats.
    set (sq := np.sqrt (Fin 252)). clearbody sq.
    set (m := pd.mean _). clearbody m.
    set (sd := pd.std _). clearbody sd.
    set (tr := fsub _ _). clearbody tr.
    set (d := pd.min _). clearbody d. reflexivity.
  - destruct c0 as [a| | |], c1 as [b| | |]; try discriminate.
    destruct (drawdown_starts_at_zero a b rest H0 H1) as (tail & ->).
    assert (Hle : fleb (pd.min (NaN :: Fin 0 :: tail)) (Fin 0) = true)
      by (apply min_le; [right; now left|reflexivity]).
    unfold fgtb, fltb. unfold fleb in Hle.
    rewrite (fcmp_antisym (pd.min (NaN :: Fin 0 :: tail)) (Fin 0)).
    destruct (fcmp (pd.min (NaN :: Fin 0 :: tail)) (Fin 0)) as [[| |]|];
      try reflexivity; discriminate.
Qed.

Lemma max_drawdown_not_positive_witness :
  exists ps st',
    PriceSeries.new "A" 0%nat "yahoo" "stock" (state0 [early_fall_frame])
    = (Ok ps, st')
    /\ closes_of ps st' = Some (Fin 100 :: Fin 50 :: [Fin 60])
    /\ priced (Fin 100) = true
    /\ priced (Fin 50) = true
    /\ exists mdd,
        stat ps "max_drawdown" = Some mdd /\ fgtb mdd (Fin 0) = false.
Proof.
  eexists. eexists. split; [vm_compute; reflexivity|].
  split; [vm_compute; reflexivity|].
  split; [reflexivity|]. split; [reflexivity|].
  eapply (max_drawdown_not_positive "A" 0%nat "yahoo" "stock"
            (state0 [early_fall_frame])) with (c0 := Fin 100) (c1 := Fin 50)
                                              (rest := [Fin 60]);
    [vm_compute; reflexivity|vm_compute; reflexivity|reflexivity|reflexivity].
Defined.

(** A series of one observation has no returns: its mean, standard
    deviation, volatility and maximum drawdown are NaN, its Sharpe ratio is
    [0] by the guard, and its total return is [close/close - 1], which is [0]
    for a finite non-zero close. *)
Theorem single_observation_stats sym r src ty st ps st' c0 :
  PriceSeries.new sym r src ty st = (Ok ps, st') ->
  closes_of ps st' = Some [c0] ->
  PriceSeries.get_stats ps
  = [("mean_return", NaN); ("std_return", NaN); ("sharpe_ratio", Fin 0);
     ("total_return", fsub (fdiv c0 c0) (Fin 1)); ("volatility", NaN);
     ("max_drawdown", NaN)]
  /\ (priced c0 = true -> stat ps "total_return" = Some (Fin 0)).
Proof.
  intros Hnew Hv.
  destruct (new_stats_closes _ _ _ _ _ _ _ _ Hnew Hv)
    as (last & first & Hl & Hf & Hstats).
  cbn in Hl, Hf. inversion Hl; subst last. inversion Hf; subst first.
  assert (Hp : pd.pct_change_values [c0] = [NaN]).
  { destruct (pct_change_values_cons c0 []) as (rest & -> & Hlen).
    destruct rest; [reflexivity|discriminate]. }
  assert (Hr : returns_of [c0] = []).
  { unfold returns_of, pd.pct_change, pd.RangeIndex.
    cbn [List.length seq map combine pd.labels pd.values fst snd].
    rewrite Hp. reflexivity. }
  assert (Hd : pd.min (drawdown [c0]) = NaN).
  { unfold drawdown. rewrite Hp. reflexivity. }
  unfold PriceSeries.get_stats, stat. rewrite Hstats, Hr, Hd.
  set (sq := np.sqrt (Fin 252)). clearbody sq.
  split; [reflexivity|].
  clear Hp. intros Hp. destruct c0 as [a| | |]; try discriminate.
  cbn [priced] in Hp. apply negb_true_iff in Hp.
  assert (E : fsub (fdiv (Fin a) (Fin a)) (Fin 1) = Fin 0).
  { unfold fdiv. rewrite Hp. cbn [fsub fin].
    apply fin_zero. rewrite Qred_correct. field.
    intros H. apply Qeq_bool_iff in H. congruence. }
  unfold PriceSeries.get_stats. rewrite Hstats, E. reflexivity.
Qed.

Lemma single_observation_stats_witness :
  exists ps st',
    PriceSeries.new "A" 0%nat "yahoo" "stock" (state0 [one_row_frame])
    = (Ok ps, st')
    /\ closes_of ps st' = Some [Fin 100]
    /\ PriceSeries.get_stats ps
       = [("mean_return", NaN); ("std_return", NaN); ("sharpe_ratio", Fin 0);
          ("total_return", fsub (fdiv (Fin 100) (Fin 100)) (Fin 1));
          ("volatility", NaN); ("max_drawdown", NaN)]
    /\ (priced (Fin 100) = true -> stat ps "total_return" = Some (Fin 0)).
Proof.
  eexists. eexists. split; [vm_compute; reflexivity|].
  split; [vm_compute; reflexivity|].
  eapply (single_observation_stats "A" 0%nat "yahoo" "stock"
            (state0 [one_row_frame]));
    vm_compute; reflexivity.
Defined.

(** ** Monte Carlo: the random source *)

Lemma simulation_loop_state m sd d v0 k :
  fltb sd (Fin 0) = false ->
  forall a sims s res s',
    foldM (fun simulations i =>
             daily_returns <- np.random_normal m sd d ;;
             let price_path :=
               map (fmul v0)
                   (np.cumprod (map (fadd (Fin 1)) daily_returns)) in
             ret (list_set simulations i price_path))
          (seq a k) sims s
    = (res, s') ->
    heap s' = heap s /\ stdout s' = stdout s
    /\ forall j, rng s' j = rng s (k * d + j)%nat.
Proof.
  intros Hsd. induction k as [|k IH]; intros a sims s res s' H.
  - cbn in H. inversion H. repeat split.
  - cbn [seq foldM] in H. unfold bind at 1 in H. unfold bind at 1 in H.
    unfold np.random_normal at 1 in H. rewrite Hsd in H.
    unfold ret at 1 in H.
    apply IH in H. cbn [heap stdout rng] in H.
    destruct H as (Hh & Ho & Hr).
    split; [exact Hh|]. split; [exact Ho|].
    intros j. rewrite Hr. f_equal. lia.
Qed.

(** A simulation leaves the frames and the output alone and uses up exactly
    [n_simulations * n_days] variates of the random source. *)
Theorem monte_carlo_uses_draws p n d v0 st s res st' :
  Portfolio.get_portfolio_returns p st = (Ok (Portfolio.Ser s), st) ->
  Portfolio.monte_carlo_simulation p n d v0 st = (res, st') ->
  heap st' = heap st
  /\ stdout st' = stdout st
  /\ forall j, rng st' j = rng st (n * d + j)%nat.
Proof.
  intros Hr. unfold Portfolio.monte_carlo_simulation.
  unfold bind at 1. rewrite Hr. unfold bind at 1.
  unfold Portfolio.as_series, ret at 1.
  apply simulation_loop_state. apply std_not_negative.
Qed.

(** ** Rolling statistics *)

Lemma firstn_incl {A} n (l : list A) x : In x (firstn n l) -> In x l.
Proof.
  intros H. rewrite <- (firstn_skipn n l). apply in_or_app. now left.
Qed.

Lemma skipn_incl {A} n (l : list A) x : In x (skipn n l) -> In x l.
Proof.
  intros H. rewrite <- (firstn_skipn n l). apply in_or_app. now right.
Qed.

Lemma rolling_length f w l :
  List.length (pd.rolling f w l) = List.length l.
Proof. unfold pd.rolling. now rewrite length_map, length_seq. Qed.

Lemma rolling_nth f w l i :
  (i < List.length l)%nat ->
  nth i (pd.rolling f w l) NaN
  = if (S i <? w)%nat
       || negb (forallb isfinite (firstn w (skipn (S i - w) l)))
    then NaN else f (firstn w (skipn (S i - w) l)).
Proof.
  intros Hi. unfold pd.rolling.
  set (g := fun i0 : nat => _).
  rewrite (nth_indep _ NaN (g 0%nat))
    by (now rewrite length_map, length_seq).
  rewrite map_nth, seq_nth by exact Hi. reflexivity.
Qed.

(** The rolling statistics of a series have one row per daily return, under
    the labels of the returns.  In each of the three columns a row is
    missing while the window is not full and when a return in its window is
    infinite; at every other row the rolling mean and standard deviation are
    those of the last [window] returns.  The rolling Sharpe ratio is, row by
    row, their quotient times [sqrt 252]. *)
Theorem rolling_stats_rows ps window st returns :
  PriceSeries.get_returns ps st = (Ok returns, st) ->
  exists m sd sh,
    PriceSeries.rolling_stats ps window st
    = (Ok (mkDataFrame (pd.labels returns) dt_int64
             [mkColumn "rolling_mean" dt_float64 m;
              mkColumn "rolling_std" dt_float64 sd;
              mkColumn "rolling_sharpe" dt_float64 sh]), st)
    /\ List.length m = List.length returns
    /\ List.length sd = List.length returns
    /\ List.length sh = List.length returns
    /\ (forall i, (i < List.length returns)%nat ->
          let w := firstn window
                     (skipn (S i - window) (pd.values returns)) in
          nth i sh NaN
          = fmul (fdiv (nth i m NaN) (nth i sd NaN)) (np.sqrt (Fin 252))
          /\ if (S i <? window)%nat || negb (forallb isfinite w)
             then nth i m NaN = NaN /\ nth i sd NaN = NaN
                  /\ nth i sh NaN = NaN
             else nth i m NaN = pd.mean w /\ nth i sd NaN = pd.std w).
Proof.
  intros Hr. unfold PriceSeries.rolling_stats, bind. rewrite Hr.
  assert (Hlen : List.length (pd.values returns) = List.length returns)
    by (unfold pd.values; apply length_map).
  eexists. eexists. eexists. split; [reflexivity|].
  rewrite length_map, length_combine, !rolling_length, Nat.min_id, Hlen.
  split; [reflexivity|]. split; [reflexivity|]. split; [reflexivity|].
  intros i Hi.
  set (w := firstn window (skipn (S i - window) (pd.values returns))).
  assert (Esh : nth i (map (fun p => fmul (fdiv (fst p) (snd p))
                                         (np.sqrt (Fin 252)))
                          (combine
                             (pd.rolling pd.mean window (pd.values returns))
                             (pd.rolling pd.std window (pd.values returns))))
                    NaN
                = fmul (fdiv (nth i (pd.rolling pd.mean window
                                       (pd.values returns)) NaN)
                             (nth i (pd.rolling pd.std window
                                       (pd.values returns)) NaN))
                       (np.sqrt (Fin 252))).
  { set (g := fun p : float * float => _).
    rewrite (nth_indep _ NaN (g (NaN, NaN)))
      by (now rewrite length_map, length_combine, !rolling_length,
            Nat.min_id, Hlen).
    rewrite map_nth, combine_nth by (now rewrite !rolling_length).
    reflexivity. }
  split; [exact Esh|].
  rewrite Esh, !rolling_nth by (now rewrite Hlen). fold w.
  destruct ((S i <? window)%nat || negb (forallb isfinite w)).
  - repeat split; reflexivity.
  - split; reflexivity.
Qed.

Lemma monte_carlo_uses_draws_witness :
  exists p st s res st',
    single_asset_portfolio (state0 [january_frame]) = (Ok p, st)
    /\ Portfolio.get_portfolio_returns p st = (Ok (Portfolio.Ser s), st)
    /\ Portfolio.monte_carlo_simulation p 2 3 (Fin 100) st = (res, st')
    /\ heap st' = heap st
    /\ stdout st' = stdout st
    /\ forall j, rng st' j = rng st (2 * 3 + j)%nat.
Proof.
  eexists. eexists. eexists.
  destruct (Portfolio.monte_carlo_simulation _ 2 3 (Fin 100) _)
    as [res st'] eqn:E.
  exists res, st'.
  split; [vm_compute; reflexivity|].
  split; [vm_compute; reflexivity|].
  split; [reflexivity|].
  eapply monte_carlo_uses_draws; [|exact E].
  vm_compute; reflexivity.
Defined.

Lemma monte_carlo_simulation_paths_witness :
  exists p st s,
    single_asset_portfolio (state0 [january_frame]) = (Ok p, st)
    /\ Portfolio.get_portfolio_returns p st = (Ok (Portfolio.Ser s), st)
    /\ exists sims st',
        Portfolio.monte_carlo_simulation p 2 3 (Fin 100) st = (Ok sims, st')
        /\ List.length sims = 2%nat
        /\ forall i, (i < 2)%nat ->
             nth_error sims i
             = Some (price_path st (pd.mean (pd.values s))
                                (pd.std (pd.values s)) 3 (Fin 100) i)
             /\ List.length (price_path st (pd.mean (pd.values s))
                                        (pd.std (pd.values s)) 3 (Fin 100) i)
                = 3%nat.
Proof.
  eexists. eexists. eexists.
  split; [vm_compute; reflexivity|].
  split; [vm_compute; reflexivity|].
  apply monte_carlo_simulation_paths.
  vm_compute; reflexivity.
Defined.

Lemma portfolio_returns_total_witness :
  exists p st r,
    single_asset_portfolio (state0 [january_frame]) = (Ok p, st)
    /\ Portfolio.get_portfolio_returns p st = (Ok r, st)
    /\ st = st
    /\ (Portfolio.holdings p <> [] -> exists s, r = Portfolio.Ser s)
    /\ (Portfolio.holdings p = [] -> r = Portfolio.Int 0).
Proof.
  eexists. eexists. eexists.
  split; [vm_compute; reflexivity|].
  split; [vm_compute; reflexivity|].
  apply portfolio_returns_total.
  vm_compute; reflexivity.
Defined.

Lemma rolling_stats_rows_witness :
  exists ps st returns,
    PriceSeries.new "A" 0%nat "yahoo" "stock" (state0 [january_frame])
    = (Ok ps, st)
    /\ PriceSeries.get_returns ps st = (Ok returns, st)
    /\ exists m sd sh,
        PriceSeries.rolling_stats ps 2 st
        = (Ok (mkDataFrame (pd.labels returns) dt_int64
                 [mkColumn "rolling_mean" dt_float64 m;
                  mkColumn "rolling_std" dt_float64 sd;
                  mkColumn "rolling_sharpe" dt_float64 sh]), st)
        /\ List.length m = List.length returns
        /\ List.length sd = List.length returns
        /\ List.length sh = List.length returns
        /\ (forall i, (i < List.length returns)%nat ->
              let w := firstn 2 (skipn (S i - 2) (pd.values returns)) in
              nth i sh NaN
              = fmul (fdiv (nth i m NaN) (nth i sd NaN)) (np.sqrt (Fin 252))
              /\ if (S i <? 2)%nat || negb (forallb isfinite w)
                 then nth i m NaN = NaN /\ nth i sd NaN = NaN
                      /\ nth i sh NaN = NaN
                 else nth i m NaN = pd.mean w /\ nth i sd NaN = pd.std w).
Proof.
  eexists. eexists. eexists.
  split; [vm_compute; reflexivity|].
  split; [vm_compute; reflexivity|].
  apply rolling_stats_rows.
  vm_compute; reflexivity.
Defined.

(** ** Downloading several symbols *)

Lemma setitem_keys {V} (d : py.dict V) k v x :
  In x (py.keys (py.setitem d k v)) <-> In x (py.keys d) \/ x = k.
Proof.
  unfold py.keys. induction d as [|[k' v'] d IH]; cbn.
  - intuition.
  - destruct (String.eqb k' k) eqn:E; cbn.
    + apply String.eqb_eq in E. subst k'. intuition.
    + rewrite IH. intuition.
Qed.

Lemma setitem_NoDup {V} (d : py.dict V) k v :
  NoDup (py.keys d) -> NoDup (py.keys (py.setitem d k v)).
Proof.
  unfold py.keys. induction d as [|[k' v'] d IH]; cbn; intros H.
  - constructor; [intros []|constructor].
  - destruct (String.eqb k' k) eqn:E; cbn; [exact H|].
    inversion H as [|? ? Hn Hd]; subst. constructor; [|now apply IH].
    intros Hin. apply (setitem_keys d k v k') in Hin.
    destruct Hin as [Hin| ->]; [now apply Hn|].
    now rewrite String.eqb_refl in E.
Qed.

(** Downloading a list of symbols never raises, whatever the downloads do:
    the result has each key once, every key is one of the symbols asked
    for, a symbol whose download can only succeed is a key, and a symbol
    whose download can only fail is not. *)
Theorem get_multiple_symbols_keeps_going
        (get_historical_prices : string -> string -> string -> M DataFrame)
        (str : exn -> string) symbols start_date end_date s :
  exists results s',
    BaseAPIClient.get_multiple_symbols get_historical_prices str
      symbols start_date end_date s = (Ok results, s')
    /\ NoDup (py.keys results)
    /\ (forall k, In k (py.keys results) -> In k symbols)
    /\ (forall k, In k symbols ->
                  (forall s0, fetched get_historical_prices
                                      k start_date end_date s0 = true) ->
                  In k (py.keys results))
    /\ (forall k, (forall s0, fetched get_historical_prices
                                      k start_date end_date s0 = false) ->
                  ~ In k (py.keys results)).
Proof.
  unfold BaseAPIClient.get_multiple_symbols.
  set (f := fun (results : py.dict DataFrame) (symbol : string) (s : State) => _).
  assert (G : forall symbols acc s, NoDup (py.keys acc) ->
            exists results s',
              foldM f symbols acc s = (Ok results, s')
              /\ NoDup (py.keys results)
              /\ (forall k, In k (py.keys results) ->
                            In k (py.keys acc) \/ In k symbols)
              /\ (forall k, In k (py.keys acc) -> In k (py.keys results))
              /\ (forall k, In k symbols ->
                    (forall s0, fetched get_historical_prices
                                        k start_date end_date s0 = true) ->
                    In k (py.keys results))
              /\ (forall k,
                    (forall s0, fetched get_historical_prices
                                        k start_date end_date s0 = false) ->
                    In k (py.keys results) -> In k (py.keys acc))).
  { clear symbols s. induction symbols as [|a l IH]; intros acc s Hnd.
    - exists acc, s. cbn. unfold ret. repeat split; auto.
      intros k [].
    - cbn [foldM]. unfold bind at 1. unfold f at 1.
      destruct (get_historical_prices a start_date end_date s)
        as [[df|e] s1] eqn:E.
      + unfold bind at 1, print, ret at 1.
        match goal with
        | |- context [foldM f l ?acc' ?st] =>
            destruct (IH acc' st (setitem_NoDup acc a df Hnd))
              as (results & s' & Hrun & Hn & Hsub & Hacc & Hok & Hbad)
        end.
        exists results, s'. split; [exact Hrun|]. split; [exact Hn|].
        split; [|split; [|split]].
        * intros k Hk. destruct (Hsub k Hk) as [H|H].
          -- apply setitem_keys in H. destruct H as [H| ->];
               [now left|right; now left].
          -- right; now right.
        * intros k Hk. apply Hacc, setitem_keys. now left.
        * intros k [->|Hk] Hf; [|now apply Hok].
          apply Hacc, setitem_keys. now right.
        * intros k Hf Hk. specialize (Hbad k Hf Hk).
          apply setitem_keys in Hbad. destruct Hbad as [H| ->]; [exact H|].
          specialize (Hf s). unfold fetched in Hf. rewrite E in Hf.
          discriminate.
      + unfold bind at 1, print, ret at 1.
        match goal with
        | |- context [foldM f l ?acc' ?st] =>
            destruct (IH acc' st Hnd)
              as (results & s' & Hrun & Hn & Hsub & Hacc & Hok & Hbad)
        end.
        exists results, s'. split; [exact Hrun|]. split; [exact Hn|].
        split; [|split; [|split]].
        * intros k Hk. destruct (Hsub k Hk) as [H|H];
            [now left|right; now right].
        * exact Hacc.
        * intros k [->|Hk] Hf; [|now apply Hok].
          specialize (Hf s). unfold fetched in Hf. rewrite E in Hf.
          discriminate.
        * exact Hbad. }
  destruct (G symbols [] s (NoDup_nil _))
    as (results & s' & Hrun & Hn & Hsub & _ & Hok & Hbad).
  exists results, s'. split; [exact Hrun|]. split; [exact Hn|].
  split; [|split].
  - intros k Hk. destruct (Hsub k Hk) as [[]|H]. exact H.
  - exact Hok.
  - intros k Hf Hk. exact (Hbad k Hf Hk).
Qed.

(** ** Frames from Yahoo Finance *)

Lemma mem_map_iff (g : string -> string) k l :
  py.mem k (map g l) = true <-> exists c, In c l /\ g c = k.
Proof.
  unfold py.mem. rewrite existsb_exists. split.
  - intros (x & Hin & Hx). apply in_map_iff in Hin.
    destruct Hin as (c & <- & Hc). apply String.eqb_eq in Hx.
    exists c. split; [exact Hc|now symmetry].
  - intros (c & Hc & <-). exists (g c). split.
    + now apply in_map.
    + apply String.eqb_refl.
Qed.

Lemma yahoo_rename_cases s :
  match py.get [("index", "date"); ("adj close", "adj_close")] s with
  | Some n => n
  | None => s
  end
  = if String.eqb "index" s then "date"
    else if String.eqb "adj close" s then "adj_close" else s.
Proof.
  cbn [py.get]. destruct (String.eqb "index" s); [reflexivity|].
  destruct (String.eqb "adj close" s); reflexivity.
Qed.

(** What a standardised Yahoo frame looks like.  The old index is numbered
    away into the first column; the result has a [date] column exactly when
    the index or a column was named, in any case, [date] or [index], and a
    [close] column exactly when one was named, in any case, [close]; no
    column is left under the name [index] or [adj close]. *)
Theorem yahoo_standardize_columns index_name raw out :
  YahooFinanceExtractor._standardize_output index_name raw = Ok out ->
  exists n first rest,
    n = match index_name with
        | Some n => n
        | None => if py.mem "index" (pd.columns raw) then "level_0"
                  else "index"
        end
    /\ df_index out = pd.RangeIndex (pd.nrows raw)
    /\ df_columns out = first :: rest
    /\ col_values first = df_index raw
    /\ List.length rest = List.length (df_columns raw)
    /\ (py.mem "date" (pd.columns out) = true <->
        exists c, In c (n :: pd.columns raw)
                  /\ (py.lower c = "date" \/ py.lower c = "index"))
    /\ (py.mem "close" (pd.columns out) = true <->
        exists c, In c (n :: pd.columns raw) /\ py.lower c = "close")
    /\ py.mem "index" (pd.columns out) = false
    /\ py.mem "adj close" (pd.columns out) = false.
Proof.
  unfold YahooFinanceExtractor._standardize_output, pd.reset_index_named.
  set (n := match index_name with Some n => n | None => _ end).
  destruct (py.mem n (pd.columns raw)); [discriminate|].
  intros H. inversion H as [Hout]. clear H. subst out.
  set (g := fun s => if String.eqb "index" (py.lower s) then "date"
                     else if String.eqb "adj close" (py.lower s)
                          then "adj_close" else py.lower s).
  assert (Hcols : pd.columns
            (pd.rename
               (pd.columns_str_lower
                  (mkDataFrame (pd.RangeIndex (pd.nrows raw)) dt_int64
                     (mkColumn n (df_index_dtype raw) (df_index raw)
                      :: df_columns raw)))
               [("index", "date"); ("adj close", "adj_close")])
          = map g (n :: pd.columns raw)).
  { unfold pd.columns, pd.rename, pd.columns_str_lower.
    cbn [df_columns df_index df_index_dtype].
    cbn [map col_name]. rewrite !map_map. f_equal.
    - apply yahoo_rename_cases.
    - apply map_ext. intros c. cbn [col_name]. apply yahoo_rename_cases. }
  eexists n, _, _. split; [reflexivity|].
  split; [reflexivity|].
  split; [unfold pd.rename, pd.columns_str_lower;
          cbn [df_columns map]; reflexivity|].
  split; [reflexivity|].
  split; [now rewrite !length_map|].
  rewrite Hcols. split; [|split; [|split]].
  - rewrite mem_map_iff. split; intros (c & Hc & Hg); exists c;
      (split; [exact Hc|]); unfold g in *.
    + destruct (String.eqb "index" (py.lower c)) eqn:E1.
      * right. apply String.eqb_eq in E1. now symmetry.
      * destruct (String.eqb "adj close" (py.lower c)); [discriminate|].
        now left.
    + destruct Hg as [Hg|Hg]; rewrite Hg; reflexivity.
  - rewrite mem_map_iff. split; intros (c & Hc & Hg); exists c;
      (split; [exact Hc|]); unfold g in *.
    + destruct (String.eqb "index" (py.lower c)); [discriminate|].
      destruct (String.eqb "adj close" (py.lower c)); [discriminate|].
      exact Hg.
    + rewrite Hg. reflexivity.
  - destruct (py.mem "index" (map g (n :: pd.columns raw))) eqn:E;
      [|reflexivity].
    apply mem_map_iff in E. destruct E as (c & _ & Hg). unfold g in Hg.
    destruct (String.eqb "index" (py.lower c)) eqn:E1; [discriminate|].
    destruct (String.eqb "adj close" (py.lower c)); [discriminate|].
    rewrite Hg in E1. discriminate.
  - destruct (py.mem "adj close" (map g (n :: pd.columns raw))) eqn:E;
      [|reflexivity].
    apply mem_map_iff in E. destruct E as (c & _ & Hg). unfold g in Hg.
    destruct (String.eqb "index" (py.lower c)) eqn:E1; [discriminate|].
    destruct (String.eqb "adj close" (py.lower c)) eqn:E2; [discriminate|].
    rewrite Hg in E2. discriminate.
Qed.

(** ** Frames from Alpha Vantage *)

Lemma label_eqb_refl l : label_eqb l l = true.
Proof.
  destruct l as [q| | |]; try reflexivity.
  unfold label_eqb, feqb, fcmp. now rewrite (proj1 (Qeq_alt q q) (Qeq_refl q)).
Qed.

Lemma align_mask_skip idx l (b : bool) mask :
  existsb (label_eqb l) idx = false ->
  pd.align_mask idx ((l, b) :: mask) = pd.align_mask idx mask.
Proof.
  induction idx as [|x idx IH]; intros H; [reflexivity|].
  cbn [existsb] in H. apply orb_false_iff in H. destruct H as [Hx Hr].
  cbn [pd.align_mask pd.lookup]. rewrite Hx, (IH Hr). reflexivity.
Qed.

(** A mask computed from a frame's own rows is aligned as it stands, as long
    as no label occurs twice. *)
Lemma align_mask_own idx flags :
  List.length flags = List.length idx ->
  pd.has_duplicates idx = false ->
  pd.align_mask idx (combine idx flags) = Some flags.
Proof.
  revert flags. induction idx as [|l idx IH]; intros [|b flags] Hlen Hd;
    try discriminate; [reflexivity|].
  cbn [pd.has_duplicates] in Hd. apply orb_false_iff in Hd.
  destruct Hd as [Hl Hd].
  cbn [combine]. cbn [pd.align_mask]. cbn [pd.lookup].
  rewrite label_eqb_refl, (align_mask_skip _ _ _ _ Hl), IH; auto.
Qed.

Lemma select_map_filter {A} (p : A -> bool) l :
  pd.select (map p l) l = filter p l.
Proof.
  induction l as [|x l IH]; [reflexivity|].
  cbn [map pd.select filter]. destruct (p x); now rewrite IH.
Qed.

Lemma getitem_map_values df idx dt (h : list float -> list float) name c :
  pd.getitem df name = Ok c ->
  pd.getitem
    (mkDataFrame idx dt
       (map (fun c0 => mkColumn (col_name c0) (col_dtype c0)
                                (h (col_values c0)))
            (df_columns df))) name
  = Ok (mkColumn name (col_dtype c) (h (col_values c))).
Proof.
  intros H. pose proof (getitem_In _ _ _ H) as [_ Hn].
  unfold pd.getitem in *. cbn [df_columns].
  assert (E : forall l,
             filter (fun c0 => String.eqb (col_name c0) name)
                    (map (fun c0 => mkColumn (col_name c0) (col_dtype c0)
                                             (h (col_values c0))) l)
             = map (fun c0 => mkColumn (col_name c0) (col_dtype c0)
                                       (h (col_values c0)))
                   (filter (fun c0 => String.eqb (col_name c0) name) l)).
  { induction l as [|x l IH]; [reflexivity|].
    cbn [map filter col_name]. destruct (String.eqb (col_name x) name);
      cbn [map]; now rewrite IH. }
  rewrite E.
  destruct (filter _ (df_columns df)) as [|x [|y t]]; try discriminate.
  inversion H; subst x. cbn [map]. now rewrite Hn.
Qed.

Lemma select_rows_of {A B} (p : A -> bool) (keys : list A) (l : list B) :
  pd.select (map p keys) l
  = map snd (filter (fun row => p (fst row)) (combine keys l)).
Proof.
  revert l. induction keys as [|k keys IH]; intros [|x l];
    try reflexivity.
  - cbn [map pd.select combine filter]. now destruct (p k).
  - cbn [map pd.select combine filter fst]. destruct (p k); cbn [map snd];
      now rewrite IH.
Qed.

(** Filtering by a date range keeps exactly the rows whose date lies between
    the two bounds, both included: every column keeps its name and dtype
    and, in their order, the cells of the rows whose date is in range, so
    the cells of a row stay together; the rows are numbered anew. *)
Theorem filter_by_date_range_rows (to_datetime : string -> result float)
        df start_date end_date start stop date :
  to_datetime start_date = Ok start ->
  to_datetime end_date = Ok stop ->
  pd.getitem df "date" = Ok date ->
  col_dtype date = dt_datetime64 ->
  List.length (col_values date) = pd.nrows df ->
  pd.has_duplicates (df_index df) = false ->
  let in_range := fun d => fleb start d && fleb d stop in
  let kept := filter in_range (col_values date) in
  exists out,
    AlphaVantageExtractor._filter_by_date_range to_datetime
      df start_date end_date = Ok out
    /\ df_index out = pd.RangeIndex (List.length kept)
    /\ df_index_dtype out = dt_int64
    /\ df_columns out
       = map (fun c =>
                mkColumn (col_name c) (col_dtype c)
                  (map snd
                       (filter (fun row => in_range (fst row))
                               (combine (col_values date) (col_values c)))))
             (df_columns df)
    /\ pd.getitem out "date" = Ok (mkColumn "date" dt_datetime64 kept).
Proof.
  intros Hs He Hd Hdt Hlen Hnd in_range kept.
  unfold AlphaVantageExtractor._filter_by_date_range.
  rewrite Hs, He, Hd. cbn [AlphaVantageExtractor.and_then]. rewrite Hdt.
  unfold pd.getitem_bool.
  change (fun d => fgeb d start && fleb d stop) with in_range.
  rewrite align_mask_own by (rewrite ?length_map; auto).
  cbn [AlphaVantageExtractor.and_then].
  eexists. split; [reflexivity|].
  assert (Hn : forall {A B} (fl : list bool) (l1 : list A) (l2 : list B),
             List.length l1 = List.length l2 ->
             List.length (pd.select fl l1) = List.length (pd.select fl l2)).
  { intros A B fl. induction fl as [|[|] fl IH]; intros [|x l1] [|y l2] Hl;
      try discriminate; try reflexivity; cbn [pd.select];
      injection Hl as Hl; [cbn [List.length]; f_equal|]; now apply IH. }
  split.
  { unfold pd.reset_index_drop, pd.select_rows, pd.nrows.
    cbn [df_index]. f_equal. unfold kept.
    rewrite <- select_map_filter. apply Hn. now symmetry. }
  split; [reflexivity|].
  split.
  { unfold pd.reset_index_drop, pd.select_rows. cbn [df_columns].
    apply map_ext. intros c. now rewrite select_rows_of. }
  unfold pd.reset_index_drop, pd.select_rows. cbn [df_columns].
  rewrite (getitem_map_values df _ _ _ "date" date Hd).
  rewrite Hdt, select_map_filter. reflexivity.
Qed.

Lemma label_eqb_of_nat a b : label_eqb (of_nat a) (of_nat b) = Nat.eqb a b.
Proof.
  unfold label_eqb, feqb, fcmp, of_nat, of_Z, Qcompare.
  cbn [Qnum Qden inject_Z]. rewrite !Z.mul_1_r.
  destruct (Nat.eqb_spec a b) as [->|Hne].
  - now rewrite Z.compare_refl.
  - destruct (Z.compare_spec (Z.of_nat a) (Z.of_nat b)); try reflexivity.
    lia.
Qed.

Lemma RangeIndex_no_duplicates n : pd.has_duplicates (pd.RangeIndex n) = false.
Proof.
  unfold pd.RangeIndex. generalize 0%nat as a.
  induction n as [|n IH]; intros a; [reflexivity|].
  cbn [seq map pd.has_duplicates]. rewrite IH, orb_false_r.
  destruct (existsb _ _) eqn:E; [|reflexivity].
  apply existsb_exists in E. destruct E as (x & Hin & Hx).
  apply in_map_iff in Hin. destruct Hin as (j & <- & Hj).
  apply in_seq in Hj. rewrite label_eqb_of_nat in Hx.
  apply Nat.eqb_eq in Hx. lia.
Qed.

Lemma traverse_length {A B} (f : A -> result B) l bs :
  AlphaVantageExtractor.traverse f l = Ok bs ->
  List.length bs = List.length l.
Proof.
  revert bs. induction l as [|a l IH]; intros bs H; cbn in H.
  - inversion H. reflexivity.
  - destruct (f a) as [b|e]; [|discriminate]. cbn in H.
    destruct (AlphaVantageExtractor.traverse f l) as [bs'|e];
      [|discriminate].
    cbn in H. inversion H. cbn. now rewrite (IH bs' eq_refl).
Qed.

Lemma take_length l order : List.length (pd.take l order) = List.length order.
Proof. unfold pd.take. apply length_map. Qed.

(** A reply without daily quotes, or with an empty table of them, is not
    turned into an empty frame: standardising it raises [KeyError] on
    [date]. *)
Theorem standardize_output_without_quotes
        (to_datetime float_of_str int_of_str : string -> result float)
        (raw_data : py.dict (py.dict (py.dict string))) :
  py.get raw_data "Time Series (Daily)" = None
  \/ py.get raw_data "Time Series (Daily)" = Some [] ->
  AlphaVantageExtractor._standardize_output
    to_datetime float_of_str int_of_str raw_data
  = Raise (KeyError "date").
Proof.
  intros [H|H]; unfold AlphaVantageExtractor._standardize_output;
    rewrite H; reflexivity.
Qed.

(** A table of quotes whose every entry parses gives a frame with the seven
    standard columns, one row per entry, numbered from zero, with the dates
    in ascending order; the dates are those of the entries. *)
Theorem standardize_output_sorted
        (to_datetime float_of_str int_of_str : string -> result float)
        (raw_data : py.dict (py.dict (py.dict string)))
        (time_series : py.dict (py.dict string)) rows :
  py.get raw_data "Time Series (Daily)" = Some time_series ->
  time_series <> [] ->
  AlphaVantageExtractor.traverse
    (AlphaVantageExtractor.parse_row to_datetime float_of_str int_of_str)
    time_series = Ok rows ->
  exists out dates,
    AlphaVantageExtractor._standardize_output
      to_datetime float_of_str int_of_str raw_data = Ok out
    /\ pd.columns out
       = ["date"; "open"; "high"; "low"; "close"; "adj_close"; "volume"]
    /\ df_index out = pd.RangeIndex (List.length time_series)
    /\ pd.has_duplicates (df_index out) = false
    /\ (forall c, In c (df_columns out) ->
                  List.length (col_values c) = List.length time_series)
    /\ pd.getitem out "date" = Ok (mkColumn "date" dt_datetime64 dates)
    /\ ascending dates
    /\ Permutation dates (map AlphaVantageExtractor.row_date rows).
Proof.
  intros Hget Hne Hrows.
  pose proof (traverse_length _ _ _ Hrows) as Hlen.
  unfold AlphaVantageExtractor._standardize_output.
  rewrite Hget, Hrows. cbn [AlphaVantageExtractor.and_then].
  destruct rows as [|r rows].
  { destruct time_series; [now elim Hne|discriminate]. }
  set (rs := r :: rows) in *.
  unfold AlphaVantageExtractor.DataFrame_of_rows. fold rs.
  unfold pd.sort_values, pd.getitem. cbn [df_columns filter col_name].
  cbn [String.eqb Ascii.eqb Bool.eqb andb].
  cbn [AlphaVantageExtractor.and_then col_values].
  set (order := pd.argsort (map AlphaVantageExtractor.row_date rs)).
  assert (Ho : List.length order = List.length time_series).
  { unfold order. now rewrite argsort_length, length_map. }
  eexists. exists (pd.take (map AlphaVantageExtractor.row_date rs) order).
  split; [reflexivity|].
  split; [reflexivity|].
  assert (Hidx : df_index (pd.reset_index_drop
                   (pd.take_rows
                      (mkDataFrame (pd.RangeIndex (List.length rs)) dt_int64
                         [mkColumn "date" dt_datetime64
                            (map AlphaVantageExtractor.row_date rs);
                          mkColumn "open" dt_float64
                            (map AlphaVantageExtractor.row_open rs);
                          mkColumn "high" dt_float64
                            (map AlphaVantageExtractor.row_high rs);
                          mkColumn "low" dt_float64
                            (map AlphaVantageExtractor.row_low rs);
                          mkColumn "close" dt_float64
                            (map AlphaVantageExtractor.row_close rs);
                          mkColumn "adj_close" dt_float64
                            (map AlphaVantageExtractor.row_adj_close rs);
                          mkColumn "volume" dt_int64
                            (map AlphaVantageExtractor.row_volume rs)])
                      order))
                 = pd.RangeIndex (List.length time_series)).
  { unfold pd.reset_index_drop, pd.take_rows, pd.nrows. cbn [df_index].
    now rewrite take_length, Ho. }
  split; [exact Hidx|].
  split; [unfold pd.reset_index_drop; cbn [df_index];
          apply RangeIndex_no_duplicates|].
  split.
  { intros c Hc. unfold pd.reset_index_drop, pd.take_rows in Hc.
    cbn [df_columns map] in Hc.
    repeat (destruct Hc as [<-|Hc];
            [cbn [col_values]; now rewrite take_length|]).
    destruct Hc. }
  split; [reflexivity|].
  split; [apply take_argsort_sorted|apply take_argsort_perm].
Qed.

Lemma yahoo_standardize_columns_witness :
  exists out,
    YahooFinanceExtractor._standardize_output (Some "Date") yahoo_daily_frame
    = Ok out
    /\ exists n first rest,
        n = "Date"
        /\ df_index out = pd.RangeIndex (pd.nrows yahoo_daily_frame)
        /\ df_columns out = first :: rest
        /\ col_values first = df_index yahoo_daily_frame
        /\ List.length rest = List.length (df_columns yahoo_daily_frame)
        /\ (py.mem "date" (pd.columns out) = true <->
            exists c, In c (n :: pd.columns yahoo_daily_frame)
                      /\ (py.lower c = "date" \/ py.lower c = "index"))
        /\ (py.mem "close" (pd.columns out) = true <->
            exists c, In c (n :: pd.columns yahoo_daily_frame)
                      /\ py.lower c = "close")
        /\ py.mem "index" (pd.columns out) = false
        /\ py.mem "adj close" (pd.columns out) = false.
Proof.
  eexists. split; [vm_compute; reflexivity|].
  apply (yahoo_standardize_columns (Some "Date") yahoo_daily_frame).
  vm_compute; reflexivity.
Defined.

Lemma filter_by_date_range_rows_witness :
  exists out,
    AlphaVantageExtractor._filter_by_date_range (read sample_days)
      january_frame "2024-01-02" "2024-01-03" = Ok out
    /\ df_index out = pd.RangeIndex 2
    /\ df_index_dtype out = dt_int64
    /\ df_columns out
       = [mkColumn "date" dt_datetime64 (floats [2; 3]%Z);
          mkColumn "close" dt_float64 (floats [110; 121]%Z)]
    /\ pd.getitem out "date"
       = Ok (mkColumn "date" dt_datetime64 (floats [2; 3]%Z)).
Proof.
  apply (filter_by_date_range_rows (read sample_days) january_frame
           "2024-01-02" "2024-01-03" (Fin 2) (Fin 3)
           (mkColumn "date" dt_datetime64 (floats [1; 2; 3]%Z)));
    vm_compute; reflexivity.
Defined.

Lemma standardize_output_without_quotes_witness :
  AlphaVantageExtractor._standardize_output
    (read sample_days) (read sample_numbers) (read sample_numbers)
    [("Time Series (Daily)", [])]
  = Raise (KeyError "date").
Proof.
  apply standardize_output_without_quotes. right. vm_compute; reflexivity.
Defined.

Lemma standardize_output_sorted_witness :
  exists out dates,
    AlphaVantageExtractor._standardize_output
      (read sample_days) (read sample_numbers) (read sample_numbers)
      sample_reply = Ok out
    /\ pd.columns out
       = ["date"; "open"; "high"; "low"; "close"; "adj_close"; "volume"]
    /\ df_index out = pd.RangeIndex 2
    /\ pd.has_duplicates (df_index out) = false
    /\ (forall c, In c (df_columns out) ->
                  List.length (col_values c) = 2%nat)
    /\ pd.getitem out "date" = Ok (mkColumn "date" dt_datetime64 dates)
    /\ ascending dates
    /\ Permutation dates [Fin 2; Fin 1].
Proof.
  eapply (standardize_output_sorted (read sample_days) (read sample_numbers)
            (read sample_numbers) sample_reply
            [("2024-01-02", sample_quote "110");
             ("2024-01-01", sample_quote "100")]
            [AlphaVantageExtractor.mkRow (Fin 2) (Fin 110) (Fin 110)
               (Fin 110) (Fin 110) (Fin 110) (Fin 100);
             AlphaVantageExtractor.mkRow (Fin 1) (Fin 100) (Fin 100)
               (Fin 100) (Fin 100) (Fin 100) (Fin 100)]).
  - vm_compute; reflexivity.
  - discriminate.
  - vm_compute; reflexivity.
Defined.

(** ** Filling missing dates: the calendar *)

Lemma take_seq_id l : pd.take l (seq 0 (List.length l)) = l.
Proof.
  unfold pd.take. induction l as [|x l IH]; [reflexivity|].
  cbn [List.length seq map nth]. f_equal.
  rewrite <- seq_shift, map_map. exact IH.
Qed.

Lemma sort_keys_sorted_id l : Sorted key_le l -> pd.sort_keys l = l.
Proof.
  induction 1 as [|p l Hs IH Hd]; [reflexivity|].
  cbn [pd.sort_keys fold_right]. fold (pd.sort_keys l). rewrite IH.
  destruct Hd as [|q r Hpq]; [reflexivity|].
  cbn [pd.insert_key]. unfold key_le in Hpq. now rewrite Hpq.
Qed.

Lemma combine_sorted (idx : list nat) keys :
  List.length idx = List.length keys ->
  ascending keys -> Sorted key_le (combine idx keys).
Proof.
  intros Hlen Hs. revert idx Hlen.
  induction Hs as [|x l Hs IH Hd]; intros [|i idx] Hlen; try discriminate;
    cbn [combine]; constructor.
  - apply IH. now injection Hlen.
  - destruct Hd as [|y r Hxy]; destruct idx as [|j idx];
      try discriminate; constructor. exact Hxy.
Qed.

Lemma map_fst_combine {A B} (l1 : list A) (l2 : list B) :
  List.length l1 = List.length l2 -> map fst (combine l1 l2) = l1.
Proof.
  revert l2. induction l1 as [|a l1 IH]; intros [|b l2] H;
    try discriminate; [reflexivity|].
  cbn. f_equal. apply IH. now injection H.
Qed.

(** Sorting rows that are in order already leaves them where they are. *)
Lemma take_argsort_id keys :
  ascending keys -> pd.take keys (pd.argsort keys) = keys.
Proof.
  intros H. unfold pd.argsort.
  rewrite sort_keys_sorted_id
    by (apply combine_sorted; [apply length_seq|exact H]).
  rewrite map_fst_combine by apply length_seq. apply take_seq_id.
Qed.

Lemma Sorted_map_seq {A} (R : A -> A -> Prop) (f : nat -> A) s m :
  (forall k, R (f k) (f (S k))) -> Sorted R (map f (seq s m)).
Proof.
  intros H. revert s. induction m as [|m IH]; intros s; cbn; constructor.
  - apply IH.
  - destruct m; cbn; constructor. apply H.
Qed.

Lemma date_range_ascending x y dr :
  pd.date_range x y = Ok dr -> ascending dr.
Proof.
  unfold pd.date_range. destruct x as [a| | |]; try discriminate.
  destruct y as [b| | |]; try discriminate.
  set (l := map _ (seq 0 _)).
  destruct (Qle_bool a b); intros H; injection H as <-; [|constructor].
  subst l. unfold ascending. apply Sorted_map_seq. intros k.
  unfold pd.na_last_leb, fin, isna. apply fleb_Fin.
  rewrite !Qred_correct. rewrite Nat2Z.inj_succ, <- Z.add_1_r, inject_Z_plus.
  rewrite Qplus_assoc. rewrite <- (Qplus_0_r (a + inject_Z (Z.of_nat k))) at 1.
  apply Qplus_le_r. discriminate.
Qed.

Lemma getitem_first df c rest :
  df_columns df = c :: rest ->
  forallb (fun c' => negb (String.eqb (col_name c') (col_name c))) rest
  = true ->
  pd.getitem df (col_name c) = Ok c.
Proof.
  intros E H. unfold pd.getitem. rewrite E. cbn [filter].
  rewrite String.eqb_refl.
  replace (filter _ rest) with (@nil Column); [reflexivity|].
  symmetry. clear E. induction rest as [|x rest IH]; [reflexivity|].
  cbn [forallb] in H. apply andb_true_iff in H. destruct H as [Hx Hr].
  cbn [filter]. apply negb_true_iff in Hx. rewrite Hx. now apply IH.
Qed.

Lemma mem_false_In k l : py.mem k l = false -> ~ In k l.
Proof.
  unfold py.mem. intros H Hin.
  assert (E : existsb (String.eqb k) l = true).
  { apply existsb_exists. exists k. split; [exact Hin|apply String.eqb_refl]. }
  congruence.
Qed.

(** The frame [fill_missing_dates] hands to the constructor: the calendar as
    the [date] column, then the other columns under their names. *)
Lemma filled_frame_columns F date dr (G1 : DataFrame) :
  pd.getitem F "date" = Ok date ->
  py.mem "index" (pd.columns F) = false ->
  df_index G1 = dr ->
  df_index_dtype G1 = dt_datetime64 ->
  pd.columns G1
  = map col_name
        (filter (fun c' => negb (String.eqb (col_name c') "date"))
                (df_columns F)) ->
  exists tail,
    pd.rename (pd.reset_index G1) [("index", "date")]
    = mkDataFrame (pd.RangeIndex (List.length dr)) dt_int64
        (mkColumn "date" dt_datetime64 dr :: tail)
    /\ (forall t, In t tail ->
                  In (col_name t) (pd.columns F) /\ col_name t <> "date").
Proof.
  intros Hdate Hidx Hi Hdt Hcols.
  assert (Hsub : forall n, In n (pd.columns G1) ->
                           In n (pd.columns F) /\ n <> "date").
  { intros n Hn. rewrite Hcols in Hn. apply in_map_iff in Hn.
    destruct Hn as (c & <- & Hc). apply filter_In in Hc.
    destruct Hc as [Hc Hne]. split.
    - unfold pd.columns. now apply in_map.
    - intros E. rewrite E in Hne. discriminate. }
  assert (Hno : py.mem "index" (pd.columns G1) = false).
  { destruct (py.mem "index" (pd.columns G1)) eqn:E; [|reflexivity].
    apply mem_In in E. apply Hsub in E. destruct E as [E _].
    now apply mem_false_In in Hidx. }
  unfold pd.reset_index. rewrite Hno. unfold pd.rename, pd.nrows.
  cbn [df_index df_index_dtype df_columns map col_name col_dtype col_values
       py.get].
  rewrite String.eqb_refl, Hi, Hdt. eexists. split; [reflexivity|].
  intros t Ht. apply in_map_iff in Ht. destruct Ht as (c & <- & Hc).
  cbn [col_name].
  assert (Hn : In (col_name c) (pd.columns G1))
    by (unfold pd.columns; now apply in_map).
  destruct (String.eqb "index" (col_name c)) eqn:E.
  - apply String.eqb_eq in E. rewrite <- E in Hn.
    apply mem_false_In in Hno. contradiction.
  - now apply Hsub.
Qed.

(** Filling the missing dates of a series whose frame carries standard
    column names and no column called [index] gives, when it succeeds, a
    series with one row for every calendar day from the first to the last
    date of the original, in order; the frame of the original series stays
    as it was. *)
Theorem fill_missing_dates_calendar series method st ps' st' F date :
  nth_error (heap st) (PriceSeries.data series) = Some F ->
  pd.getitem F "date" = Ok date ->
  py.mem "index" (pd.columns F) = false ->
  forallb (fun c => String.eqb (standard_name c) c) (pd.columns F) = true ->
  DataCleaner.fill_missing_dates series method st = (Ok ps', st') ->
  exists a b,
    pd.min (col_values date) = Fin a
    /\ pd.max (col_values date) = Fin b
    /\ a <= b
    /\ dates_of ps' st' = Some (calendar a b)
    /\ (exists closes, closes_of ps' st' = Some closes
                       /\ List.length closes = List.length (calendar a b))
    /\ nth_error (heap st') (PriceSeries.data series) = Some F.
Proof.
  intros HF Hdate Hidx Hstd Hfill.
  unfold DataCleaner.fill_missing_dates in Hfill.
  apply bind_ok in Hfill. destruct Hfill as (data & s0 & Hd & Hfill).
  apply deref_ok in Hd. destruct Hd as [Hd ->].
  rewrite HF in Hd. injection Hd as <-.
  apply bind_ok in Hfill. destruct Hfill as (date' & s0 & Hg & Hfill).
  apply lift_ok in Hg. destruct Hg as [Hg ->].
  rewrite Hdate in Hg. injection Hg as <-.
  apply bind_ok in Hfill. destruct Hfill as (dr & s0 & Hdr & Hfill).
  apply lift_ok in Hdr. destruct Hdr as [Hdr ->].
  apply bind_ok in Hfill. destruct Hfill as (df1 & s0 & Hset & Hfill).
  apply lift_ok in Hset. destruct Hset as [Hset ->].
  unfold pd.set_index in Hset. rewrite Hdate in Hset. injection Hset as <-.
  apply bind_ok in Hfill. destruct Hfill as (df2 & s0 & Hre & Hfill).
  apply lift_ok in Hre. destruct Hre as [Hre ->].
  unfold pd.reindex in Hre. cbn [df_index df_columns] in Hre.
  destruct (pd.has_duplicates (col_values date)); [discriminate|].
  injection Hre as <-.
  set (others := filter (fun c' => negb (String.eqb (col_name c') "date"))
                        (df_columns F)) in *.
  set (G1 := if String.eqb method "ffill" then _ else _) in Hfill.
  assert (HG1 : df_index G1 = dr /\ df_index_dtype G1 = dt_datetime64
                /\ pd.columns G1 = map col_name others).
  { unfold G1.
    destruct (String.eqb method "ffill");
      [|destruct (String.eqb method "interpolate")];
      unfold pd.fillna_ffill, pd.interpolate_linear, pd.columns;
      cbn [df_index df_index_dtype df_columns];
      (split; [reflexivity|]); (split; [reflexivity|]);
      rewrite !map_map; apply map_ext; intros c; cbn [col_name col_dtype];
      try reflexivity.
    destruct (col_dtype c); reflexivity. }
  destruct HG1 as (Hi & Hdt & Hcols).
  destruct (filled_frame_columns F date dr G1 Hdate Hidx Hi Hdt Hcols)
    as (tail & HG & Htail).
  rewrite HG in Hfill. clearbody G1. clear HG Hi Hdt Hcols G1.
  set (G := mkDataFrame (pd.RangeIndex (List.length dr)) dt_int64
              (mkColumn "date" dt_datetime64 dr :: tail)) in *.
  unfold bind at 1, alloc in Hfill.
  assert (Hnd : forallb (fun c' => negb (String.eqb (col_name c') "date")) tail
                = true).
  { apply forallb_forall. intros t Ht. apply negb_true_iff.
    apply String.eqb_neq. now apply Htail. }
  pose proof (getitem_first G (mkColumn "date" dt_datetime64 dr) tail
                eq_refl Hnd) as HGd.
  cbn [col_name] in HGd.
  apply new_ok in Hfill. cbn [heap stdout rng] in Hfill.
  destruct Hfill as (df & date2 & c & Hdf & Hdate2 & Hdata & Hst' & Hclose & Hne).
  rewrite nth_error_app_last in Hdf. injection Hdf as <-.
  rewrite HGd in Hdate2. injection Hdate2 as <-.
  cbn [pd.is_datetime64_any_dtype col_dtype] in Hst'.
  set (F' := standardized (sorted_frame G (mkColumn "date" dt_datetime64 dr)))
    in *.
  assert (HF' : nth_error (heap st') (PriceSeries.data ps') = Some F').
  { rewrite Hst', Hdata. cbn [heap]. apply nth_error_app_last. }
  pose proof (date_range_ascending _ _ _ Hdr) as Hasc.
  assert (Hcols' : exists rest,
             df_columns F' = mkColumn "date" dt_datetime64 dr :: rest
             /\ forallb (fun c' => negb (String.eqb (col_name c') "date")) rest
                = true).
  { unfold F'. rewrite standardized_columns.
    unfold validated_input. cbn [pd.is_datetime64_any_dtype col_dtype].
    unfold G at 1. cbn [df_columns map col_name col_dtype col_values].
    rewrite (take_argsort_id dr Hasc).
    eexists. split; [reflexivity|].
    apply forallb_forall. intros t Ht. apply in_map_iff in Ht.
    destruct Ht as (t0 & <- & Ht0). cbn [col_name].
    destruct (Htail t0 Ht0) as [Hin Hnot].
    rewrite forallb_forall in Hstd. specialize (Hstd _ Hin).
    apply String.eqb_eq in Hstd. unfold standard_name in Hstd.
    rewrite Hstd. apply negb_true_iff, String.eqb_neq. exact Hnot. }
  destruct Hcols' as (rest & Hc' & Hrest).
  pose proof (getitem_first F' _ rest Hc' Hrest) as HF'd.
  cbn [col_name] in HF'd.
  destruct (close_inv _ _ _ _ Hclose) as (F2 & col & v & HF2 & Hcol & Hv & ->).
  rewrite HF' in HF2. injection HF2 as <-.
  apply numeric_values in Hv. subst v.
  assert (Hlenc : List.length (col_values col) = List.length dr).
  { destruct (getitem_In _ _ _ Hcol) as [Hin _].
    apply standardized_column_length in Hin. exact Hin. }
  assert (Hdrne : dr <> []).
  { intros ->. apply Hne. unfold F'. rewrite standardized_index.
    reflexivity. }
  unfold pd.date_range in Hdr.
  destruct (pd.min (col_values date)) as [a| | |]; try discriminate.
  destruct (pd.max (col_values date)) as [b| | |]; try discriminate.
  destruct (Qle_bool a b) eqn:Hab;
    [|injection Hdr as <-; now elim Hdrne].
  assert (Hcal : calendar a b = dr) by (unfold calendar; congruence).
  clear Hdr. rename Hcal into Hdr.
  exists a, b. split; [reflexivity|]. split; [reflexivity|].
  split; [now apply Qle_bool_iff|].
  split; [unfold dates_of; rewrite HF', HF'd, Hdr; reflexivity|].
  split.
  - exists (col_values col). split.
    + unfold closes_of. rewrite HF', Hcol. reflexivity.
    + rewrite Hdr. exact Hlenc.
  - rewrite Hst'. cbn [heap].
    assert (Hlt : (PriceSeries.data series < List.length (heap st))%nat).
    { apply nth_error_Some. rewrite HF. discriminate. }
    rewrite nth_error_app1 by (rewrite length_app; cbn; lia).
    rewrite nth_error_app1 by exact Hlt. exact HF.
Qed.

Lemma fill_missing_dates_calendar_witness :
  exists series st ps' st' F date,
    PriceSeries.new "A" 0%nat "yahoo" "stock" (state0 [gap_frame])
    = (Ok series, st)
    /\ nth_error (heap st) (PriceSeries.data series) = Some F
    /\ pd.getitem F "date" = Ok date
    /\ DataCleaner.fill_missing_dates series "ffill" st = (Ok ps', st')
    /\ exists a b,
        pd.min (col_values date) = Fin a
        /\ pd.max (col_values date) = Fin b
        /\ a <= b
        /\ dates_of ps' st' = Some (calendar a b)
        /\ (exists closes, closes_of ps' st' = Some closes
                           /\ List.length closes
                              = List.length (calendar a b))
        /\ nth_error (heap st') (PriceSeries.data series) = Some F.
Proof.
  eexists. eexists. eexists. eexists. eexists. eexists.
  split; [vm_compute; reflexivity|].
  match goal with
  | |- nth_error (heap ?s) _ = _ /\ _ => set (s0 := s)
  end.
  split; [vm_compute; reflexivity|].
  split; [vm_compute; reflexivity|].
  split; [vm_compute; reflexivity|].
  eapply (fill_missing_dates_calendar _ "ffill" s0).
  - vm_compute; reflexivity.
  - vm_compute; reflexivity.
  - vm_compute; reflexivity.
  - vm_compute; reflexivity.
  - vm_compute; reflexivity.
Defined.
